(** * RP-proj: the PMSAS front end and the engine it talks to

  A shallow embedding of the React components of the learning platform
  (authentication context, route protection, streak card, leaderboard,
  badges, progress dashboard, teacher analytics) and of the PMSAS service
  object they call.  Components are embedded as pure functions from their
  props, hook state and context to the view they return; event handlers as
  state transformers that also report the HTTP requests they issue. *)

From Stdlib Require Import ZArith QArith Ascii String.
From stdpp Require Import gmap strings list fin_maps pretty.

Local Open Scope string_scope.
Local Open Scope list_scope.
Local Open Scope Z_scope.

(** ** JavaScript values *)

Module Js.

(** The JSON-like values that cross the service boundary.  Numbers that
    occur there (ranks, limits, counters) are integers. *)
#[warnings="-register-all"] Inductive JsVal : Type :=
| JUndefined
| JNull
| JBool (b : bool)
| JNum (z : Z)
| JStr (s : string)
| JObj (fields : list (string * JsVal)).

(** ToBoolean *)
Definition truthy (v : JsVal) : bool :=
  match v with
  | JUndefined | JNull => false
  | JBool b => b
  | JNum z => negb (Z.eqb z 0)
  | JStr s => negb (String.eqb s "")
  | JObj _ => true
  end.

(** [a || b] *)
Definition or_else (a b : JsVal) : JsVal := if truthy a then a else b.

(** Own-property read on an object literal; a later duplicate key wins in
    JS, object literals here never repeat a key. *)
Fixpoint assoc (k : string) (fs : list (string * JsVal)) : JsVal :=
  match fs with
  | [] => JUndefined
  | (k', v) :: rest => if String.eqb k k' then v else assoc k rest
  end.

(** A formal parameter with a default initialiser: the default is used
    when the argument is missing or [undefined]. *)
Definition param (args : list JsVal) (i : nat) (dflt : JsVal) : JsVal :=
  match args !! i with
  | None | Some JUndefined => dflt
  | Some v => v
  end.

End Js.
Import Js.

(** ** context/AuthContext.jsx *)

Module Auth.

Record User : Type := mkUser {
  id : string;
  role : string;
  first_name : string;
}.

(** The hook state of [AuthProvider]. *)
Record AuthState : Type := mkAuthState {
  user : option User;       (* [null] is [None] *)
  loading : bool;
  error : option string;
}.

(** [user?.role === r] *)
Definition role_is (u : option User) (r : string) : bool :=
  match u with
  | None => false            (* undefined === 'r' *)
  | Some x => String.eqb (role x) r
  end.

(** The data fields of the context [value]. *)
Record AuthValue : Type := mkAuthValue {
  v_user : option User;
  v_loading : bool;
  v_error : option string;
  isAuthenticated : bool;
  isAdmin : bool;
  isTeacher : bool;
  isStudent : bool;
}.

Definition value (st : AuthState) : AuthValue :=
  {| v_user := user st;
     v_loading := loading st;
     v_error := error st;
     isAuthenticated := bool_decide (is_Some (user st));   (* !!user *)
     isAdmin := role_is (user st) "admin";
     isTeacher := role_is (user st) "teacher";
     isStudent := role_is (user st) "student" |}.

(** [logout] *)
Definition logout (st : AuthState) : AuthState :=
  {| user := None; loading := loading st; error := error st |}.

(** [user?.id] *)
Definition user_id (u : option User) : option string := id <$> u.

End Auth.

(** ** components/common/ProtectedRoute.jsx *)

Module Route.
Import Auth.

Inductive View (A : Type) : Type :=
| LoadingScreen
| Navigate (to : string)
| Children (c : A).
Arguments LoadingScreen {A}.
Arguments Navigate {A} to.
Arguments Children {A} c.

(** [requiredRole && user?.role !== requiredRole]: [requiredRole] is a
    string prop or absent, and the guard tests it for truthiness first, so
    the empty string counts as absent. *)
Definition role_mismatch (u : option User) (requiredRole : option string) : bool :=
  match requiredRole with
  | None => false
  | Some r => negb (String.eqb r "") && negb (role_is u r)
  end.

Definition ProtectedRoute {A} (ctx : AuthValue) (requiredRole : option string)
    (children : A) : View A :=
  if v_loading ctx then LoadingScreen
  else if negb (isAuthenticated ctx) then Navigate "/login"
  else if role_mismatch (v_user ctx) requiredRole then Navigate "/dashboard"
  else Children children.

End Route.

(** ** What a component returns *)

Module Dom.

(** A rendered element: its [className], its other attributes, its
    children.  [Num] is a number interpolated into JSX. *)
#[warnings="-register-all"] Inductive Node : Type :=
| El (cls : string) (attrs : list (string * string)) (kids : list Node)
| Txt (s : string)
| Num (z : Z).

(** [{c && <x/>}] with a boolean [c]: React renders nothing for [false]. *)
Definition when (c : bool) (n : Node) : list Node := if c then [n] else [].

Definition cls_of (n : Node) : string :=
  match n with El c _ _ => c | _ => "" end.

Definition kids_of (n : Node) : list Node :=
  match n with El _ _ ks => ks | _ => [] end.

(** Decimal rendering of a number inside a template literal. *)
Definition show (z : Z) : string := pretty z.

(** [s.toLowerCase()] on the ASCII letters, which is all the labels have. *)
Definition lower_char (a : ascii) : ascii :=
  let n := nat_of_ascii a in
  if (65 <=? n)%nat && (n <=? 90)%nat then ascii_of_nat (n + 32) else a.

Fixpoint toLowerCase (s : string) : string :=
  match s with
  | EmptyString => EmptyString
  | String a rest => String (lower_char a) (toLowerCase rest)
  end.

(** The text a reader sees in a rendered tree ([textContent]). *)
Fixpoint text_of (n : Node) : string :=
  match n with
  | El _ _ ks =>
      (fix all (l : list Node) : string :=
         match l with
         | [] => ""
         | k :: rest => text_of k +:+ all rest
         end) ks
  | Txt s => s
  | Num z => show z
  end.

End Dom.

(** ** config/api and services/pmsasService.js *)

Module Api.

Inductive Verb : Type := GET | POST.

Record Request : Type := mkRequest {
  verb : Verb;
  url : string;
  params : list (string * JsVal);
  body : JsVal;
}.

(** What an awaited axios call settles to: [response.data], or a rejection
    whose [err.response?.data?.error] is [error]. *)
Inductive Reply (D : Type) : Type :=
| Resolved (data : D)
| Rejected (error : JsVal).
Arguments Resolved {D} data.
Arguments Rejected {D} error.

(** What a [catch] clause can receive. *)
Inductive Thrown : Type :=
| TypeError (msg : string)
| AxiosError (error : JsVal).

(** [err.response?.data?.error] *)
Definition response_error (e : Thrown) : JsVal :=
  match e with
  | TypeError _ => JUndefined
  | AxiosError v => v
  end.

(** The result of running a piece of handler code: the requests that left
    the browser, in order, and the value or the exception. *)
Record Ran (A : Type) : Type := mkRan {
  sent : list Request;
  outcome : Thrown + A;
}.
Arguments mkRan {A} sent outcome.
Arguments sent {A} r.
Arguments outcome {A} r.

Definition get_ (u : string) (ps : list (string * JsVal)) : Request :=
  {| verb := GET; url := u; params := ps; body := JUndefined |}.

Definition post_ (u : string) (b : JsVal) : Request :=
  {| verb := POST; url := u; params := []; body := b |}.

(** Each method of the service object, as the request it builds from its
    actual arguments. *)
Definition logActivity (args : list JsVal) : Request :=
  post_ "/pmsas/activity" (param args 0 JUndefined).

Definition getStreak (_ : list JsVal) : Request := get_ "/pmsas/streak" [].

Definition getAllBadges (args : list JsVal) : Request :=
  let category := param args 0 JNull in
  get_ "/pmsas/badges" (if truthy category then [("category", category)] else []).

Definition getMyBadges (_ : list JsVal) : Request := get_ "/pmsas/badges/me" [].

Definition getLeaderboard (args : list JsVal) : Request :=
  let type := param args 0 (JStr "streak") in
  let limit := param args 1 (JNum 10) in
  get_ "/pmsas/leaderboard" [("type", type); ("limit", limit)].

Definition getPoints (_ : list JsVal) : Request := get_ "/pmsas/points" [].

Definition getMyAnalytics (_ : list JsVal) : Request := get_ "/pmsas/analytics/me" [].

Definition getSummary (_ : list JsVal) : Request := get_ "/pmsas/summary" [].

Definition getTeacherDashboard (args : list JsVal) : Request :=
  let classId := param args 0 JNull in
  get_ "/pmsas/dashboard/teacher"
       (if truthy classId then [("class_id", classId)] else []).

Definition getAtRiskStudents (_ : list JsVal) : Request :=
  get_ "/pmsas/dashboard/at-risk" [].

(** The exported object: property name to method. *)
Definition pmsasService : gmap string (list JsVal → Request) :=
  list_to_map
    [ ("logActivity", logActivity);
      ("getStreak", getStreak);
      ("getAllBadges", getAllBadges);
      ("getMyBadges", getMyBadges);
      ("getLeaderboard", getLeaderboard);
      ("getPoints", getPoints);
      ("getMyAnalytics", getMyAnalytics);
      ("getSummary", getSummary);
      ("getTeacherDashboard", getTeacherDashboard);
      ("getAtRiskStudents", getAtRiskStudents) ].

(** [await pmsasService.name(...args)] against a server [api].  A property
    the object does not have is [undefined], and calling it throws before
    anything is sent. *)
Definition call {D} (api : Request → Reply D) (name : string) (args : list JsVal)
    : Ran D :=
  match pmsasService !! name with
  | None => mkRan [] (inl (TypeError ("pmsasService." +:+ name +:+ " is not a function")))
  | Some build =>
      let rq := build args in
      match api rq with
      | Resolved d => mkRan [rq] (inr d)
      | Rejected e => mkRan [rq] (inl (AxiosError e))
      end
  end.

End Api.

(** ** components/pmsas/StreakCard.jsx *)

Module StreakCard.
Import Api.

(** The [streak] object of the streak endpoints, with the fields the card
    reads. *)
Record Streak : Type := mkStreak {
  current_streak : Z;
  longest_streak : Z;
  total_active_days : Z;
  freeze_available : Z;
  streak_at_risk : bool;
}.

(** [response.data] of the streak endpoints. *)
Record Data : Type := mkData { d_streak : option Streak }.

Record State : Type := mkState {
  streak : option Streak;      (* useState(null) *)
  loading : bool;
  freezing : bool;
  message : JsVal;             (* useState('') *)
}.

Definition initial : State :=
  {| streak := None; loading := true; freezing := false; message := JStr "" |}.

Definition fetchStreak (api : Request → Reply Data) (st : State)
    : State * list Request :=
  let r := call api "getStreak" [] in
  match outcome r with
  | inr data =>
      ({| streak := d_streak data; loading := false;
          freezing := freezing st; message := message st |}, sent r)
  | inl _ =>
      ({| streak := streak st; loading := false;
          freezing := freezing st; message := message st |}, sent r)
  end.

(** [confirmed] is the answer to [window.confirm].  The state returned is
    the one after the [finally] block; the timer that blanks the success
    message three seconds later is not part of it. *)
Definition handleUseFreeze (api : Request → Reply Data) (confirmed : bool)
    (st : State) : State * list Request :=
  if negb confirmed then (st, [])
  else
    let r := call api "useStreakFreeze" [] in
    match outcome r with
    | inr data =>
        ({| streak := d_streak data; loading := loading st; freezing := false;
            message := JStr "Streak freeze applied! ❄️" |}, sent r)
    | inl err =>
        ({| streak := streak st; loading := loading st; freezing := false;
            message := or_else (response_error err) (JStr "Failed to apply freeze") |},
         sent r)
    end.

(** [streak?.streak_at_risk && streak?.freeze_available > 0]: when the
    freeze button is on screen. *)
Definition freeze_offered (st : State) : bool :=
  match streak st with
  | None => false
  | Some s => streak_at_risk s && (0 <? freeze_available s)
  end.

Definition getStreakMessage (days : Z) : string :=
  if 100 <=? days then "Legendary!"
  else if 60 <=? days then "Incredible!"
  else if 30 <=? days then "Amazing!"
  else if 14 <=? days then "Great job!"
  else if 7 <=? days then "On fire!"
  else if 3 <=? days then "Keep going!"
  else if 0 <? days then "Good start!"
  else "Start your streak!".

End StreakCard.

(** ** components/pmsas/Leaderboard.jsx *)

Module Leaderboard.
Import Api Dom.

Inductive Period : Type := daily | weekly | monthly | all_time.

(** The [value] of the selected [<option>]. *)
Definition period_value (p : Period) : string :=
  match p with
  | daily => "daily"
  | weekly => "weekly"
  | monthly => "monthly"
  | all_time => "all_time"
  end.

Record Entry : Type := mkEntry {
  user_id : string;
  rank : Z;
  user_name : string;
  current_streak : Z;
  activities_count : Z;
  total_points : Z;
}.

Record MyRank : Type := mkMyRank {
  my_rank_ : Z;                (* myRank.rank *)
  my_user_name : string;
  my_current_streak : Z;
  my_total_points : Z;
}.

(** [response.data] as this component reads it. *)
Record Data : Type := mkData {
  d_leaderboard : list Entry;
  d_my_rank : option MyRank;
}.

Record State : Type := mkState {
  leaderboard : list Entry;    (* useState([]) *)
  myRank : option MyRank;      (* useState(null) *)
  period : Period;             (* useState('weekly') *)
  loading : bool;
}.

Definition initial : State :=
  {| leaderboard := []; myRank := None; period := weekly; loading := true |}.

(** The [onChange] of the period [<select>]. *)
Definition setPeriod (p : Period) (st : State) : State :=
  {| leaderboard := leaderboard st; myRank := myRank st; period := p;
     loading := loading st |}.

(** The [courseId = null] prop. *)
Definition course_arg (courseId : option string) : JsVal :=
  match courseId with None => JNull | Some c => JStr c end.

(** The argument list of the one call in [fetchLeaderboard]: a single
    options object. *)
Definition fetch_args (p : Period) (courseId : option string) : list JsVal :=
  [ JObj [ ("period", JStr (period_value p));
           ("limit", JNum 10);
           ("course_id", course_arg courseId) ] ].

Definition fetchLeaderboard (api : Request → Reply Data) (courseId : option string)
    (st : State) : State * list Request :=
  let r := call api "getLeaderboard" (fetch_args (period st) courseId) in
  match outcome r with
  | inr data =>
      ({| leaderboard := d_leaderboard data; myRank := d_my_rank data;
          period := period st; loading := false |}, sent r)
  | inl _ =>
      ({| leaderboard := leaderboard st; myRank := myRank st;
          period := period st; loading := false |}, sent r)
  end.

Definition getRankIcon (rank : Z) : string :=
  if rank =? 1 then "🥇"
  else if rank =? 2 then "🥈"
  else if rank =? 3 then "🥉"
  else "#" +:+ show rank.

Definition getPeriodLabel (p : Period) : string :=
  match p with
  | daily => "Today"
  | weekly => "This Week"
  | monthly => "This Month"
  | all_time => "All Time"
  end.

(** [entry.user_id === user?.id] *)
Definition is_user (user : option Auth.User) (e : Entry) : bool :=
  bool_decide (Some (user_id e) = Auth.user_id user).

Definition entry_row (user : option Auth.User) (index : nat) (e : Entry) : Node :=
  let isCurrentUser := is_user user e in
  El ("leaderboard-entry " +:+ (if isCurrentUser then "current-user" else "")
        +:+ " " +:+ (if (index <? 3)%nat then "top-three" else ""))
     [("key", user_id e)]
     [ El "entry-rank" [] [Txt (getRankIcon (rank e))];
       El "entry-user" []
         [ El "entry-name" []
             (Txt (user_name e) :: when isCurrentUser (El "you-badge" [] [Txt "You"]));
           El "entry-stats" []
             [Txt "🔥 "; Num (current_streak e); Txt " day streak • ";
              Num (activities_count e); Txt " activities"] ];
       El "entry-points" []
         [ El "points-value" [] [Num (total_points e)];
           El "points-label" [] [Txt "pts"] ] ].

(** The row under "Your Position". *)
Definition my_rank_row (r : MyRank) : Node :=
  El "my-rank-section" []
    [ El "my-rank-label" [] [Txt "Your Position"];
      El "leaderboard-entry current-user" []
        [ El "entry-rank" [] [Txt "#"; Num (my_rank_ r)];
          El "entry-user" []
            [ El "entry-name" [] [Txt (my_user_name r)];
              El "entry-stats" []
                [Txt "🔥 "; Num (my_current_streak r); Txt " day streak"] ];
          El "entry-points" []
            [ El "points-value" [] [Num (my_total_points r)];
              El "points-label" [] [Txt "pts"] ] ] ].

(** [myRank && !leaderboard.find(e => e.user_id === user?.id) && (...)] *)
Definition my_rank_section (user : option Auth.User) (st : State) : list Node :=
  match myRank st with
  | None => []
  | Some r =>
      match List.find (is_user user) (leaderboard st) with
      | Some _ => []
      | None => [my_rank_row r]
      end
  end.

Definition entries_view (user : option Auth.User) (st : State) : Node :=
  if loading st then El "leaderboard-loading" [] [Txt "Loading..."]
  else if bool_decide (length (leaderboard st) = 0%nat) then
    El "leaderboard-empty" []
      [ El "empty-icon" [] [Txt "📊"];
        El "p" [] [Txt "No data yet for ";
                   Txt (toLowerCase (getPeriodLabel (period st)))] ]
  else El "leaderboard-list" [] (imap (entry_row user) (leaderboard st)).

Definition render (user : option Auth.User) (st : State) : Node :=
  El "leaderboard-container" []
    ([ El "leaderboard-header" []
         [ El "h3" [] [Txt "🏆 Leaderboard"];
           El "period-select" [("value", period_value (period st))]
             [ El "option" [("value", "daily")] [Txt "Today"];
               El "option" [("value", "weekly")] [Txt "This Week"];
               El "option" [("value", "monthly")] [Txt "This Month"];
               El "option" [("value", "all_time")] [Txt "All Time"] ] ];
       El "leaderboard-period" [] [Txt (getPeriodLabel (period st))];
       entries_view user st ]
     ++ my_rank_section user st).

End Leaderboard.

(** ** components/pmsas/ProgressDashboard.jsx *)

Module ProgressDashboard.
Import Api Dom.

Record Summary : Type := mkSummary {
  current_streak : Z;
  longest_streak : Z;
  is_at_risk : bool;
  total_points : Z;
  level : Z;
  badges_earned : Z;
  total_active_days : Z;
  level_progress : Z;
}.

Record Entry : Type := mkEntry {
  user_id : string;
  user_name : string;
  score : Z;
  secondary_score : Z;
}.

(** [leaderboardRes.leaderboard] as this component reads it. *)
Record Board : Type := mkBoard {
  entries : option (list Entry);
  user_rank : option Z;        (* absent or [null] is [None] *)
  total_participants : Z;
}.

Record Badge : Type := mkBadge {
  icon : string;
  name : string;
  rarity : string;
  description : string;
  points_value : Z;
  earned_at : option string;
}.

Record Predictions : Type := mkPredictions {
  engagement_level : string;
  consistency_score : Z;
  trend : string;
  recommendations : list string;
}.

Record Analytics : Type := mkAnalytics {
  predictions : option Predictions;
}.

Inductive Tab : Type := tab_overview | tab_badges | tab_leaderboard | tab_insights.

Record State : Type := mkState {
  loading : bool;
  summary : option Summary;          (* useState(null) *)
  leaderboard : option Board;        (* useState(null) *)
  badges : list Badge;               (* useState([]) *)
  analytics : option Analytics;      (* useState(null) *)
  activeTab : Tab;                   (* useState('overview') *)
}.

(** The leaderboard request of [loadData]: two positional arguments. *)
Definition loadData_leaderboard_args : list JsVal := [JStr "streak"; JNum 10].

(** [summary?.f || d] for a numeric field. *)
Definition num_or (s : option Summary) (f : Summary → Z) (d : Z) : Z :=
  match s with
  | None => d
  | Some x => if f x =? 0 then d else f x
  end.

Definition getRarityClass (rarity : string) : string := "rarity-" +:+ rarity.

(** [s.replace(c, d)] with string arguments: the first occurrence only. *)
Fixpoint replace_first (c d : ascii) (s : string) : string :=
  match s with
  | EmptyString => EmptyString
  | String a rest =>
      if Ascii.eqb a c then String d rest else String a (replace_first c d rest)
  end.

(** [s.split(' ')]; [cur] is the piece being read, reversed. *)
Fixpoint split_space (s : string) (cur : string) : list string :=
  match s with
  | EmptyString => [String.rev cur]
  | String a rest =>
      if Ascii.eqb a " "%char then String.rev cur :: split_space rest EmptyString
      else split_space rest (String a cur)
  end.

(** [n[0]] joined: an empty piece contributes nothing. *)
Definition first_char (n : string) : string :=
  match n with
  | EmptyString => EmptyString
  | String a _ => String a EmptyString
  end.

(** [user_name?.split(' ').map(n => n[0]).join('')] *)
Definition initials (user_name : string) : string :=
  String.concat "" (first_char <$> split_space user_name EmptyString).

Definition stat_item (ico : string) (value : list Node) (label : string) : Node :=
  El "stat-item" []
    [ El "stat-icon" [] [Txt ico];
      El "stat-details" []
        [ El "stat-value" [] value; El "stat-label" [] [Txt label] ] ].

Definition header (st : State) : Node :=
  let s := summary st in
  El "pmsas-header" []
    [ El "streak-hero" []
        [ El ("streak-fire " +:+
              (if match s with Some x => 0 <? current_streak x | None => false end
               then "active" else "")) []
            [ El "fire-icon" [] [Txt "🔥"];
              El "streak-count" [] [Num (num_or s current_streak 0)] ];
          El "streak-info" []
            ([ El "h1" [] [Txt "Day Streak"];
               El "p" [] [Txt "Longest: "; Num (num_or s longest_streak 0); Txt " days"] ]
             ++ when (match s with Some x => is_at_risk x | None => false end)
                  (El "streak-warning" []
                     [Txt "⚠️ Your streak is at risk! Complete an activity today."])) ];
      El "quick-stats" []
        [ stat_item "⭐" [Num (num_or s total_points 0)] "Points";
          stat_item "🎖️" [Txt "Lvl "; Num (num_or s level 1)] "Level";
          stat_item "🏅" [Num (num_or s badges_earned 0)] "Badges";
          stat_item "📅" [Num (num_or s total_active_days 0)] "Active Days" ] ].

Definition level_progress_card (st : State) : Node :=
  let s := summary st in
  El "level-progress-card" []
    [ El "level-info" []
        [ El "span" [] [Txt "Level "; Num (num_or s level 1)];
          El "span" [] [Num (num_or s level_progress 0); Txt "% to Level ";
                        Num (num_or s level 1 + 1)] ];
      El "progress-bar" []
        [ El "progress-fill"
            [("style.width", show (num_or s level_progress 0) +:+ "%")] [] ] ].

Definition tab_button (active : bool) (label : string) : Node :=
  El ("pmsas-tab " +:+ (if active then "active" else "")) [] [Txt label].

Definition tabs (st : State) : Node :=
  El "pmsas-tabs" []
    [ tab_button (match activeTab st with tab_overview => true | _ => false end) "📊 Overview";
      tab_button (match activeTab st with tab_badges => true | _ => false end) "🏆 Badges";
      tab_button (match activeTab st with tab_leaderboard => true | _ => false end) "📈 Leaderboard";
      tab_button (match activeTab st with tab_insights => true | _ => false end) "💡 Insights" ].

(** [Math.random() > 0.5] on the value [r] that the call returned. *)
Definition over_half (r : Q) : bool := negb (Qle_bool r (1 # 2)).

(** One cell of the calendar; [r] is what its call of [Math.random]
    returned. *)
Definition calendar_day (r : Q) (i : nat) : Node :=
  El ("calendar-day " +:+ (if over_half r then "active" else ""))
     [("key", show (Z.of_nat i)); ("title", "Day " +:+ show (Z.of_nat i + 1))] [].

(** [[...Array(30)].map((_, i) => ...)]: the callback runs for
    [i = 0 .. 29] in order, and its call of [Math.random] is the [i]-th of
    the render; [rand i] is the value that call returned. *)
Definition activity_calendar (rand : nat → Q) : Node :=
  El "activity-calendar" [] ((λ i, calendar_day (rand i) i) <$> seq 0 30).

Definition chart_card (rand : nat → Q) : Node :=
  El "chart-card" []
    [ El "h3" [] [Txt "📅 Activity This Month"];
      activity_calendar rand;
      El "calendar-legend" []
        [ El "span" [] [El "legend-box inactive" [] []; Txt " No activity"];
          El "span" [] [El "legend-box active" [] []; Txt " Active"] ] ].

Definition badge_mini (idx : nat) (b : Badge) : Node :=
  El ("badge-mini " +:+ getRarityClass (rarity b)) [("key", show (Z.of_nat idx))]
    [ El "badge-icon" [] [Txt (icon b)]; El "badge-name" [] [Txt (name b)] ].

Definition recent_badges_card (st : State) : Node :=
  El "recent-badges-card" []
    [ El "h3" [] [Txt "🎖️ Recent Badges"];
      if (0 <? length (badges st))%nat
      then El "badges-mini-grid" [] (imap badge_mini (take 4 (badges st)))
      else El "empty-badges" []
             [ El "span" [] [Txt "🎯"];
               El "p" [] [Txt "Complete activities to earn badges!"] ] ].

Definition mini_leader_row (idx : nat) (e : Entry) : Node :=
  El "mini-leader-row" [("key", show (Z.of_nat idx))]
    [ El "rank" [] [Txt "#"; Num (Z.of_nat idx + 1)];
      El "name" [] [Txt (user_name e)];
      El "score" [] [Num (score e); Txt " 🔥"] ].

(** [leaderboard?.entries] *)
Definition board_entries (st : State) : option (list Entry) :=
  leaderboard st ≫= entries.

Definition top_streakers_card (st : State) : Node :=
  El "top-streakers-card" []
    [ El "h3" [] [Txt "🔥 Top Streakers"];
      El "mini-leaderboard" []
        (match board_entries st with
         | None => []
         | Some es => imap mini_leader_row (take 5 es)
         end) ].

Definition trend_icon (trend : string) : string :=
  if String.eqb trend "increasing" then "📈"
  else if String.eqb trend "decreasing" then "📉"
  else "➡️".

Definition predictions_card (p : Predictions) : Node :=
  El "predictions-card" []
    [ El "h3" [] [Txt "🔮 Your Learning Insights"];
      El "prediction-stats" []
        [ El "prediction-item" []
            [ El "prediction-label" [] [Txt "Engagement"];
              El ("prediction-value " +:+ engagement_level p) []
                [Txt (replace_first "_"%char " "%char (engagement_level p))] ];
          El "prediction-item" []
            [ El "prediction-label" [] [Txt "Consistency"];
              El "prediction-value" [] [Num (consistency_score p); Txt "%"] ];
          El "prediction-item" []
            [ El "prediction-label" [] [Txt "Trend"];
              El ("prediction-value trend-" +:+ trend p) []
                [Txt (trend_icon (trend p)); Txt (trend p)] ] ];
      El "recommendations" []
        [ El "h4" [] [Txt "💡 Recommendations"];
          El "ul" []
            (imap (λ idx rec, El "li" [("key", show (Z.of_nat idx))] [Txt rec])
                  (recommendations p)) ] ].

(** The content under the tabs when [activeTab === 'overview']. *)
Definition overview_grid (rand : nat → Q) (st : State) : Node :=
  El "overview-grid" []
    ([ chart_card rand; recent_badges_card st; top_streakers_card st ]
     ++ match analytics st ≫= predictions with
        | None => []
        | Some p => [predictions_card p]
        end).

Definition rank_badge (idx : nat) : string :=
  match idx with
  | 0%nat => "🥇"
  | 1%nat => "🥈"
  | 2%nat => "🥉"
  | _ => "#" +:+ show (Z.of_nat idx + 1)
  end.

(** [entry.user_id === user?.id] *)
Definition is_user (user : option Auth.User) (e : Entry) : bool :=
  bool_decide (Some (user_id e) = Auth.user_id user).

Definition leaderboard_row (user : option Auth.User) (idx : nat) (e : Entry) : Node :=
  El ("leaderboard-row " +:+ (if is_user user e then "current-user" else ""))
     [("key", show (Z.of_nat idx))]
     [ El "rank-badge" [] [Txt (rank_badge idx)];
       El "user-info" []
         ([ El "user-avatar-small" [] [Txt (initials (user_name e))];
            El "user-name" [] [Txt (user_name e)] ]
          ++ when (is_user user e) (El "you-tag" [] [Txt "You"]));
       El "score-info" []
         [ El "streak-score" [] [Num (score e); Txt " 🔥"];
           El "secondary-score" [] [Txt "Best: "; Num (secondary_score e)] ] ].

(** [leaderboard?.user_rank && leaderboard.user_rank > 10 && (...)]: a
    rank of [0] is falsy and React prints it. *)
Definition your_position (st : State) : list Node :=
  match leaderboard st with
  | None => []
  | Some b =>
      match user_rank b with
      | None => []
      | Some n =>
          if n =? 0 then [Num 0]
          else when (10 <? n)
                 (El "your-position" []
                    [ El "span" []
                        [Txt "Your Position: #"; Num n; Txt " of ";
                         Num (total_participants b)] ])
      end
  end.

(** The content under the tabs when [activeTab === 'leaderboard']. *)
Definition leaderboard_section (user : option Auth.User) (st : State) : Node :=
  El "leaderboard-section" []
    ([ El "h2" [] [Txt "🏆 Streak Leaderboard"];
       El "leaderboard-table" []
         (match board_entries st with
          | None => []
          | Some es => imap (leaderboard_row user) es
          end) ]
     ++ your_position st).

Section Render.

(** Locale- and float-dependent formatting is taken as given:
    [new Date(s).toLocaleDateString()], and the whole "insights" tab, whose
    figures go through [Math.round], [toFixed] and a float division. *)
Variable toLocaleDateString : string → string.
Variable insights_section : Analytics → Node.

(** [badge.earned_at] as a condition: a missing or empty date is falsy. *)
Definition earned_date (b : Badge) : option string :=
  match earned_at b with
  | Some d => if String.eqb d "" then None else Some d
  | None => None
  end.

Definition badge_card (idx : nat) (b : Badge) : Node :=
  El ("badge-card " +:+ getRarityClass (rarity b) +:+ " " +:+
      (match earned_date b with Some _ => "earned" | None => "locked" end))
     [("key", show (Z.of_nat idx))]
     ([ El "badge-icon-large" [] [Txt (icon b)];
        El "h4" [] [Txt (name b)];
        El "p" [] [Txt (description b)];
        El "badge-meta" []
          [ El ("rarity-tag " +:+ rarity b) [] [Txt (rarity b)];
            El "points-tag" [] [Txt "+"; Num (points_value b); Txt " pts"] ] ]
      ++ match earned_date b with
         | None => []
         | Some d => [El "earned-date" [] [Txt "Earned "; Txt (toLocaleDateString d)]]
         end).

Definition badges_section (st : State) : Node :=
  El "badges-section" []
    [ El "h2" [] [Txt "Your Badges"];
      if (0 <? length (badges st))%nat
      then El "badges-grid" [] (imap badge_card (badges st))
      else El "empty-state" []
             [ El "empty-icon" [] [Txt "🏆"];
               El "p" [] [Txt "No badges earned yet"];
               El "empty-hint" []
                 [Txt "Complete learning activities to earn your first badge!"] ] ].

Definition tab_content (rand : nat → Q) (user : option Auth.User) (st : State)
    : list Node :=
  match activeTab st with
  | tab_overview => [overview_grid rand st]
  | tab_badges => [badges_section st]
  | tab_leaderboard => [leaderboard_section user st]
  | tab_insights =>
      match analytics st with
      | None => []
      | Some a => [insights_section a]
      end
  end.

(** The component's return value.  [rand] gives the values returned by the
    successive calls of [Math.random] during this render. *)
Definition render (rand : nat → Q) (user : option Auth.User) (st : State) : Node :=
  if loading st then
    El "Layout" []
      [ El "pmsas-loading" []
          [ El "loading-spinner" [] []; El "p" [] [Txt "Loading your progress..."] ] ]
  else
    El "Layout" []
      [ El "pmsas-dashboard" []
          [ header st; level_progress_card st; tabs st;
            El "pmsas-content" [] (tab_content rand user st) ] ].

End Render.

End ProgressDashboard.

(** ** components/pmsas/BadgesDisplay.jsx *)

Module BadgesDisplay.
Import Api Dom.

Record Badge : Type := mkBadge {
  id : string;
  badge_type : string;
  icon : string;
  name : string;
  description : string;
  points : Z;
  earned_at : string;
}.

(** [response.data] of the two badge endpoints. *)
Record Data : Type := mkData { d_badges : list Badge }.

Inductive Tab : Type := tab_earned | tab_all.

Record State : Type := mkState {
  earnedBadges : list Badge;       (* useState([]) *)
  availableBadges : list Badge;    (* useState([]) *)
  loading : bool;
  activeTab : Tab;                 (* useState('earned') *)
}.

Definition initial : State :=
  {| earnedBadges := []; availableBadges := []; loading := true;
     activeTab := tab_earned |}.

Definition settle (st : State) : State :=
  {| earnedBadges := earnedBadges st; availableBadges := availableBadges st;
     loading := false; activeTab := activeTab st |}.

(** [fetchBadges]: both elements of the array literal are evaluated, hence
    both requests issued, before [Promise.all] is awaited; an exception
    thrown while building the array skips what follows it. *)
Definition fetchBadges (api : Request → Reply Data) (showAll : bool) (st : State)
    : State * list Request :=
  let r1 := call api "getBadges" [] in
  match outcome r1 with
  | inl (TypeError _) => (settle st, sent r1)
  | _ =>
      let r2 := if showAll then call api "getAvailableBadges" []
                else mkRan [] (inr {| d_badges := [] |}) in
      match outcome r1, outcome r2 with
      | inr earned, inr available =>
          ({| earnedBadges := d_badges earned; availableBadges := d_badges available;
              loading := false; activeTab := activeTab st |}, sent r1 ++ sent r2)
      | _, _ => (settle st, sent r1 ++ sent r2)
      end
  end.

(** [new Set(earnedBadges.map(b => b.badge_type))] *)
Definition earnedBadgeTypes (st : State) : gset string :=
  list_to_set (badge_type <$> earnedBadges st).

(** One card of the "all badges" tab. *)
Definition available_card (st : State) (b : Badge) : Node :=
  let isEarned := bool_decide (badge_type b ∈ earnedBadgeTypes st) in
  El ("badge-card " +:+ (if isEarned then "badge-earned" else "badge-locked"))
     [("key", badge_type b)]
     ([ El "badge-icon" [] [Txt (icon b)];
        El "badge-name" [] [Txt (name b)];
        El "badge-description" [] [Txt (description b)];
        El "badge-points" [] [Txt "+"; Num (points b); Txt " pts"] ]
      ++ when isEarned (El "badge-check" [] [Txt "✓"])).

Section Render.

Variable toLocaleDateString : string → string.

Definition earned_card (b : Badge) : Node :=
  El "badge-card badge-earned" [("key", id b)]
    [ El "badge-icon" [] [Txt (icon b)];
      El "badge-name" [] [Txt (name b)];
      El "badge-points" [] [Txt "+"; Num (points b); Txt " pts"];
      El "badge-date" [] [Txt (toLocaleDateString (earned_at b))] ].

Definition badges_grid (st : State) : Node :=
  El "badges-grid" []
    (match activeTab st with
     | tab_earned =>
         if (0 <? length (earnedBadges st))%nat
         then earned_card <$> earnedBadges st
         else [ El "badges-empty" []
                  [ El "empty-icon" [] [Txt "🎯"];
                    El "p" [] [Txt "No badges earned yet"];
                    El "span" [] [Txt "Keep learning to earn your first badge!"] ] ]
     | tab_all => available_card st <$> availableBadges st
     end).

Definition render (showAll : bool) (st : State) : Node :=
  if loading st then El "badges-loading" [] [Txt "Loading badges..."]
  else
    El "badges-container" []
      ([ El "badges-header" []
           [ El "h3" [] [Txt "🏅 Badges & Achievements"];
             El "badges-count" []
               [Num (Z.of_nat (length (earnedBadges st))); Txt " earned"] ] ]
       ++ when showAll
            (El "badges-tabs" []
               [ El ("badge-tab " +:+
                     (match activeTab st with tab_earned => "active" | _ => "" end)) []
                   [Txt "Earned ("; Num (Z.of_nat (length (earnedBadges st))); Txt ")"];
                 El ("badge-tab " +:+
                     (match activeTab st with tab_all => "active" | _ => "" end)) []
                   [Txt "All Badges ("; Num (Z.of_nat (length (availableBadges st)));
                    Txt ")"] ])
       ++ [badges_grid st]).

End Render.

End BadgesDisplay.

(** ** components/pmsas/TeacherAnalytics.jsx *)

Module TeacherAnalytics.
Import Api Auth.

Record Performer : Type := mkPerformer {
  p_user_id : string;
  p_current_streak : Z;
  p_longest_streak : Z;
}.

Record Dashboard : Type := mkDashboard {
  total_students : Z;
  active_today : Z;
  active_today_percent : Z;
  at_risk_count : Z;
  avg_streak : Z;
  streak_distribution : list (string * Z);
  top_performers : list Performer;
}.

Record AtRiskStudent : Type := mkAtRisk {
  user_id : string;
  current_streak : Z;
  last_activity : option string;
}.

Record DashboardData : Type := mkDashboardData { d_dashboard : option Dashboard }.
Record AtRiskData : Type := mkAtRiskData { d_at_risk_students : list AtRiskStudent }.

Record State : Type := mkState {
  loading : bool;
  dashboard : option Dashboard;            (* useState(null) *)
  atRiskStudents : list AtRiskStudent;     (* useState([]) *)
}.

Definition initial : State :=
  {| loading := true; dashboard := None; atRiskStudents := [] |}.

(** [loadData], run once on mount whatever the role. *)
Definition loadData (api1 : Request → Reply DashboardData)
    (api2 : Request → Reply AtRiskData) (st : State) : State * list Request :=
  let r1 := call api1 "getTeacherDashboard" [] in
  let r2 := call api2 "getAtRiskStudents" [] in
  match outcome r1, outcome r2 with
  | inr d, inr a =>
      ({| loading := false; dashboard := d_dashboard d;
          atRiskStudents := d_at_risk_students a |}, sent r1 ++ sent r2)
  | _, _ =>
      ({| loading := false; dashboard := dashboard st;
          atRiskStudents := atRiskStudents st |}, sent r1 ++ sent r2)
  end.

(** The three things the component can return.  [Board] stands for the
    [teacher-dashboard] tree, built from exactly the two pieces of state it
    carries (statistics, distribution, top performers; at-risk rows). *)
Inductive View : Type :=
| AccessDenied
| Loading
| Board (dashboard : option Dashboard) (atRiskStudents : list AtRiskStudent).

Definition render (ctx : AuthValue) (st : State) : View :=
  if negb (isTeacher ctx) && negb (isAdmin ctx) then AccessDenied
  else if loading st then Loading
  else Board (dashboard st) (atRiskStudents st).

End TeacherAnalytics.

(** ** App.jsx: the route table *)

Module App.
Import Auth Route.

(** [/analytics]: protected, no role required. *)
Definition analytics_route (auth : AuthState) (st : TeacherAnalytics.State)
    : View TeacherAnalytics.View :=
  ProtectedRoute (value auth) None (TeacherAnalytics.render (value auth) st).

(** [/admin/users]: protected with [requiredRole="admin"]. *)
Definition admin_users_route {A} (auth : AuthState) (AdminUsersPage : A) : View A :=
  ProtectedRoute (value auth) (Some "admin") AdminUsersPage.

End App.

(** ** The PMSAS engine behind [/api/pmsas]

    The server side (streak tracker, points ledger, badge engine) is not
    among the source files; the front end above only calls it.  It is
    modelled here from sections 3, 4 and 7 of the specification. *)

Module Engine.

Inductive ActivityType : Type :=
| lesson_complete | quiz_complete | challenge_complete | content_view.

Record ActivityEvent : Type := mkEvent {
  ev_user : string;
  ev_type : ActivityType;
  ev_timestamp : Z;
  ev_duration : Z;
}.

(** Modelled from the spec: the StreakState record of section 3 (the server's
    data model is missing).  Calendar days are day numbers; a user who was
    never active has no [last_active_date]. *)
Record StreakState : Type := mkStreakState {
  current_streak : Z;
  longest_streak : Z;
  last_active_date : option Z;
  freeze_available : Z;
  freeze_used_dates : gset Z;
  total_active_days : Z;
}.

Definition fresh : StreakState :=
  {| current_streak := 0; longest_streak := 0; last_active_date := None;
     freeze_available := 0; freeze_used_dates := ∅; total_active_days := 0 |}.

Inductive Rarity : Type := common | rare | epic | legendary.

(** What a badge criterion may look at. *)
Record Aggregates : Type := mkAggregates {
  ag_streak : StreakState;
  ag_points : Z;
  ag_events : list ActivityEvent;
}.

Record BadgeDefinition : Type := mkBadgeDefinition {
  badge_type : string;
  badge_name : string;
  rarity : Rarity;
  points_value : Z;
  criteria : Aggregates → bool;
}.

Record EarnedBadge : Type := mkEarnedBadge {
  eb_user : string;
  eb_badge_type : string;
  earned_at : Z;
}.

(** Modelled from the spec: the keyed store of section 3.  The EarnedBadge
    rows are a list, so that a duplicate row is representable and its
    absence is something to prove. *)
Record Store : Type := mkStore {
  streaks : gmap string StreakState;
  ledger : gmap string Z;
  earned : list EarnedBadge;
  events : list ActivityEvent;
}.

Definition empty_store : Store :=
  {| streaks := ∅; ledger := ∅; earned := []; events := [] |}.

Definition streak_of (s : Store) (u : string) : StreakState :=
  default fresh (streaks s !! u).

Definition total_points (s : Store) (u : string) : Z :=
  default 0 (ledger s !! u).

Inductive Error : Type :=
| InvalidInput | InvalidAmount | NoFreezeAvailable | NotFound.

(** *** 4.1 Streak tracker *)

(** Modelled from the spec: the skipped days of section 4.1 (the server
    code is missing), the days strictly between [last] and [d]. *)
Definition skipped_days (last d : Z) : list Z :=
  (λ k, last + 1 + Z.of_nat k) <$> seq 0 (Z.to_nat (d - last - 1)).

(** Modelled from the spec: "a freeze exists covering every skipped day"
    (section 4.1; the server code is missing). *)
Definition fully_covered (st : StreakState) (last d : Z) : bool :=
  forallb (λ x, bool_decide (x ∈ freeze_used_dates st)) (skipped_days last d).

(** Modelled from the spec: an active day [d] counted with streak value [c]
    (section 4.1; the server code is missing); [longest_streak] follows
    "longest_streak = max(longest_streak, current_streak) after every
    update". *)
Definition count_day (st : StreakState) (d c spent : Z) : StreakState :=
  {| current_streak := c;
     longest_streak := Z.max (longest_streak st) c;
     last_active_date := Some d;
     freeze_available := freeze_available st - spent;
     freeze_used_dates := freeze_used_dates st;
     total_active_days := total_active_days st + 1 |}.

(** Modelled from the spec: the per-user update of [recordActivity]
    (section 4.1; the server function is missing).  The specification's
    cases are: same day, next day, gap; first-ever activity starts at 1.
    A day before [last_active_date] matches none of them and changes
    nothing. *)
Definition record_day (d : Z) (st : StreakState) : StreakState :=
  match last_active_date st with
  | None => count_day st d 1 0
  | Some last =>
      if d =? last then st
      else if d =? last + 1 then count_day st d (current_streak st + 1) 0
      else if last + 1 <? d then
        if fully_covered st last d
        then count_day st d (current_streak st + 1)
                       (Z.min (d - last - 1) (freeze_available st))
        else count_day st d 1 0
      else st
  end.

(** Modelled from the spec: the derived flag of section 4.1 (the server
    code is missing), "true when last_active_date < today and
    current_streak > 0"; a freeze used today clears it for the day. *)
Definition streak_at_risk (today : Z) (st : StreakState) : bool :=
  match last_active_date st with
  | None => false
  | Some last =>
      (last <? today) && (0 <? current_streak st)
      && negb (bool_decide (today ∈ freeze_used_dates st))
  end.

(** Modelled from the spec: [useStreakFreeze] on one user's state (section
    4.1; the server function is missing). *)
Definition use_freeze (today : Z) (st : StreakState) : Error + StreakState :=
  if freeze_available st =? 0 then inl NoFreezeAvailable
  else if negb (streak_at_risk today st) then inr st
  else inr {| current_streak := current_streak st;
              longest_streak := longest_streak st;
              last_active_date := last_active_date st;
              freeze_available := freeze_available st - 1;
              freeze_used_dates := {[today]} ∪ freeze_used_dates st;
              total_active_days := total_active_days st |}.

Definition set_streak (u : string) (st : StreakState) (s : Store) : Store :=
  {| streaks := <[u := st]> (streaks s); ledger := ledger s;
     earned := earned s; events := events s |}.

Section Engine.

(** The platform's fixed time-zone policy: the calendar day of an instant. *)
Variable date : Z → Z.
(** The activity scoring table and the badge catalog, both static. *)
Variable activity_points : ActivityType → Z.
Variable catalog : list BadgeDefinition.

(** Modelled from the spec: [recordActivity(user_id, timestamp)] (section
    4.1; the server function is missing). *)
Definition recordActivity (u : string) (timestamp : Z) (s : Store) : Store :=
  set_streak u (record_day (date timestamp) (streak_of s u)) s.

(** Modelled from the spec: [useStreakFreeze(user_id)] (section 4.1; the
    server function is missing); [now] is the instant of the call. *)
Definition useStreakFreeze (u : string) (now : Z) (s : Store) : Error + Store :=
  match use_freeze (date now) (streak_of s u) with
  | inl e => inl e
  | inr st => inr (set_streak u st s)
  end.

(** *** 4.2 Points *)

(** Modelled from the spec: [awardPoints(user_id, amount)] (section 4.2; the
    server function is missing). *)
Definition awardPoints (u : string) (amount : Z) (s : Store) : Error + Store :=
  if amount <? 0 then inl InvalidAmount
  else inr {| streaks := streaks s;
              ledger := <[u := total_points s u + amount]> (ledger s);
              earned := earned s; events := events s |}.

(** *** 4.3 Badges *)

Definition is_row (u bt : string) (r : EarnedBadge) : bool :=
  String.eqb (eb_user r) u && String.eqb (eb_badge_type r) bt.

Definition has_badge (s : Store) (u bt : string) : bool :=
  existsb (is_row u bt) (earned s).

Definition insert_row (u bt : string) (now : Z) (s : Store) : Store :=
  {| streaks := streaks s; ledger := ledger s;
     earned := earned s ++ [ {| eb_user := u; eb_badge_type := bt; earned_at := now |} ];
     events := events s |}.

(** Modelled from the spec: the award of one badge (sections 4.3 and 7; the
    server function is missing).  The uniqueness of the row is the
    enforcement point, and the row and the points are one atomic unit: if
    the row exists, or if the points cannot be granted, nothing happens. *)
Definition try_award (u : string) (now : Z) (b : BadgeDefinition) (s : Store) : Store :=
  if has_badge s u (badge_type b) then s
  else
    match awardPoints u (points_value b) (insert_row u (badge_type b) now s) with
    | inr s' => s'
    | inl _ => s
    end.

Definition aggregates (s : Store) (u : string) : Aggregates :=
  {| ag_streak := streak_of s u;
     ag_points := total_points s u;
     ag_events := filter (λ e, ev_user e = u) (events s) |}.

(** Modelled from the spec: [evaluateBadges(user_id)] (section 4.3; the
    server function is missing).  The criteria are evaluated on one read
    snapshot per call (section 9). *)
Definition evaluateBadges (u : string) (now : Z) (s : Store) : Store :=
  let snapshot := aggregates s u in
  foldl (λ acc b,
           if negb (has_badge acc u (badge_type b)) && criteria b snapshot
           then try_award u now b acc else acc)
        s catalog.

(** *** The operations, and runs of them *)

Inductive Op : Type :=
| RecordActivity (u : string) (timestamp : Z)
| UseStreakFreeze (u : string) (now : Z)
| AwardPoints (u : string) (amount : Z)
| EvaluateBadges (u : string) (now : Z)
| PostActivity (u : string) (ty : ActivityType) (duration : Z) (now : Z)
| AwardBadge (u : string) (bt : string) (now : Z).

(** Modelled from the spec: the operations of section 6 (the server's
    routes are missing).  [PostActivity] is the "POST activity" pipeline.
    [AwardBadge] is the last step of a badge evaluation taken on its own:
    an evaluation that ran concurrently decided on an older snapshot that
    the badge is due, and now performs its insert-and-award. *)
Definition exec (op : Op) (s : Store) : Error + Store :=
  match op with
  | RecordActivity u t => inr (recordActivity u t s)
  | UseStreakFreeze u now => useStreakFreeze u now s
  | AwardPoints u a => awardPoints u a s
  | EvaluateBadges u now => inr (evaluateBadges u now s)
  | PostActivity u ty duration now =>
      if duration <? 0 then inl InvalidInput
      else
        let logged :=
          {| streaks := streaks s; ledger := ledger s; earned := earned s;
             events := events s ++ [ {| ev_user := u; ev_type := ty;
                                        ev_timestamp := now;
                                        ev_duration := duration |} ] |} in
        match awardPoints u (activity_points ty) (recordActivity u now logged) with
        | inl e => inl e
        | inr s' => inr (evaluateBadges u now s')
        end
  | AwardBadge u bt now =>
      match List.find (λ b, String.eqb (badge_type b) bt) catalog with
      | None => inl NotFound
      | Some b => inr (try_award u now b s)
      end
  end.

(** Modelled from the spec: a failed operation leaves the state at the
    prior consistent point (section 7; the server code is missing). *)
Definition step (op : Op) (s : Store) : Store :=
  match exec op s with
  | inr s' => s'
  | inl _ => s
  end.

Definition run (ops : list Op) (s : Store) : Store := foldl (λ acc op, step op acc) s ops.

(** The points that a successful [op] grants to [u] directly, not through
    a badge; whether these two operations succeed depends on their
    arguments only. *)
Definition direct_gain (u : string) (op : Op) : Z :=
  match op with
  | AwardPoints u' a => if String.eqb u' u && (0 <=? a) then a else 0
  | PostActivity u' ty duration _ =>
      if String.eqb u' u && (0 <=? duration) && (0 <=? activity_points ty)
      then activity_points ty else 0
  | _ => 0
  end.

Definition direct_total (u : string) (ops : list Op) : Z :=
  foldr (λ op acc, direct_gain u op + acc) 0 ops.

(** The EarnedBadge rows of [(u, bt)]. *)
Definition rows (s : Store) (u bt : string) : list EarnedBadge :=
  List.filter (is_row u bt) (earned s).

(** The points that [u]'s badges are worth, each catalog entry counted
    once. *)
Definition badge_points (s : Store) (u : string) : Z :=
  foldr (λ b acc, (if has_badge s u (badge_type b) then points_value b else 0) + acc)
        0 catalog.

(** What [u] holds apart from badge points. *)
Definition base_points (s : Store) (u : string) : Z :=
  total_points s u - badge_points s u.

End Engine.

(** "at most one EarnedBadge per (user, badge_type)" *)
Definition unique_rows (s : Store) : Prop :=
  ∀ u bt, (length (rows s u bt) ≤ 1)%nat.

End Engine.

(** ** Concrete inputs used in examples *)

Module Samples.

Definition student : Auth.User :=
  {| Auth.id := "u1"; Auth.role := "student"; Auth.first_name := "Sam" |}.

Definition signed_in_student : Auth.AuthState :=
  {| Auth.user := Some student; Auth.loading := false; Auth.error := None |}.

(** A streak card that offers the button: one freeze left, streak at risk. *)
Definition card_streak : StreakCard.Streak :=
  {| StreakCard.current_streak := 5; StreakCard.longest_streak := 9;
     StreakCard.total_active_days := 20; StreakCard.freeze_available := 1;
     StreakCard.streak_at_risk := true |}.

Definition card : StreakCard.State :=
  {| StreakCard.streak := Some card_streak; StreakCard.loading := false;
     StreakCard.freezing := false; StreakCard.message := JStr "" |}.

(** A progress dashboard that has loaded nothing but is past loading. *)
Definition bare_dashboard : ProgressDashboard.State :=
  {| ProgressDashboard.loading := false; ProgressDashboard.summary := None;
     ProgressDashboard.leaderboard := None; ProgressDashboard.badges := [];
     ProgressDashboard.analytics := None;
     ProgressDashboard.activeTab := ProgressDashboard.tab_overview |}.

Definition no_insights (_ : ProgressDashboard.Analytics) : Dom.Node := Dom.Txt "".

(** Two runs of the random generator: every draw 0, every draw 3/4. *)
Definition draws_low (_ : nat) : Q := 0%Q.
Definition draws_high (_ : nat) : Q := (3 # 4)%Q.
(** A run whose draws differ from one another but all exceed 1/2. *)
Definition draws_rising (i : nat) : Q := (Z.of_nat i + 6 # 10)%Q.

(** Calendar days under a fixed UTC policy, timestamps in seconds. *)
Definition utc_day (timestamp : Z) : Z := timestamp / 86400.

Definition scoring (ty : Engine.ActivityType) : Z :=
  match ty with
  | Engine.lesson_complete => 10
  | Engine.quiz_complete => 20
  | Engine.challenge_complete => 30
  | Engine.content_view => 1
  end.

Definition first_steps : Engine.BadgeDefinition :=
  {| Engine.badge_type := "first_steps"; Engine.badge_name := "First Steps";
     Engine.rarity := Engine.common; Engine.points_value := 10;
     Engine.criteria := λ a, 1 <=? Engine.total_active_days (Engine.ag_streak a) |}.

Definition streak_3 : Engine.BadgeDefinition :=
  {| Engine.badge_type := "streak_3"; Engine.badge_name := "Three in a Row";
     Engine.rarity := Engine.rare; Engine.points_value := 50;
     Engine.criteria := λ a, 3 <=? Engine.current_streak (Engine.ag_streak a) |}.

Definition badges : list Engine.BadgeDefinition := [first_steps; streak_3].

(** Three consecutive days of activity, a repeated evaluation, and a late
    award attempt from an evaluation that ran beside it. *)
Definition three_days : list Engine.Op :=
  [ Engine.PostActivity "u1" Engine.lesson_complete 600 100;
    Engine.PostActivity "u1" Engine.quiz_complete 300 86500;
    Engine.PostActivity "u1" Engine.content_view 60 172900;
    Engine.EvaluateBadges "u1" 172950;
    Engine.AwardBadge "u1" "streak_3" 172960;
    Engine.PostActivity "u1" Engine.content_view 60 173000 ].

End Samples.

(** ** config/api as the account pages use it *)

Module Http.

Inductive Verb : Type := GET | POST | PUT | DELETE.

Record Request : Type := mkRequest {
  verb : Verb;
  url : string;
  params : list (string * JsVal);
  body : JsVal;
}.

(** What an awaited call settles to: [response.data], or a rejection whose
    [err.response?.data?.error] is [error], a string when the server sent
    one. *)
Inductive Reply (D : Type) : Type :=
| Ok (data : D)
| Failed (error : option string).
Arguments Ok {D} data.
Arguments Failed {D} error.

(** [err.response?.data?.error || fallback] *)
Definition error_or (error : option string) (fallback : string) : string :=
  match error with
  | Some e => if String.eqb e "" then fallback else e
  | None => fallback
  end.

End Http.

(** ** services/accountService.js *)

Module accountService.
Import Http.

(** [params = {}] *)
Definition getAllUsers (params : list (string * JsVal)) : Request :=
  {| verb := GET; url := "/accounts/users"; params := params; body := JUndefined |}.

Definition getUserById (userId : string) : Request :=
  {| verb := GET; url := "/accounts/users/" +:+ userId; params := [];
     body := JUndefined |}.

Definition updateUserRole (userId role : string) : Request :=
  {| verb := PUT; url := "/accounts/users/" +:+ userId +:+ "/role"; params := [];
     body := JObj [("role", JStr role)] |}.

Definition activateUser (userId : string) : Request :=
  {| verb := POST; url := "/accounts/users/" +:+ userId +:+ "/activate";
     params := []; body := JUndefined |}.

Definition deactivateUser (userId : string) : Request :=
  {| verb := POST; url := "/accounts/users/" +:+ userId +:+ "/deactivate";
     params := []; body := JUndefined |}.

Definition deleteUser (userId : string) : Request :=
  {| verb := DELETE; url := "/accounts/users/" +:+ userId; params := [];
     body := JUndefined |}.

Definition deactivateOwnAccount : Request :=
  {| verb := POST; url := "/accounts/me/deactivate"; params := [];
     body := JUndefined |}.

End accountService.

(** ** context/AuthContext.jsx: the actions of the provider *)

Module AuthProvider.
Import Http Auth.

(** [response.data] of the login and register endpoints, and of the
    endpoints that return the user. *)
Record Credentials : Type := mkCredentials { c_user : User; c_token : string }.
Record UserData : Type := mkUserData { u_user : User }.

(** The provider's hook state together with the browser's [localStorage]. *)
Record World : Type := mkWorld {
  auth : AuthState;
  storage : gmap string string;
}.

(** [localStorage.getItem(k)] as a condition: a missing or empty item is
    falsy. *)
Definition stored (w : World) (k : string) : bool :=
  match storage w !! k with
  | Some v => negb (String.eqb v "")
  | None => false
  end.

Definition set_auth (u : option User) (l : bool) (e : option string) (w : World) : World :=
  {| auth := {| user := u; loading := l; error := e |}; storage := storage w |}.

Section Actions.

(** [JSON.stringify] on a user object. *)
Variable stringify : User → string.

(** The outcome of an action: the world after it, the requests it sent, and
    its return value or the message of the [Error] it threw. *)
Definition Outcome (A : Type) : Type := World * list Request * (string + A).

Definition sign_in (w : World) (c : Credentials) : World :=
  {| auth := {| user := Some (c_user c); loading := loading (auth w); error := None |};
     storage := <["user" := stringify (c_user c)]> (<["token" := c_token c]> (storage w)) |}.

(** [setError(null)] followed by a failed call. *)
Definition fail_with (w : World) (message : string) : World :=
  set_auth (user (auth w)) (loading (auth w)) (Some message) w.

Definition login (api : Request → Reply Credentials) (email password : string)
    (w : World) : Outcome User :=
  let rq := {| verb := POST; url := "/accounts/login"; params := [];
               body := JObj [("email", JStr email); ("password", JStr password)] |} in
  match api rq with
  | Ok c => (sign_in w c, [rq], inr (c_user c))
  | Failed e =>
      let message := error_or e "Login failed" in
      (fail_with w message, [rq], inl message)
  end.

Definition register (api : Request → Reply Credentials) (userData : JsVal)
    (w : World) : Outcome User :=
  let rq := {| verb := POST; url := "/accounts/register"; params := [];
               body := userData |} in
  match api rq with
  | Ok c => (sign_in w c, [rq], inr (c_user c))
  | Failed e =>
      let message := error_or e "Registration failed" in
      (fail_with w message, [rq], inl message)
  end.

Definition logout (w : World) : World :=
  {| auth := Auth.logout (auth w);
     storage := delete "user" (delete "token" (storage w)) |}.

Definition store_user (w : World) (u : User) : World :=
  {| auth := {| user := Some u; loading := loading (auth w); error := None |};
     storage := <["user" := stringify u]> (storage w) |}.

Definition updateProfile (api : Request → Reply UserData) (profileData : JsVal)
    (w : World) : Outcome User :=
  let rq := {| verb := PUT; url := "/accounts/me"; params := [];
               body := profileData |} in
  match api rq with
  | Ok d => (store_user w (u_user d), [rq], inr (u_user d))
  | Failed e =>
      let message := error_or e "Update failed" in
      (fail_with w message, [rq], inl message)
  end.

Definition changePassword (api : Request → Reply unit)
    (currentPassword newPassword : string) (w : World) : Outcome unit :=
  let rq := {| verb := PUT; url := "/accounts/me/password"; params := [];
               body := JObj [("current_password", JStr currentPassword);
                             ("new_password", JStr newPassword)] |} in
  match api rq with
  | Ok _ => (set_auth (user (auth w)) (loading (auth w)) None w, [rq], inr tt)
  | Failed e =>
      let message := error_or e "Password change failed" in
      (fail_with w message, [rq], inl message)
  end.

Definition updateEmail (api : Request → Reply UserData) (newEmail password : string)
    (w : World) : Outcome User :=
  let rq := {| verb := PUT; url := "/accounts/me/email"; params := [];
               body := JObj [("new_email", JStr newEmail);
                             ("password", JStr password)] |} in
  match api rq with
  | Ok d => (store_user w (u_user d), [rq], inr (u_user d))
  | Failed e =>
      let message := error_or e "Email update failed" in
      (fail_with w message, [rq], inl message)
  end.

(** The effect run on mount: [initAuth]. *)
Definition initAuth (api : Request → Reply UserData) (w : World)
    : World * list Request :=
  if stored w "token" && stored w "user" then
    let rq := {| verb := GET; url := "/accounts/me"; params := [];
                 body := JUndefined |} in
    match api rq with
    | Ok d =>
        ({| auth := {| user := Some (u_user d); loading := false;
                       error := error (auth w) |};
            storage := <["user" := stringify (u_user d)]> (storage w) |}, [rq])
    | Failed _ =>
        ({| auth := {| user := user (auth w); loading := false;
                       error := error (auth w) |};
            storage := delete "user" (delete "token" (storage w)) |}, [rq])
    end
  else (set_auth (user (auth w)) false (error (auth w)) w, []).

End Actions.

End AuthProvider.

(** ** components/admin/AdminUsersPage.jsx *)

Module AdminUsersPage.
Import Http.

Record Row : Type := mkRow {
  id : string;
  role : string;
  is_active : bool;
  full_name : string;
  email : string;
}.

Record Pagination : Type := mkPagination { total : Z; pages : Z }.

(** [response.data] of the user list. *)
Record Page : Type := mkPage { d_users : list Row; d_pagination : Pagination }.

Record State : Type := mkState {
  users : list Row;            (* useState([]) *)
  loading : bool;
  error : string;              (* useState('') *)
  success : string;            (* useState('') *)
  roleFilter : string;         (* useState('') *)
  statusFilter : string;       (* useState('') *)
  page : Z;                    (* useState(1) *)
  pagination : Pagination;
}.

Definition with_users (us : list Row) (ok : string) (st : State) : State :=
  {| users := us; loading := loading st; error := error st; success := ok;
     roleFilter := roleFilter st; statusFilter := statusFilter st;
     page := page st; pagination := pagination st |}.

Definition with_error (e : string) (st : State) : State :=
  {| users := users st; loading := loading st; error := e; success := success st;
     roleFilter := roleFilter st; statusFilter := statusFilter st;
     page := page st; pagination := pagination st |}.

(** The [params] object that [fetchUsers] builds. *)
Definition fetch_params (st : State) : list (string * JsVal) :=
  [("page", JNum (page st)); ("per_page", JNum 10)]
  ++ (if String.eqb (roleFilter st) "" then [] else [("role", JStr (roleFilter st))])
  ++ (if String.eqb (statusFilter st) "" then []
      else [("is_active", JStr (statusFilter st))]).

(** The second effect: [fetchUsers] runs only under [isAdmin]. *)
Definition fetchUsers_effect (api : Request → Reply Page) (isAdmin : bool) (st : State)
    : State * list Request :=
  if isAdmin then
    let rq := accountService.getAllUsers (fetch_params st) in
    match api rq with
    | Ok data =>
        ({| users := d_users data; loading := false; error := error st;
            success := success st; roleFilter := roleFilter st;
            statusFilter := statusFilter st; page := page st;
            pagination := d_pagination data |}, [rq])
    | Failed e =>
        ({| users := users st; loading := false;
            error := error_or e "Failed to load users"; success := success st;
            roleFilter := roleFilter st; statusFilter := statusFilter st;
            page := page st; pagination := pagination st |}, [rq])
    end
  else (st, []).

(** [{ ...user, role: newRole }] *)
Definition set_role (newRole : string) (u : Row) : Row :=
  {| id := id u; role := newRole; is_active := is_active u;
     full_name := full_name u; email := email u |}.

(** [{ ...user, is_active: a }] *)
Definition set_active (a : bool) (u : Row) : Row :=
  {| id := id u; role := role u; is_active := a;
     full_name := full_name u; email := email u |}.

(** The handlers' state is the one right after the handler; the timer that
    blanks the success message three seconds later is not part of it. *)
Definition handleRoleChange (api : Request → Reply unit) (userId newRole : string)
    (st : State) : State * list Request :=
  let rq := accountService.updateUserRole userId newRole in
  match api rq with
  | Ok _ =>
      (with_users ((λ u, if String.eqb (id u) userId then set_role newRole u else u)
                     <$> users st)
                  "Role updated successfully" st, [rq])
  | Failed e => (with_error (error_or e "Failed to update role") st, [rq])
  end.

Definition handleToggleStatus (api : Request → Reply unit) (userId : string)
    (isActive : bool) (st : State) : State * list Request :=
  let rq := if isActive then accountService.deactivateUser userId
            else accountService.activateUser userId in
  match api rq with
  | Ok _ =>
      (with_users ((λ u, if String.eqb (id u) userId
                         then set_active (negb isActive) u else u) <$> users st)
                  ("Account " +:+ (if isActive then "deactivated" else "activated")
                   +:+ " successfully") st, [rq])
  | Failed e => (with_error (error_or e "Failed to update status") st, [rq])
  end.

(** [confirmed] is the answer to [window.confirm]. *)
Definition handleDelete (api : Request → Reply unit) (confirmed : bool)
    (userId : string) (st : State) : State * list Request :=
  if negb confirmed then (st, [])
  else
    let rq := accountService.deleteUser userId in
    match api rq with
    | Ok _ =>
        (with_users (List.filter (λ u, negb (String.eqb (id u) userId)) (users st))
                    "User deleted successfully" st, [rq])
    | Failed e => (with_error (error_or e "Failed to delete user") st, [rq])
    end.

(** Whether the component returns anything: [null] for a non-admin. *)
Definition renders (isAdmin : bool) : bool := isAdmin.

End AdminUsersPage.

(** ** components/accounts/AccountEditPage.jsx: the three forms *)

Module AccountEditPage.
Import Http Auth AuthProvider.

Record PasswordData : Type := mkPasswordData {
  current_password : string;
  new_password : string;
  confirm_password : string;
}.

Record EmailData : Type := mkEmailData { new_email : string; password : string }.

Record State : Type := mkState {
  profileData : JsVal;
  passwordData : PasswordData;
  emailData : EmailData;
  loading : bool;
  success : string;
  error : string;
}.

Definition settle (pw : PasswordData) (em : EmailData) (ok err : string) (st : State)
    : State :=
  {| profileData := profileData st; passwordData := pw; emailData := em;
     loading := false; success := ok; error := err |}.

Section Handlers.

Variable stringify : User → string.

Definition handleProfileSubmit (api : Request → Reply UserData) (st : State)
    (w : World) : State * World * list Request :=
  match updateProfile stringify api (profileData st) w with
  | (w', sent, inr _) =>
      (settle (passwordData st) (emailData st) "Profile updated successfully!" "" st,
       w', sent)
  | (w', sent, inl message) =>
      (settle (passwordData st) (emailData st) "" message st, w', sent)
  end.

Definition handlePasswordSubmit (api : Request → Reply unit) (st : State)
    (w : World) : State * World * list Request :=
  let pw := passwordData st in
  if negb (String.eqb (new_password pw) (confirm_password pw)) then
    (settle pw (emailData st) "" "New passwords do not match" st, w, [])
  else
    match changePassword api (current_password pw) (new_password pw) w with
    | (w', sent, inr _) =>
        (settle {| current_password := ""; new_password := ""; confirm_password := "" |}
                (emailData st) "Password changed successfully!" "" st, w', sent)
    | (w', sent, inl message) => (settle pw (emailData st) "" message st, w', sent)
    end.

Definition handleEmailSubmit (api : Request → Reply UserData) (st : State)
    (w : World) : State * World * list Request :=
  let em := emailData st in
  match updateEmail stringify api (new_email em) (password em) w with
  | (w', sent, inr _) =>
      (settle (passwordData st) {| new_email := new_email em; password := "" |}
              "Email updated successfully!" "" st, w', sent)
  | (w', sent, inl message) => (settle (passwordData st) em "" message st, w', sent)
  end.

End Handlers.

End AccountEditPage.

(** ** components/layout/Layout.jsx *)

Module Layout.
Import Auth.

(** The links of the navigation bar, as [(to, label)], in order. *)
Definition nav_links (ctx : AuthValue) : list (string * string) :=
  [("/dashboard", "Dashboard"); ("/progress", "Progress")]
  ++ (if role_is (v_user ctx) "student" then [("/dashboard", "My Modules")] else [])
  ++ (if role_is (v_user ctx) "teacher" || isAdmin ctx
      then [("/ecese/upload", "Upload Content"); ("/analytics", "Analytics")] else [])
  ++ (if isAdmin ctx then [("/admin/users", "Users")] else []).

End Layout.

(** ** App.jsx: every route *)

Module Routes.
Import Auth Route.

(** The entries of [<Routes>], in order; [r_module_content] carries the
    [:moduleName] segment, [r_other] is the [*] entry. *)
Inductive Entry : Type :=
| r_login | r_register | r_dashboard | r_account_edit | r_progress | r_analytics
| r_admin_users | r_ecese_upload | r_module_content (moduleName : string)
| r_root | r_other.

Inductive Page : Type :=
| LoginPage | RegisterPage | Dashboard | AccountEditPage | ProgressDashboard
| TeacherAnalytics | AdminUsersPage | TeacherUploadPage
| StudentContentViewer (moduleName : string).

(** The [element] of an entry under the context value [ctx]. *)
Definition element (ctx : AuthValue) (e : Entry) : View Page :=
  match e with
  | r_login => Children LoginPage
  | r_register => Children RegisterPage
  | r_dashboard => ProtectedRoute ctx None Dashboard
  | r_account_edit => ProtectedRoute ctx None AccountEditPage
  | r_progress => ProtectedRoute ctx None ProgressDashboard
  | r_analytics => ProtectedRoute ctx None TeacherAnalytics
  | r_admin_users => ProtectedRoute ctx (Some "admin") AdminUsersPage
  | r_ecese_upload => ProtectedRoute ctx None TeacherUploadPage
  | r_module_content m => ProtectedRoute ctx None (StudentContentViewer m)
  | r_root => Navigate "/dashboard"
  | r_other => Navigate "/dashboard"
  end.

(** The entry that a [Navigate] of this table leads to; the table
    navigates to these two paths only. *)
Definition target (to : string) : option Entry :=
  if String.eqb to "/login" then Some r_login
  else if String.eqb to "/dashboard" then Some r_dashboard
  else None.

End Routes.

(** ** components/ecese/TeacherUploadPage.jsx *)

Module TeacherUploadPage.

Record File : Type := mkFile { name : string; type : string; size : Z }.

(** What an awaited ECESE call settles to: [response.data], or a rejection
    with its [err.response?.data?.detail] and its [err.message]. *)
Inductive Reply (D : Type) : Type :=
| Ok (data : D)
| Failed (detail : option string) (message : string).
Arguments Ok {D} data.
Arguments Failed {D} detail message.

(** [a || b] on strings *)
Definition str_or (a b : string) : string := if String.eqb a "" then b else a.

(** [err.response?.data?.detail || err.message || fallback] *)
Definition failure_text (detail : option string) (message fallback : string) : string :=
  str_or (str_or (default "" detail) message) fallback.

Record UploadResponse : Type := mkUploadResponse {
  up_success : bool;
  upload_id : string;
  up_message : string;         (* '' when absent *)
  module_name : string;
  textbook_filename : string;
  teacher_guide_filename : string;
}.

Record SkeletonResponse : Type := mkSkeletonResponse {
  sk_success : bool;
  sk_skeleton : option (list (string * list string));
}.

Record UploadStatus : Type := mkUploadStatus {
  us_message : string;
  us_uploadId : string;
  us_moduleName : string;
  us_textbookFilename : string;
  us_teacherGuideFilename : string;
}.

Record State : Type := mkState {
  moduleName : string;                         (* useState('') *)
  textbookFile : option File;                  (* useState(null) *)
  teacherGuideFile : option File;              (* useState(null) *)
  uploading : bool;
  uploadStatus : option UploadStatus;          (* useState(null) *)
  error : string;                              (* useState('') *)
  activeStep : Z;                              (* useState(0) *)
  uploadId : option string;
  skeleton : option (list (string * list string));
}.

(** [handleReset] *)
Definition handleReset (st : State) : State :=
  {| moduleName := ""; textbookFile := None; teacherGuideFile := None;
     uploading := false; uploadStatus := None; error := ""; activeStep := 0;
     uploadId := None; skeleton := None |}.

Definition set_error (e : string) (st : State) : State :=
  {| moduleName := moduleName st; textbookFile := textbookFile st;
     teacherGuideFile := teacherGuideFile st; uploading := uploading st;
     uploadStatus := uploadStatus st; error := e; activeStep := activeStep st;
     uploadId := uploadId st; skeleton := skeleton st |}.

(** [e.target.files[0]] is [file]; nothing happens when no file was chosen. *)
Definition handleTextbookChange (file : option File) (st : State) : State :=
  match file with
  | None => st
  | Some f =>
      if negb (String.eqb (type f) "application/pdf")
      then set_error "Textbook must be a PDF file" st
      else {| moduleName := moduleName st; textbookFile := Some f;
              teacherGuideFile := teacherGuideFile st; uploading := uploading st;
              uploadStatus := uploadStatus st; error := ""; activeStep := activeStep st;
              uploadId := uploadId st; skeleton := skeleton st |}
  end.

Definition handleTeacherGuideChange (file : option File) (st : State) : State :=
  match file with
  | None => st
  | Some f =>
      if negb (String.eqb (type f) "application/pdf")
      then set_error "Teacher guide must be a PDF file" st
      else {| moduleName := moduleName st; textbookFile := textbookFile st;
              teacherGuideFile := Some f; uploading := uploading st;
              uploadStatus := uploadStatus st; error := ""; activeStep := activeStep st;
              uploadId := uploadId st; skeleton := skeleton st |}
  end.

(** The two ECESE calls, as what is posted. *)
Inductive Call : Type :=
| uploadModule (textbook teacherGuide : File) (moduleName : string)
| extractSkeleton_call (uploadId : string).

(** The end of a run: which step is shown, with what error. *)
Definition finish (step : Z) (e : string) (up : bool) (st : State) : State :=
  {| moduleName := moduleName st; textbookFile := textbookFile st;
     teacherGuideFile := teacherGuideFile st; uploading := up;
     uploadStatus := uploadStatus st; error := e; activeStep := step;
     uploadId := uploadId st; skeleton := skeleton st |}.

(** [extractSkeleton(id)]: its [catch] swallows every failure. *)
Definition extractSkeleton (api : string → Reply SkeletonResponse) (id : string)
    (st : State) : State :=
  match api id with
  | Ok r =>
      match sk_success r, sk_skeleton r with
      | true, Some sk =>
          {| moduleName := moduleName st; textbookFile := textbookFile st;
             teacherGuideFile := teacherGuideFile st; uploading := false;
             uploadStatus := uploadStatus st; error := error st; activeStep := 3;
             uploadId := uploadId st; skeleton := Some sk |}
      | _, _ => finish 1 "Failed to extract skeleton" false st
      end
  | Failed detail message =>
      finish 1 (failure_text detail message "Failed to extract skeleton") false st
  end.

Section Upload.

(** [String.prototype.trim] *)
Variable trim : string → string.

Definition handleUpload (upload : File → File → string → Reply UploadResponse)
    (extract : string → Reply SkeletonResponse) (st : State) : State * list Call :=
  if String.eqb (trim (moduleName st)) "" then (set_error "Module name is required" st, [])
  else
    match textbookFile st, teacherGuideFile st with
    | None, _ => (set_error "Please select a textbook PDF" st, [])
    | Some _, None => (set_error "Please select a teacher guide PDF" st, [])
    | Some tb, Some tg =>
        let call1 := uploadModule tb tg (trim (moduleName st)) in
        match upload tb tg (trim (moduleName st)) with
        | Ok r =>
            if up_success r then
              let uploaded :=
                {| moduleName := moduleName st; textbookFile := textbookFile st;
                   teacherGuideFile := teacherGuideFile st; uploading := true;
                   uploadStatus :=
                     Some {| us_message := up_message r; us_uploadId := upload_id r;
                             us_moduleName := module_name r;
                             us_textbookFilename := textbook_filename r;
                             us_teacherGuideFilename := teacher_guide_filename r |};
                   error := ""; activeStep := 2;
                   uploadId := Some (upload_id r); skeleton := skeleton st |} in
              (extractSkeleton extract (upload_id r) uploaded,
               [call1; extractSkeleton_call (upload_id r)])
            else (finish 0 (str_or (up_message r) "Upload failed") false st, [call1])
        | Failed detail message =>
            (finish 0 (failure_text detail message "Failed to upload files") false st,
             [call1])
        end
    end.

End Upload.

(** Which of the four panels under the stepper are rendered. *)
Definition form_shown (st : State) : bool := activeStep st =? 0.
Definition progress_shown (st : State) : bool := (1 <=? activeStep st) && uploading st.
Definition details_shown (st : State) : bool :=
  bool_decide (is_Some (uploadStatus st)) && (2 <=? activeStep st).
Definition result_shown (st : State) : bool :=
  bool_decide (is_Some (skeleton st)) && (activeStep st =? 3).

End TeacherUploadPage.

(** ** components/ecese/StudentContentViewer.jsx *)

Module StudentContentViewer.

(** One element of [response.contents]; a missing [unit_name] is [None]. *)
Record Item : Type := mkItem {
  id : string;
  unit_name : option string;
  topic_name : string;
  structured_markdown : string;
  status : string;
  created_at : string;
  word_count : option Z;       (* [metadata?.word_count] *)
}.

Record Content : Type := mkContent {
  success : bool;
  module_name : string;
  count : Z;
  contents : option (list Item);
}.

Record Topic : Type := mkTopic {
  t_id : string;
  topicName : string;
  markdown : string;
  t_status : string;
  t_created_at : string;
  wordCount : Z;
}.

Record Structure : Type := mkStructure {
  s_moduleName : string;
  units : gmap string (list Topic);
}.

(** [item.unit_name || 'General'] *)
Definition unit_key (item : Item) : string :=
  match unit_name item with
  | Some u => if String.eqb u "" then "General" else u
  | None => "General"
  end.

Definition topic_of (item : Item) : Topic :=
  {| t_id := id item; topicName := topic_name item;
     markdown := structured_markdown item; t_status := status item;
     t_created_at := created_at item;
     wordCount := match word_count item with
                  | Some n => n        (* [n || 0] is [n], also at 0 *)
                  | None => 0
                  end |}.

(** The property names that a plain object inherits; under such a key
    [structure.units[unitName]] is truthy before anything was stored. *)
Definition inherited_keys : list string :=
  [ "constructor"; "__proto__"; "hasOwnProperty"; "isPrototypeOf";
    "propertyIsEnumerable"; "toLocaleString"; "toString"; "valueOf";
    "__defineGetter__"; "__defineSetter__"; "__lookupGetter__"; "__lookupSetter__" ].

(** One pass of the [forEach] callback.  Under an inherited key the lookup
    finds a value that has no [push], and the call throws: [None]. *)
Definition add_item (us : gmap string (list Topic)) (item : Item)
    : option (gmap string (list Topic)) :=
  let unitName := unit_key item in
  if bool_decide (unitName ∈ inherited_keys) then None
  else Some (<[unitName := default [] (us !! unitName) ++ [topic_of item]]> us).

Fixpoint add_items (us : gmap string (list Topic)) (items : list Item)
    : option (gmap string (list Topic)) :=
  match items with
  | [] => Some us
  | item :: rest =>
      match add_item us item with
      | None => None
      | Some us' => add_items us' rest
      end
  end.

(** What the [useMemo] yields: an exception, [null], or the structure. *)
Inductive Tree : Type :=
| Throws
| NoTree
| Built (s : Structure).

Definition treeStructure (content : option Content) : Tree :=
  match content with
  | None => NoTree
  | Some c =>
      match contents c with
      | None => NoTree
      | Some items =>
          match add_items ∅ items with
          | None => Throws
          | Some us => Built {| s_moduleName := module_name c; units := us |}
          end
      end
  end.

(** [[...new Set(xs)]]: the distinct values, each at its first occurrence. *)
Fixpoint distinct (seen : list (option string)) (xs : list (option string))
    : list (option string) :=
  match xs with
  | [] => []
  | x :: rest =>
      if bool_decide (x ∈ seen) then distinct seen rest
      else x :: distinct (x :: seen) rest
  end.

(** The [expanded] state that [loadContent] sets: the distinct raw
    [unit_name]s. *)
Definition expanded_units (items : list Item) : list (option string) :=
  distinct [] (unit_name <$> items).

(** The unit node [unitName] is open when its [nodeId] is among the
    expanded items. *)
Definition unit_open (expanded : list (option string)) (unitName : string) : bool :=
  bool_decide (Some unitName ∈ expanded).

(** The guards before the main view, in order. *)
Inductive View : Type :=
| AccessDenied
| Loading
| ErrorAlert (e : string)
| NoContent
| Viewer (s : Structure)
| Crashed.

Definition render (isStudent loading : bool) (error : string)
    (content : option Content) : View :=
  match treeStructure content with
  | Throws => Crashed          (* the hook runs before any guard *)
  | tree =>
      if negb isStudent then AccessDenied
      else if loading then Loading
      else if negb (String.eqb error "") then ErrorAlert error
      else match content, tree with
           | Some _, Built s => Viewer s
           | _, _ => NoContent
           end
  end.

End StudentContentViewer.

(** ** services/eceseService.js: the request interceptor *)

Module eceseService.

Record Config : Type := mkConfig {
  headers : gmap string string;
  params : gmap string JsVal;          (* absent [params] is the empty object *)
}.

(** [user.k] on the parsed stored user: reading a property of [null]
    throws, which is [None]. *)
Definition prop (v : JsVal) (k : string) : option JsVal :=
  match v with
  | JUndefined | JNull => None
  | JObj fs => Some (assoc k fs)
  | _ => Some JUndefined
  end.

(** The interceptor, given [localStorage.getItem('token')] and the value
    parsed from the stored user (or from ['{}']). *)
Definition intercept (token : option string) (user : JsVal) (config : Config)
    : option Config :=
  let hs := match token with
            | Some t => if String.eqb t "" then headers config
                        else <["Authorization" := "Bearer " +:+ t]> (headers config)
            | None => headers config
            end in
  match prop user "id", prop user "role" with
  | Some i, Some r =>
      Some {| headers := hs;
              params := if truthy i
                        then <["user_role" := r]> (<["user_id" := i]> (params config))
                        else params config |}
  | _, _ => None
  end.

End eceseService.

(** ** components/pmsas/StreakCard.jsx: the tiers *)

Module StreakTiers.

Definition getStreakEmoji (days : Z) : string :=
  if 100 <=? days then "🌟"
  else if 60 <=? days then "💎"
  else if 30 <=? days then "👑"
  else if 14 <=? days then "🏆"
  else if 7 <=? days then "⭐"
  else if 3 <=? days then "🔥"
  else "✨".

End StreakTiers.

(** ** components/pmsas/ProgressDashboard.jsx: [loadData] *)

Module ProgressLoad.
Import Api ProgressDashboard.

Record SummaryData : Type := mkSummaryData { d_summary : option Summary }.
Record BoardData : Type := mkBoardData { d_leaderboard : option Board }.
Record BadgesData : Type := mkBadgesData { d_badges : list Badge }.
Record AnalyticsData : Type := mkAnalyticsData { d_analytics : option Analytics }.

(** The four calls are made while the array literal is built, so all four
    requests leave before [Promise.all] is awaited. *)
Definition loadData (api1 : Request → Reply SummaryData)
    (api2 : Request → Reply BoardData) (api3 : Request → Reply BadgesData)
    (api4 : Request → Reply AnalyticsData) (st : State) : State * list Request :=
  let r1 := call api1 "getSummary" [] in
  let r2 := call api2 "getLeaderboard" loadData_leaderboard_args in
  let r3 := call api3 "getMyBadges" [] in
  let r4 := call api4 "getMyAnalytics" [] in
  let sent_all := sent r1 ++ sent r2 ++ sent r3 ++ sent r4 in
  match outcome r1, outcome r2, outcome r3, outcome r4 with
  | inr s, inr l, inr b, inr a =>
      ({| loading := false; summary := d_summary s; leaderboard := d_leaderboard l;
          badges := d_badges b; analytics := d_analytics a;
          activeTab := activeTab st |}, sent_all)
  | _, _, _, _ =>
      ({| loading := false; summary := summary st; leaderboard := leaderboard st;
          badges := badges st; analytics := analytics st;
          activeTab := activeTab st |}, sent_all)
  end.

End ProgressLoad.

(** ** More concrete inputs *)

Module MoreSamples.

Definition entry_of (n : Z) : ProgressDashboard.Entry :=
  {| ProgressDashboard.user_id := "u" +:+ Dom.show n;
     ProgressDashboard.user_name := "User " +:+ Dom.show n;
     ProgressDashboard.score := 20 - n; ProgressDashboard.secondary_score := 30 |}.

Definition six_entries : list ProgressDashboard.Entry :=
  entry_of <$> [1; 2; 3; 4; 5; 6].

Definition one_badge : ProgressDashboard.Badge :=
  {| ProgressDashboard.icon := "*"; ProgressDashboard.name := "First Steps";
     ProgressDashboard.rarity := "common"; ProgressDashboard.description := "";
     ProgressDashboard.points_value := 10;
     ProgressDashboard.earned_at := Some "2024-05-01" |}.

Definition loaded_dashboard : ProgressDashboard.State :=
  {| ProgressDashboard.loading := false; ProgressDashboard.summary := None;
     ProgressDashboard.leaderboard :=
       Some {| ProgressDashboard.entries := Some six_entries;
               ProgressDashboard.user_rank := Some 12;
               ProgressDashboard.total_participants := 40 |};
     ProgressDashboard.badges := [one_badge];
     ProgressDashboard.analytics := None;
     ProgressDashboard.activeTab := ProgressDashboard.tab_overview |}.




(** Three consecutive days of recorded activity with no evaluation in
    between, so that both sample badges fall due at the next evaluation. *)
Definition quiet_days : list Engine.Op :=
  [ Engine.RecordActivity "u1" 100;
    Engine.RecordActivity "u1" 86500;
    Engine.RecordActivity "u1" 172900 ].

(** What follows that evaluation: a second evaluation, an award attempt
    left from an evaluation that ran beside the first, a day of activity
    after a gap (the streak restarts), and one more evaluation. *)
Definition redundant_runs : list Engine.Op :=
  [ Engine.EvaluateBadges "u1" 172960;
    Engine.AwardBadge "u1" "streak_3" 172970;
    Engine.RecordActivity "u1" 432100;
    Engine.EvaluateBadges "u1" 432200 ].

Definition evaluated_run : list Engine.Op :=
  quiet_days ++ Engine.EvaluateBadges "u1" 172950 :: redundant_runs.

Definition shown_badge (i ty : string) (earned : string) : BadgesDisplay.Badge :=
  {| BadgesDisplay.id := i; BadgesDisplay.badge_type := ty;
     BadgesDisplay.icon := "*"; BadgesDisplay.name := ty;
     BadgesDisplay.description := ""; BadgesDisplay.points := 10;
     BadgesDisplay.earned_at := earned |}.

(** The "all badges" tab with two badges on offer, the first of them
    earned. *)
Definition half_earned : BadgesDisplay.State :=
  {| BadgesDisplay.earnedBadges := [shown_badge "e1" "first_steps" "2024-05-01"];
     BadgesDisplay.availableBadges :=
       [shown_badge "b1" "first_steps" ""; shown_badge "b2" "streak_3" ""];
     BadgesDisplay.loading := false;
     BadgesDisplay.activeTab := BadgesDisplay.tab_all |}.

Definition signed_out : Auth.AuthState :=
  {| Auth.user := None; Auth.loading := false; Auth.error := None |}.

Definition admin_row (i role : string) (active : bool) : AdminUsersPage.Row :=
  {| AdminUsersPage.id := i; AdminUsersPage.role := role;
     AdminUsersPage.is_active := active; AdminUsersPage.full_name := "User " +:+ i;
     AdminUsersPage.email := i +:+ "@example.org" |}.

Definition admin_table : AdminUsersPage.State :=
  {| AdminUsersPage.users :=
       [admin_row "u1" "admin" true; admin_row "u2" "student" true;
        admin_row "u3" "teacher" false];
     AdminUsersPage.loading := false; AdminUsersPage.error := "";
     AdminUsersPage.success := ""; AdminUsersPage.roleFilter := "";
     AdminUsersPage.statusFilter := ""; AdminUsersPage.page := 1;
     AdminUsersPage.pagination :=
       {| AdminUsersPage.total := 3; AdminUsersPage.pages := 1 |} |}.

(** A server that accepts every request. *)
Definition accepting (_ : Http.Request) : Http.Reply unit := Http.Ok tt.

Definition textbook : TeacherUploadPage.File :=
  {| TeacherUploadPage.name := "history.pdf";
     TeacherUploadPage.type := "application/pdf"; TeacherUploadPage.size := 1048576 |}.

Definition guide : TeacherUploadPage.File :=
  {| TeacherUploadPage.name := "history-guide.pdf";
     TeacherUploadPage.type := "application/pdf"; TeacherUploadPage.size := 204800 |}.

Definition revised_guide : TeacherUploadPage.File :=
  {| TeacherUploadPage.name := "history-guide-v2.pdf";
     TeacherUploadPage.type := "application/pdf"; TeacherUploadPage.size := 307200 |}.

Definition spreadsheet : TeacherUploadPage.File :=
  {| TeacherUploadPage.name := "marks.xlsx";
     TeacherUploadPage.type := "application/vnd.ms-excel";
     TeacherUploadPage.size := 4096 |}.

Definition ready_to_upload : TeacherUploadPage.State :=
  {| TeacherUploadPage.moduleName := "History Grade 10";
     TeacherUploadPage.textbookFile := Some textbook;
     TeacherUploadPage.teacherGuideFile := Some guide;
     TeacherUploadPage.uploading := false; TeacherUploadPage.uploadStatus := None;
     TeacherUploadPage.error := ""; TeacherUploadPage.activeStep := 0;
     TeacherUploadPage.uploadId := None; TeacherUploadPage.skeleton := None |}.

(** Choices made in the two file inputs, [true] for the textbook input: a
    spreadsheet offered as textbook, a new guide, a dialog closed without a
    file. *)
Definition some_choices : list (bool * option TeacherUploadPage.File) :=
  [(true, Some spreadsheet); (false, Some revised_guide); (true, None)].

Definition upload_ok (tb tg : TeacherUploadPage.File) (n : string)
    : TeacherUploadPage.Reply TeacherUploadPage.UploadResponse :=
  TeacherUploadPage.Ok
    {| TeacherUploadPage.up_success := true; TeacherUploadPage.upload_id := "up-1";
       TeacherUploadPage.up_message := "Files uploaded";
       TeacherUploadPage.module_name := n;
       TeacherUploadPage.textbook_filename := TeacherUploadPage.name tb;
       TeacherUploadPage.teacher_guide_filename := TeacherUploadPage.name tg |}.

Definition extract_fails (_ : string)
    : TeacherUploadPage.Reply TeacherUploadPage.SkeletonResponse :=
  TeacherUploadPage.Ok
    {| TeacherUploadPage.sk_success := false; TeacherUploadPage.sk_skeleton := None |}.

Definition item (i : string) (unit : option string) (topic : string)
    : StudentContentViewer.Item :=
  {| StudentContentViewer.id := i; StudentContentViewer.unit_name := unit;
     StudentContentViewer.topic_name := topic;
     StudentContentViewer.structured_markdown := "# " +:+ topic;
     StudentContentViewer.status := "approved";
     StudentContentViewer.created_at := "2024-05-01";
     StudentContentViewer.word_count := Some 120 |}.

Definition module_items : list StudentContentViewer.Item :=
  [ item "t1" (Some "Unit 1") "Early kingdoms";
    item "t2" (Some "Unit 2") "Trade routes";
    item "t3" None "Glossary";
    item "t4" (Some "Unit 1") "Irrigation" ].

Definition module_content : StudentContentViewer.Content :=
  {| StudentContentViewer.success := true;
     StudentContentViewer.module_name := "History Grade 10";
     StudentContentViewer.count := 4;
     StudentContentViewer.contents := Some module_items |}.

Definition bad_item : StudentContentViewer.Item :=
  item "t9" (Some "constructor") "Object models".

Definition bad_content : StudentContentViewer.Content :=
  {| StudentContentViewer.success := true;
     StudentContentViewer.module_name := "Programming";
     StudentContentViewer.count := 1;
     StudentContentViewer.contents := Some [bad_item] |}.

Definition stored_teacher : JsVal :=
  JObj [("id", JStr "u7"); ("role", JStr "teacher")].

Definition plain_config : eceseService.Config :=
  {| eceseService.headers := {["Content-Type" := "application/json"]};
     eceseService.params := ∅ |}.

End MoreSamples.

(** * Properties *)

(** ** Authentication context and route protection *)

Section AuthFacts.
Import Auth Route.

Lemma role_is_true (u : option User) (r : string) :
  role_is u r = true ↔ ∃ x, u = Some x ∧ role x = r.
Proof.
  destruct u as [x|]; simpl.
  - rewrite String.eqb_eq. split; [intros E; by exists x | by intros (? & [= <-] & ?)].
  - split; [discriminate | by intros (? & ? & ?)].
Qed.

Lemma role_is_false (x : User) (r : string) :
  role_is (Some x) r = false ↔ role x ≠ r.
Proof. simpl. apply String.eqb_neq. Qed.

Lemma isAuthenticated_spec (st : AuthState) :
  isAuthenticated (value st) = true ↔ user st ≠ None.
Proof.
  simpl. rewrite bool_decide_eq_true. destruct (user st); split; intros H.
  - discriminate.
  - by eexists.
  - by destruct H.
  - done.
Qed.

(** C9. In every state of the authentication context at most one of
    [isAdmin], [isTeacher], [isStudent] holds; exactly one holds when the
    user's role is 'admin', 'teacher' or 'student'; none holds when the
    user is [null]; and [isAuthenticated] holds exactly when the user is
    not [null]. *)
Theorem auth_role_flags_exclusive (st : AuthState) :
  let v := value st in
  let flags := (Nat.b2n (isAdmin v) + Nat.b2n (isTeacher v) + Nat.b2n (isStudent v))%nat in
  (flags ≤ 1)%nat
  ∧ (∀ u, user st = Some u →
          role u = "admin" ∨ role u = "teacher" ∨ role u = "student" →
          flags = 1%nat)
  ∧ (user st = None →
     isAdmin v = false ∧ isTeacher v = false ∧ isStudent v = false)
  ∧ (isAuthenticated v = true ↔ user st ≠ None).
Proof.
  intros v flags. subst v flags. simpl.
  split; [|split; [|split]].
  - destruct (user st) as [u|]; simpl; [|lia].
    destruct (String.eqb_spec (role u) "admin") as [E|];
      destruct (String.eqb_spec (role u) "teacher") as [E'|];
      destruct (String.eqb_spec (role u) "student") as [E''|];
      simpl; try lia; congruence.
  - intros u -> Hr. simpl.
    destruct Hr as [-> | [-> | ->]]; reflexivity.
  - by intros ->.
  - apply (isAuthenticated_spec st).
Qed.

(** C10. Once [loading] is false, a protected route redirects an
    unauthenticated visitor to /login; redirects to /dashboard a user whose
    role differs from a (non-empty) [requiredRole]; and renders its children
    only for an authenticated user who meets the role requirement. *)
Theorem protected_route_guard {A} (st : AuthState) (requiredRole : option string)
    (children : A) :
  loading st = false →
  let v := ProtectedRoute (value st) requiredRole children in
  (user st = None → v = Navigate "/login")
  ∧ (∀ u r, user st = Some u → requiredRole = Some r → r ≠ "" → role u ≠ r →
            v = Navigate "/dashboard")
  ∧ (∀ c, v = Children c →
          c = children
          ∧ ∃ u, user st = Some u
                 ∧ ∀ r, requiredRole = Some r → r ≠ "" → role u = r).
Proof.
  intros Hl v. subst v. unfold ProtectedRoute. simpl. rewrite Hl.
  destruct (user st) as [u|] eqn:Hu; simpl.
  - split; [discriminate|]. split.
    + intros u' r [= <-] -> Hr Hne.
      simpl. apply String.eqb_neq in Hr, Hne. by rewrite Hr, Hne.
    + intros c. destruct (role_mismatch (Some u) requiredRole) eqn:Hm; [discriminate|].
      intros [= <-]. split; [done|]. exists u. split; [done|].
      intros r -> Hr. simpl in Hm. apply String.eqb_neq in Hr. rewrite Hr in Hm.
      simpl in Hm. apply negb_false_iff in Hm. by apply String.eqb_eq.
  - split; [done|]. split; [discriminate|]. discriminate.
Qed.

(** The [/admin/users] route at a signed-in student. *)
Lemma protected_route_guard_witness :
  loading Samples.signed_in_student = false
  ∧ App.admin_users_route Samples.signed_in_student "AdminUsersPage"
    = Navigate "/dashboard".
Proof.
  split; [reflexivity|].
  refine (proj1 (proj2 (protected_route_guard Samples.signed_in_student
                          (Some "admin") "AdminUsersPage" _))
            Samples.student "admin" _ _ _ _); try reflexivity; discriminate.
Defined.

End AuthFacts.

(** ** Teacher analytics *)

Section TeacherFacts.
Import Auth Route TeacherAnalytics.

(** C7. For a user whose role is neither teacher nor admin the teacher
    analytics component returns the Access Denied view, whatever it has
    loaded, and so does the [/analytics] route once authentication has
    settled; the view that shows the dashboard and the at-risk students is
    returned only for a teacher or an administrator. *)
Theorem teacher_analytics_access (auth : AuthState) (st : State) :
  (∀ u, Auth.user auth = Some u → role u ≠ "teacher" → role u ≠ "admin" →
        render (value auth) st = AccessDenied
        ∧ (Auth.loading auth = false → App.analytics_route auth st = Children AccessDenied))
  ∧ (∀ d a, render (value auth) st = Board d a →
            ∃ u, Auth.user auth = Some u ∧ (role u = "teacher" ∨ role u = "admin")).
Proof.
  split.
  - intros u Hu Ht Ha.
    assert (Hr : render (value auth) st = AccessDenied).
    { unfold render. simpl. rewrite Hu.
      apply role_is_false in Ht, Ha. by rewrite Ht, Ha. }
    split; [done|]. intros Hl.
    unfold App.analytics_route. rewrite Hr.
    unfold ProtectedRoute. simpl. by rewrite Hl, Hu.
  - intros d a. unfold render. simpl.
    destruct (role_is (Auth.user auth) "teacher") eqn:Ht.
    + intros _. apply role_is_true in Ht as (x & ? & ?). eauto.
    + destruct (role_is (Auth.user auth) "admin") eqn:Ha; [|discriminate].
      intros _. apply role_is_true in Ha as (x & ? & ?). eauto.
Qed.

End TeacherFacts.

(** ** The service object and its callers *)

Section ServiceFacts.
Import Api.

Lemma pmsasService_has_no_useStreakFreeze :
  pmsasService !! "useStreakFreeze" = None.
Proof. vm_compute. reflexivity. Qed.

Lemma pmsasService_getLeaderboard :
  pmsasService !! "getLeaderboard" = Some getLeaderboard.
Proof. vm_compute. reflexivity. Qed.

Lemma call_getLeaderboard_sent {D} (api : Request → Reply D) (args : list JsVal) :
  sent (call api "getLeaderboard" args) = [getLeaderboard args].
Proof.
  unfold call. rewrite pmsasService_getLeaderboard.
  by destruct (api (getLeaderboard args)).
Qed.

Lemma handleUseFreeze_confirmed (api : Request → Reply StreakCard.Data)
    (st : StreakCard.State) :
  StreakCard.handleUseFreeze api true st
  = ({| StreakCard.streak := StreakCard.streak st;
        StreakCard.loading := StreakCard.loading st;
        StreakCard.freezing := false;
        StreakCard.message := JStr "Failed to apply freeze" |}, []).
Proof.
  unfold StreakCard.handleUseFreeze, call.
  rewrite pmsasService_has_no_useStreakFreeze. reflexivity.
Qed.

(** C1. What the streak card's "Use Streak Freeze" handler does once the
    user has confirmed: the service object has no [useStreakFreeze], so for
    every server and every card state no request is sent, the streak shown
    (its [freeze_available] and [streak_at_risk] included) stays as it was,
    and the message is the fallback "Failed to apply freeze", also when a
    freeze is available. *)
Theorem handleUseFreeze_never_sends (api : Request → Reply StreakCard.Data)
    (st : StreakCard.State) :
  let after := StreakCard.handleUseFreeze api true st in
  after.2 = []
  ∧ StreakCard.streak after.1 = StreakCard.streak st
  ∧ StreakCard.message after.1 = JStr "Failed to apply freeze".
Proof. intros after. subst after. by rewrite handleUseFreeze_confirmed. Qed.

(** The handler at a card that offers the button. *)
Example handleUseFreeze_one_freeze_left (api : Request → Reply StreakCard.Data) :
  StreakCard.freeze_offered Samples.card = true
  ∧ StreakCard.streak (StreakCard.handleUseFreeze api true Samples.card).1
    = Some Samples.card_streak
  ∧ (StreakCard.handleUseFreeze api true Samples.card).2 = [].
Proof. by rewrite handleUseFreeze_confirmed. Qed.

Lemma period_value_inj (p q : Leaderboard.Period) :
  Leaderboard.period_value p = Leaderboard.period_value q → p = q.
Proof. by destruct p, q. Qed.

(** C2. The request that the Leaderboard component issues once the user
    has selected a period: its [type] parameter is the whole options object
    that the component passed as first argument, not the period; its
    [limit] is the service's default 10. *)
Theorem fetchLeaderboard_request (api : Request → Reply Leaderboard.Data)
    (courseId : option string) (st : Leaderboard.State) (p : Leaderboard.Period) :
  ∃ rq, (Leaderboard.fetchLeaderboard api courseId (Leaderboard.setPeriod p st)).2 = [rq]
        ∧ url rq = "/pmsas/leaderboard"
        ∧ assoc "type" (params rq)
          = JObj [ ("period", JStr (Leaderboard.period_value p));
                   ("limit", JNum 10);
                   ("course_id", Leaderboard.course_arg courseId) ]
        ∧ assoc "type" (params rq) ≠ JStr (Leaderboard.period_value p)
        ∧ assoc "limit" (params rq) = JNum 10.
Proof.
  exists (getLeaderboard (Leaderboard.fetch_args p courseId)).
  split.
  - unfold Leaderboard.fetchLeaderboard. simpl.
    pose proof (call_getLeaderboard_sent api (Leaderboard.fetch_args p courseId)) as Hs.
    destruct (outcome _); exact Hs.
  - repeat split; discriminate.
Qed.

(** Two different periods do give two different requests: the period sits
    inside the object. *)
Lemma fetch_args_distinct (p q : Leaderboard.Period) (courseId : option string) :
  p ≠ q →
  getLeaderboard (Leaderboard.fetch_args p courseId)
  ≠ getLeaderboard (Leaderboard.fetch_args q courseId).
Proof.
  intros Hne E. apply Hne, period_value_inj.
  apply (f_equal (λ rq, assoc "type" (params rq))) in E. simpl in E.
  by injection E.
Qed.

(** The sibling call in the progress dashboard passes the two arguments
    positionally, and its [type] parameter is the string. *)
Example loadData_leaderboard_request :
  params (getLeaderboard ProgressDashboard.loadData_leaderboard_args)
  = [("type", JStr "streak"); ("limit", JNum 10)].
Proof. reflexivity. Qed.

(** The two badge methods that [BadgesDisplay] calls are not on the service
    object either: its fetch sends nothing and leaves the lists empty. *)
Lemma fetchBadges_never_sends (api : Request → Reply BadgesDisplay.Data)
    (showAll : bool) (st : BadgesDisplay.State) :
  BadgesDisplay.fetchBadges api showAll st = (BadgesDisplay.settle st, []).
Proof.
  unfold BadgesDisplay.fetchBadges, call.
  assert (pmsasService !! "getBadges" = None) as -> by (vm_compute; reflexivity).
  reflexivity.
Qed.

(** A card of the "all badges" tab is marked earned exactly when some
    earned badge has its type; the set forgets how many do. *)
Lemma earnedBadgeTypes_spec (st : BadgesDisplay.State) (t : string) :
  t ∈ BadgesDisplay.earnedBadgeTypes st
  ↔ ∃ b, b ∈ BadgesDisplay.earnedBadges st ∧ BadgesDisplay.badge_type b = t.
Proof.
  unfold BadgesDisplay.earnedBadgeTypes.
  rewrite elem_of_list_to_set, list_elem_of_fmap.
  split; [intros (b & -> & Hb) | intros (b & Hb & <-)]; by exists b.
Qed.

End ServiceFacts.

(** ** Progress dashboard: the overview *)

Section OverviewFacts.
Import Dom ProgressDashboard.

Variable toLocaleDateString : string → string.
Variable insights_section : Analytics → Node.

Lemma over_half_spec (r : Q) : over_half r = true ↔ (1 # 2 < r)%Q.
Proof.
  unfold over_half. rewrite negb_true_iff, <- not_true_iff_false, Qle_bool_iff.
  split; [apply Qnot_le_lt | apply Qlt_not_le].
Qed.

Lemma calendar_day_active (r : Q) (i : nat) :
  cls_of (calendar_day r i) = "calendar-day active" ↔ (1 # 2 < r)%Q.
Proof.
  rewrite <- over_half_spec. unfold calendar_day. simpl.
  destruct (over_half r); split; try done; discriminate.
Qed.

Lemma activity_calendar_cell (rand : nat → Q) (i : nat) :
  (i < 30)%nat →
  kids_of (activity_calendar rand) !! i = Some (calendar_day (rand i) i).
Proof.
  intros Hi. unfold activity_calendar. cbv beta iota delta [kids_of].
  rewrite list_lookup_fmap, lookup_seq_lt by done. reflexivity.
Qed.

Lemma activity_calendar_ext (rand1 rand2 : nat → Q) :
  (∀ i, (i < 30)%nat → over_half (rand1 i) = over_half (rand2 i)) →
  activity_calendar rand1 = activity_calendar rand2.
Proof.
  intros H. unfold activity_calendar. f_equal.
  apply list_fmap_ext. intros k i Hk.
  apply lookup_seq in Hk as [-> Hlt]. unfold calendar_day. by rewrite H.
Qed.

(** C6 (amended). Two renders of the progress dashboard over the same
    loaded state are identical whenever the values that [Math.random]
    returned to them fall on the same side of 0.5, cell by cell; and each of
    the 30 calendar cells is marked active exactly when the value drawn for
    it exceeds 0.5, which does not involve the loaded data at all. *)
Theorem overview_determined_by_draws (rand1 rand2 : nat → Q)
    (user : option Auth.User) (st : State) :
  (∀ i, (i < 30)%nat → over_half (rand1 i) = over_half (rand2 i)) →
  render toLocaleDateString insights_section rand1 user st
  = render toLocaleDateString insights_section rand2 user st
  ∧ ∀ i, (i < 30)%nat →
         kids_of (activity_calendar rand1) !! i = Some (calendar_day (rand1 i) i)
         ∧ (cls_of (calendar_day (rand1 i) i) = "calendar-day active"
            ↔ (1 # 2 < rand1 i)%Q).
Proof.
  intros H. split.
  - unfold render, tab_content, overview_grid, chart_card.
    by rewrite (activity_calendar_ext rand1 rand2 H).
  - intros i Hi. split.
    + by apply activity_calendar_cell.
    + apply calendar_day_active.
Qed.

End OverviewFacts.

Lemma overview_determined_by_draws_witness :
  (∀ i, (i < 30)%nat →
        ProgressDashboard.over_half (Samples.draws_high i)
        = ProgressDashboard.over_half (Samples.draws_rising i))
  ∧ ProgressDashboard.render id Samples.no_insights Samples.draws_high None
      Samples.bare_dashboard
    = ProgressDashboard.render id Samples.no_insights Samples.draws_rising None
        Samples.bare_dashboard.
Proof.
  assert (H : ∀ i, (i < 30)%nat →
                   ProgressDashboard.over_half (Samples.draws_high i)
                   = ProgressDashboard.over_half (Samples.draws_rising i)).
  { intros i _. symmetry. change (ProgressDashboard.over_half (Samples.draws_high i)) with true.
    apply over_half_spec.
    unfold Samples.draws_rising, Qlt. simpl. lia. }
  split; [exact H|].
  exact (proj1 (overview_determined_by_draws id Samples.no_insights
                  Samples.draws_high Samples.draws_rising
                  None Samples.bare_dashboard H)).
Defined.

(** C6, as stated, fails: the same loaded state rendered under two runs of
    the random generator gives two different overviews. *)
Lemma overview_not_deterministic :
  ProgressDashboard.render id Samples.no_insights Samples.draws_low None
    Samples.bare_dashboard
  ≠ ProgressDashboard.render id Samples.no_insights Samples.draws_high None
      Samples.bare_dashboard.
Proof.
  intros H.
  vm_compute in H. discriminate H.
Qed.

(** ** The "your position" rows *)

Section PositionFacts.
Import Dom.

Lemma append_empty (s : string) : s +:+ "" = s.
Proof.
  induction s as [|a s IH]; [done|].
  change (String a (s +:+ "") = String a s). by rewrite IH.
Qed.









End PositionFacts.

(** ** The engine: streaks *)

Section StreakFacts.
Import Engine.

Variable date : Z → Z.
Variable activity_points : ActivityType → Z.
Variable catalog : list BadgeDefinition.

Lemma record_day_outcome (d : Z) (st : StreakState) :
  record_day d st = st ∨ last_active_date (record_day d st) = Some d.
Proof.
  unfold record_day. destruct (last_active_date st) as [last|]; [|by right].
  repeat case_match; auto.
Qed.

Lemma record_day_idem (d : Z) (st : StreakState) :
  record_day d (record_day d st) = record_day d st.
Proof.
  destruct (record_day_outcome d st) as [E|E].
  - by rewrite !E.
  - generalize dependent (record_day d st). intros r E.
    unfold record_day. by rewrite E, Z.eqb_refl.
Qed.

Lemma streak_of_set (u v : string) (st : StreakState) (s : Store) :
  streak_of (set_streak u st s) v = if decide (u = v) then st else streak_of s v.
Proof.
  unfold streak_of, set_streak. simpl. rewrite lookup_insert.
  by destruct (decide (u = v)).
Qed.

Lemma streak_of_ext (s s' : Store) (u : string) :
  streaks s = streaks s' → streak_of s u = streak_of s' u.
Proof. unfold streak_of. by intros ->. Qed.

Lemma set_streak_twice (u : string) (st st' : StreakState) (s : Store) :
  set_streak u st' (set_streak u st s) = set_streak u st' s.
Proof. unfold set_streak. simpl. by rewrite insert_insert_eq. Qed.

Lemma recordActivity_same_day (s : Store) (u : string) (t1 t2 : Z) :
  date t1 = date t2 →
  recordActivity date u t2 (recordActivity date u t1 s) = recordActivity date u t1 s.
Proof.
  intros E. unfold recordActivity. rewrite streak_of_set.
  destruct (decide (u = u)); [|done].
  by rewrite set_streak_twice, <- E, record_day_idem.
Qed.

(** C3. A second [recordActivity] for the same user with a timestamp on the
    same calendar day leaves [current_streak] and [total_active_days] (and
    indeed the whole store) as the first call left them. *)
Theorem recordActivity_idempotent_per_day (s : Store) (u : string) (t1 t2 : Z) :
  date t1 = date t2 →
  let once := recordActivity date u t1 s in
  let twice := recordActivity date u t2 once in
  current_streak (streak_of twice u) = current_streak (streak_of once u)
  ∧ total_active_days (streak_of twice u) = total_active_days (streak_of once u)
  ∧ twice = once.
Proof.
  intros E once twice. subst once twice.
  by rewrite (recordActivity_same_day s u t1 t2 E).
Qed.

(** *** [longest_streak] *)

Lemma count_day_longest (st : StreakState) (d c spent : Z) :
  longest_streak st ≤ longest_streak (count_day st d c spent)
  ∧ current_streak (count_day st d c spent) ≤ longest_streak (count_day st d c spent).
Proof. simpl. lia. Qed.

Lemma record_day_longest (d : Z) (st : StreakState) :
  longest_streak st ≤ longest_streak (record_day d st)
  ∧ (current_streak st ≤ longest_streak st →
     current_streak (record_day d st) ≤ longest_streak (record_day d st)).
Proof.
  unfold record_day.
  repeat case_match; try (split; [lia | done]);
    split; try apply count_day_longest; intros _; apply count_day_longest.
Qed.

Lemma use_freeze_longest (today : Z) (st st' : StreakState) :
  use_freeze today st = inr st' →
  longest_streak st' = longest_streak st ∧ current_streak st' = current_streak st.
Proof.
  unfold use_freeze. repeat case_match; try discriminate; by intros [= <-].
Qed.

Lemma awardPoints_streaks (u : string) (a : Z) (s s' : Store) :
  awardPoints u a s = inr s' → streaks s' = streaks s.
Proof. unfold awardPoints. case_match; [discriminate|]. by intros [= <-]. Qed.

Lemma try_award_streaks (u : string) (now : Z) (b : BadgeDefinition) (s : Store) :
  streaks (try_award u now b s) = streaks s.
Proof.
  unfold try_award. case_match; [done|].
  destruct (awardPoints _ _ _) as [e|s'] eqn:E; [done|].
  by apply awardPoints_streaks in E.
Qed.

Lemma award_loop_streaks (u : string) (now : Z) (snapshot : Aggregates)
    (l : list BadgeDefinition) (s : Store) :
  streaks (foldl (λ acc b,
                    if negb (has_badge acc u (badge_type b)) && criteria b snapshot
                    then try_award u now b acc else acc) s l)
  = streaks s.
Proof.
  revert s. induction l as [|b l IH]; intros s; simpl; [done|].
  rewrite IH. case_match; [apply try_award_streaks | done].
Qed.

Lemma evaluateBadges_streaks (u : string) (now : Z) (s : Store) :
  streaks (evaluateBadges catalog u now s) = streaks s.
Proof. apply award_loop_streaks. Qed.

(** One operation either leaves a user's streak state alone, or counts a
    day on it, or spends a freeze on it. *)
Lemma step_streak (op : Op) (s : Store) (u : string) :
  let st := streak_of s u in
  let st' := streak_of (step date activity_points catalog op s) u in
  st' = st
  ∨ (∃ d, st' = record_day d st)
  ∨ (∃ today, use_freeze today st = inr st').
Proof.
  intros st st'. subst st st'. unfold step.
  destruct (exec date activity_points catalog op s) as [e|s'] eqn:Hx; [by left|].
  destruct op as [v t|v now|v a|v now|v ty dur now|v bt now]; simpl in Hx.
  - injection Hx as <-. unfold recordActivity. rewrite streak_of_set.
    destruct (decide (v = u)) as [->|Hne]; [|by left].
    right. left. by eexists.
  - unfold useStreakFreeze in Hx.
    destruct (use_freeze (date now) (streak_of s v)) as [e|x] eqn:E; [discriminate|].
    injection Hx as <-. rewrite streak_of_set.
    destruct (decide (v = u)) as [->|Hne]; [|by left].
    right. right. by eexists.
  - left. apply streak_of_ext. by apply awardPoints_streaks in Hx.
  - injection Hx as <-. left. apply streak_of_ext, evaluateBadges_streaks.
  - destruct (dur <? 0); [discriminate|].
    destruct (awardPoints _ _ _) as [e|x] eqn:E; [discriminate|].
    injection Hx as <-. apply awardPoints_streaks in E.
    rewrite (streak_of_ext _ _ u (evaluateBadges_streaks v now x)).
    rewrite (streak_of_ext _ _ u E).
    unfold recordActivity. rewrite streak_of_set.
    destruct (decide (v = u)) as [->|Hne]; [|by left].
    right. left. by eexists.
  - destruct (List.find _ _) as [b|]; [|discriminate].
    injection Hx as <-. left. apply streak_of_ext, try_award_streaks.
Qed.

Lemma step_longest (op : Op) (s : Store) (u : string) :
  let s' := step date activity_points catalog op s in
  longest_streak (streak_of s u) ≤ longest_streak (streak_of s' u)
  ∧ (current_streak (streak_of s u) ≤ longest_streak (streak_of s u) →
     current_streak (streak_of s' u) ≤ longest_streak (streak_of s' u)).
Proof.
  intros s'. subst s'.
  destruct (step_streak op s u) as [E | [[d E] | [today E]]].
  - rewrite E. split; [lia | done].
  - rewrite E. apply record_day_longest.
  - apply use_freeze_longest in E as [-> ->]. split; [lia | done].
Qed.

Lemma run_longest (ops : list Op) (s : Store) (u : string) :
  let s' := run date activity_points catalog ops s in
  longest_streak (streak_of s u) ≤ longest_streak (streak_of s' u)
  ∧ (current_streak (streak_of s u) ≤ longest_streak (streak_of s u) →
     current_streak (streak_of s' u) ≤ longest_streak (streak_of s' u)).
Proof.
  simpl. revert s. induction ops as [|op ops IH]; intros s; simpl.
  - split; [lia | done].
  - destruct (IH (step date activity_points catalog op s)) as [H1 H2].
    destruct (step_longest op s u) as [H3 H4].
    unfold run in *. split; [lia | auto].
Qed.

(** C4. From a store in which no user's current streak exceeds the
    longest, along any sequence of operations (activity recordings, freeze
    uses, point awards, badge evaluations) a user's [longest_streak] never
    decreases from one point of the run to a later one, and at every point
    it equals the maximum of itself and [current_streak]. *)
Theorem longest_streak_never_decreases (s : Store) (ops1 ops2 : list Op) (u : string) :
  (∀ v, current_streak (streak_of s v) ≤ longest_streak (streak_of s v)) →
  let earlier := run date activity_points catalog ops1 s in
  let later := run date activity_points catalog (ops1 ++ ops2) s in
  longest_streak (streak_of earlier u) ≤ longest_streak (streak_of later u)
  ∧ longest_streak (streak_of later u)
    = Z.max (longest_streak (streak_of later u)) (current_streak (streak_of later u)).
Proof.
  intros Hwf earlier later. subst earlier later.
  unfold run. rewrite foldl_app. fold (run date activity_points catalog ops1 s).
  fold (run date activity_points catalog ops2 (run date activity_points catalog ops1 s)).
  destruct (run_longest ops1 s u) as [_ H1].
  destruct (run_longest ops2 (run date activity_points catalog ops1 s) u) as [H2 H3].
  split; [exact H2|].
  specialize (H3 (H1 (Hwf u))). lia.
Qed.

End StreakFacts.

Lemma recordActivity_idempotent_per_day_witness :
  Samples.utc_day 100 = Samples.utc_day 86399
  ∧ Engine.current_streak
      (Engine.streak_of
         (Engine.recordActivity Samples.utc_day "u1" 86399
            (Engine.recordActivity Samples.utc_day "u1" 100 Engine.empty_store)) "u1")
    = Engine.current_streak
        (Engine.streak_of
           (Engine.recordActivity Samples.utc_day "u1" 100 Engine.empty_store) "u1").
Proof.
  split; [reflexivity|].
  exact (proj1 (recordActivity_idempotent_per_day Samples.utc_day
                  Engine.empty_store "u1" 100 86399 eq_refl)).
Defined.

Lemma longest_streak_never_decreases_witness :
  (∀ v, Engine.current_streak (Engine.streak_of Engine.empty_store v)
        ≤ Engine.longest_streak (Engine.streak_of Engine.empty_store v))
  ∧ Engine.longest_streak
      (Engine.streak_of
         (Engine.run Samples.utc_day Samples.scoring Samples.badges
            (take 2 Samples.three_days) Engine.empty_store) "u1")
    ≤ Engine.longest_streak
        (Engine.streak_of
           (Engine.run Samples.utc_day Samples.scoring Samples.badges
              (take 2 Samples.three_days ++ drop 2 Samples.three_days)
              Engine.empty_store) "u1").
Proof.
  assert (H : ∀ v, Engine.current_streak (Engine.streak_of Engine.empty_store v)
                   ≤ Engine.longest_streak (Engine.streak_of Engine.empty_store v)).
  { intros v. unfold Engine.streak_of. simpl. rewrite lookup_empty. simpl. lia. }
  split; [exact H|].
  exact (proj1 (longest_streak_never_decreases Samples.utc_day Samples.scoring
                  Samples.badges Engine.empty_store (take 2 Samples.three_days)
                  (drop 2 Samples.three_days) "u1" H)).
Defined.

(** ** The engine: badges and points *)

Section BadgeFacts.
Import Engine.

Variable date : Z → Z.
Variable activity_points : ActivityType → Z.
Variable catalog : list BadgeDefinition.
Hypothesis catalog_keys : NoDup (badge_type <$> catalog).

Lemma no_match_no_rows (f : EarnedBadge → bool) (l : list EarnedBadge) :
  existsb f l = false → List.filter f l = [].
Proof.
  induction l as [|r l IH]; simpl; [done|].
  destruct (f r); simpl; [discriminate | exact IH].
Qed.

Lemma has_badge_insert_row (u0 t0 : string) (now : Z) (s : Store) (u bt : string) :
  has_badge (insert_row u0 t0 now s) u bt
  = has_badge s u bt || (String.eqb u0 u && String.eqb t0 bt).
Proof.
  unfold has_badge, insert_row. simpl. rewrite existsb_app. simpl.
  by rewrite orb_false_r.
Qed.

Lemma rows_insert_row (u0 t0 : string) (now : Z) (s : Store) (u bt : string) :
  has_badge s u0 t0 = false →
  (length (rows s u bt) ≤ 1)%nat →
  (length (rows (insert_row u0 t0 now s) u bt) ≤ 1)%nat.
Proof.
  intros Hno Hle. unfold rows, insert_row in *. simpl. rewrite List.filter_app, length_app.
  simpl. unfold is_row at 2. simpl.
  destruct (String.eqb_spec u0 u) as [<-|]; simpl; [|lia].
  destruct (String.eqb_spec t0 bt) as [<-|]; simpl; [|lia].
  unfold has_badge in Hno. by rewrite (no_match_no_rows _ _ Hno).
Qed.

(** The badge total of [u0] after a first row for [t0]: every catalog
    entry of that type now counts. *)
Lemma badge_sum_insert_same (u0 t0 : string) (now : Z) (s : Store)
    (l : list BadgeDefinition) :
  has_badge s u0 t0 = false →
  badge_points l (insert_row u0 t0 now s) u0
  = badge_points l s u0
    + foldr (λ b acc, (if String.eqb t0 (badge_type b) then points_value b else 0) + acc)
            0 l.
Proof.
  intros Hno. unfold badge_points. induction l as [|b l IH]; simpl; [done|].
  rewrite IH, has_badge_insert_row, String.eqb_refl. simpl.
  destruct (String.eqb_spec t0 (badge_type b)) as [<-|].
  - rewrite Hno. simpl. lia.
  - rewrite orb_false_r. lia.
Qed.

Lemma badge_sum_insert_other (u0 t0 : string) (now : Z) (s : Store)
    (l : list BadgeDefinition) (u : string) :
  u0 ≠ u →
  badge_points l (insert_row u0 t0 now s) u = badge_points l s u.
Proof.
  intros Hne. unfold badge_points. induction l as [|b l IH]; simpl; [done|].
  rewrite IH, has_badge_insert_row.
  apply String.eqb_neq in Hne. rewrite Hne. simpl. by rewrite orb_false_r.
Qed.

Lemma keyed_sum_absent (t0 : string) (l : list BadgeDefinition) :
  t0 ∉ badge_type <$> l →
  foldr (λ b acc, (if String.eqb t0 (badge_type b) then points_value b else 0) + acc)
        0 l = 0.
Proof.
  induction l as [|b l IH]; simpl; [done|].
  rewrite not_elem_of_cons. intros [Hne Hl]. rewrite (IH Hl).
  apply String.eqb_neq in Hne. by rewrite Hne.
Qed.

Lemma keyed_sum_unique (b0 : BadgeDefinition) (l : list BadgeDefinition) :
  NoDup (badge_type <$> l) → b0 ∈ l →
  foldr (λ b acc, (if String.eqb (badge_type b0) (badge_type b)
                   then points_value b else 0) + acc) 0 l
  = points_value b0.
Proof.
  induction l as [|b l IH]; simpl; intros Hnd Hin.
  - by apply elem_of_nil in Hin.
  - apply NoDup_cons in Hnd as [Hb Hnd]. apply elem_of_cons in Hin as [->|Hin].
    + rewrite String.eqb_refl, (keyed_sum_absent _ _ Hb). lia.
    + rewrite (IH Hnd Hin).
      destruct (String.eqb_spec (badge_type b0) (badge_type b)) as [E|]; [|lia].
      exfalso. apply Hb. rewrite <- E. by apply list_elem_of_fmap_2.
Qed.

Lemma badge_points_ext (s s' : Store) (u : string) (l : list BadgeDefinition) :
  earned s = earned s' → badge_points l s u = badge_points l s' u.
Proof. intros E. unfold badge_points, has_badge. by rewrite E. Qed.

Lemma rows_ext (s s' : Store) (u bt : string) :
  earned s = earned s' → rows s u bt = rows s' u bt.
Proof. intros E. unfold rows. by rewrite E. Qed.

Lemma awardPoints_effect (u : string) (a : Z) (s s' : Store) :
  awardPoints u a s = inr s' →
  0 ≤ a ∧ earned s' = earned s
  ∧ ∀ v, total_points s' v = total_points s v + (if String.eqb u v then a else 0).
Proof.
  unfold awardPoints. destruct (Z.ltb_spec a 0); [discriminate|].
  intros [= <-]. split; [done|]. split; [done|]. intros v.
  unfold total_points at 1. simpl. rewrite lookup_insert.
  destruct (decide (u = v)) as [->|Hne].
  - by rewrite String.eqb_refl.
  - apply String.eqb_neq in Hne. rewrite Hne. unfold total_points. lia.
Qed.

Lemma awardPoints_fails (u : string) (a : Z) (s : Store) (e : Error) :
  awardPoints u a s = inl e → a < 0.
Proof. unfold awardPoints. by destruct (Z.ltb_spec a 0). Qed.

(** Awarding a catalog badge keeps the rows unique and moves the points and
    the badge total together. *)
Lemma try_award_sound (u0 : string) (now : Z) (b : BadgeDefinition) (s : Store) :
  b ∈ catalog → unique_rows s →
  unique_rows (try_award u0 now b s)
  ∧ ∀ v, base_points catalog (try_award u0 now b s) v = base_points catalog s v.
Proof.
  intros Hb Hu. unfold try_award.
  destruct (has_badge s u0 (badge_type b)) eqn:Hno; [done|].
  destruct (awardPoints _ _ _) as [e|s'] eqn:E; [done|].
  apply awardPoints_effect in E as (Hpos & Hearned & Hpts). split.
  - intros u bt. rewrite (rows_ext _ _ u bt Hearned).
    by apply rows_insert_row.
  - intros v. unfold base_points.
    rewrite Hpts, (badge_points_ext _ _ v catalog Hearned).
    destruct (String.eqb_spec u0 v) as [<-|Hne].
    + rewrite (badge_sum_insert_same _ _ _ _ _ Hno).
      rewrite (keyed_sum_unique b catalog catalog_keys Hb).
      unfold total_points, insert_row. simpl. lia.
    + rewrite (badge_sum_insert_other _ _ _ _ _ _ Hne).
      unfold total_points, insert_row. simpl. lia.
Qed.

Lemma award_loop_sound (u : string) (now : Z) (snapshot : Aggregates)
    (l : list BadgeDefinition) (s : Store) :
  (∀ b, b ∈ l → b ∈ catalog) → unique_rows s →
  let s' := foldl (λ acc b,
                     if negb (has_badge acc u (badge_type b)) && criteria b snapshot
                     then try_award u now b acc else acc) s l in
  unique_rows s' ∧ ∀ v, base_points catalog s' v = base_points catalog s v.
Proof.
  revert s. induction l as [|b l IH]; intros s Hl Hu; simpl; [done|].
  assert (Hb : b ∈ catalog) by (apply Hl; left).
  assert (Hl' : ∀ b', b' ∈ l → b' ∈ catalog) by (intros; apply Hl; by right).
  destruct (try_award_sound u now b s Hb Hu) as [Hu1 Hb1].
  case_match.
  - destruct (IH _ Hl' Hu1) as [Hu2 Hb2]. split; [done|].
    intros v. by rewrite Hb2, Hb1.
  - by apply IH.
Qed.

Lemma evaluateBadges_sound (u : string) (now : Z) (s : Store) :
  unique_rows s →
  unique_rows (evaluateBadges catalog u now s)
  ∧ ∀ v, base_points catalog (evaluateBadges catalog u now s) v = base_points catalog s v.
Proof. intros Hu. by apply award_loop_sound. Qed.

Lemma base_points_ext (s s' : Store) (v : string) :
  earned s = earned s' → ledger s = ledger s' →
  base_points catalog s v = base_points catalog s' v.
Proof.
  intros E L. unfold base_points, total_points.
  by rewrite L, (badge_points_ext _ _ v catalog E).
Qed.

Lemma unique_rows_ext (s s' : Store) :
  earned s = earned s' → unique_rows s → unique_rows s'.
Proof. intros E Hu u bt. rewrite <- (rows_ext _ _ u bt E). apply Hu. Qed.

Lemma base_points_awardPoints (u : string) (a : Z) (s s' : Store) (v : string) :
  awardPoints u a s = inr s' →
  base_points catalog s' v
  = base_points catalog s v + (if String.eqb u v && (0 <=? a) then a else 0).
Proof.
  intros E. apply awardPoints_effect in E as (Hpos & Hearned & Hpts).
  unfold base_points. rewrite Hpts, (badge_points_ext _ _ v catalog Hearned).
  destruct (Z.leb_spec 0 a); [|lia]. rewrite andb_true_r.
  destruct (String.eqb u v); lia.
Qed.

(** One operation keeps the rows unique; the points a user holds apart from
    badges move by the operation's direct gain and by nothing else. *)
Lemma step_sound (op : Op) (s : Store) :
  unique_rows s →
  let s' := step date activity_points catalog op s in
  unique_rows s'
  ∧ ∀ v, base_points catalog s' v = base_points catalog s v + direct_gain activity_points v op.
Proof.
  intros Hu s'. subst s'. unfold step.
  destruct op as [u t|u now|u a|u now|u ty dur now|u bt now]; simpl.
  - split; [exact Hu|]. intros v.
    rewrite (base_points_ext (recordActivity date u t s) s v eq_refl eq_refl). lia.
  - unfold useStreakFreeze. destruct (use_freeze _ _) as [e|st]; simpl.
    + split; [done|]. intros v. lia.
    + split; [exact Hu|]. intros v.
      rewrite (base_points_ext (set_streak u st s) s v eq_refl eq_refl). lia.
  - destruct (awardPoints u a s) as [e|s'] eqn:E.
    + apply awardPoints_fails in E. split; [done|]. intros v.
      destruct (Z.leb_spec 0 a); [lia|]. rewrite andb_false_r. lia.
    + split.
      * apply awardPoints_effect in E as (_ & Hearned & _).
        by apply (unique_rows_ext s).
      * intros v. by apply base_points_awardPoints.
  - destruct (evaluateBadges_sound u now s Hu) as [H1 H2]. split; [done|].
    intros v. rewrite H2. lia.
  - destruct (Z.ltb_spec dur 0) as [Hd|Hd].
    + split; [done|]. intros v.
      destruct (Z.leb_spec 0 dur); [lia|]. rewrite andb_false_r. simpl. lia.
    + destruct (awardPoints _ _ _) as [e|s1] eqn:E.
      * apply awardPoints_fails in E. split; [done|]. intros v.
        destruct (Z.leb_spec 0 (activity_points ty)); [lia|].
        rewrite andb_false_r. lia.
      * pose proof (λ v, base_points_awardPoints _ _ _ _ v E) as Hbase.
        apply awardPoints_effect in E as (Hpos & Hearned & _).
        assert (Hu1 : unique_rows s1) by (by apply (unique_rows_ext s)).
        destruct (evaluateBadges_sound u now s1 Hu1) as [H1 H2]. split; [done|].
        intros v. rewrite H2, Hbase.
        destruct (Z.leb_spec 0 dur); [|lia]. rewrite andb_true_r.
        reflexivity.
  - destruct (List.find _ _) as [b|] eqn:Hf.
    + apply find_some in Hf as [Hin _]. apply list_elem_of_In in Hin.
      destruct (try_award_sound u now b s Hin Hu) as [H1 H2]. split; [done|].
      intros v. rewrite H2. lia.
    + split; [done|]. intros v. lia.
Qed.

Lemma run_sound (ops : list Op) (s : Store) :
  unique_rows s →
  let s' := run date activity_points catalog ops s in
  unique_rows s'
  ∧ ∀ v, base_points catalog s' v
         = base_points catalog s v + direct_total activity_points v ops.
Proof.
  simpl. revert s. induction ops as [|op ops IH]; intros s Hu; simpl.
  - split; [done|]. intros v. lia.
  - destruct (step_sound op s Hu) as [H1 H2].
    destruct (IH _ H1) as [H3 H4]. split; [exact H3|].
    intros v. unfold run in H4. rewrite H4, H2. lia.
Qed.

Lemma badge_points_none (u : string) (l : list BadgeDefinition) :
  badge_points l empty_store u = 0.
Proof.
  unfold badge_points. induction l as [|b l IH]; [done|].
  cbn [foldr]. by rewrite IH.
Qed.

Lemma has_badge_rows (s : Store) (u bt : string) :
  has_badge s u bt = true → (1 ≤ length (rows s u bt))%nat.
Proof.
  unfold has_badge, rows. induction (earned s) as [|r l IH]; simpl; [discriminate|].
  destruct (is_row u bt r); simpl; [lia | exact IH].
Qed.

Lemma has_badge_ext (s s' : Store) (u bt : string) :
  earned s = earned s' → has_badge s u bt = has_badge s' u bt.
Proof. intros E. unfold has_badge. by rewrite E. Qed.

(** A badge once held is held after any further award. *)
Lemma try_award_keeps (u0 : string) (now : Z) (b : BadgeDefinition) (s : Store)
    (u bt : string) :
  has_badge s u bt = true → has_badge (try_award u0 now b s) u bt = true.
Proof.
  intros H. unfold try_award. destruct (has_badge s u0 (badge_type b)); [done|].
  destruct (awardPoints _ _ _) as [e|s'] eqn:E; [done|].
  apply awardPoints_effect in E as (_ & Hearned & _).
  by rewrite (has_badge_ext _ _ u bt Hearned), has_badge_insert_row, H.
Qed.

(** An award of a badge whose points can be granted leaves the badge held. *)
Lemma try_award_awards (u : string) (now : Z) (b : BadgeDefinition) (s : Store) :
  0 ≤ points_value b → has_badge (try_award u now b s) u (badge_type b) = true.
Proof.
  intros Hpos. unfold try_award.
  destruct (has_badge s u (badge_type b)) eqn:Hno; [done|].
  destruct (awardPoints _ _ _) as [e|s'] eqn:E.
  - apply awardPoints_fails in E. lia.
  - apply awardPoints_effect in E as (_ & Hearned & _).
    rewrite (has_badge_ext _ _ _ _ Hearned), has_badge_insert_row, !String.eqb_refl.
    by rewrite orb_true_r.
Qed.

Lemma award_loop_keeps (u0 : string) (now : Z) (snapshot : Aggregates)
    (l : list BadgeDefinition) (s : Store) (u bt : string) :
  has_badge s u bt = true →
  has_badge (foldl (λ acc b,
                      if negb (has_badge acc u0 (badge_type b)) && criteria b snapshot
                      then try_award u0 now b acc else acc) s l) u bt = true.
Proof.
  revert s. induction l as [|b l IH]; intros s H; simpl; [done|].
  apply IH. case_match; [by apply try_award_keeps | done].
Qed.

(** The loop of an evaluation awards every catalog badge whose criterion
    holds on the snapshot and whose points can be granted. *)
Lemma award_loop_awards (u : string) (now : Z) (snapshot : Aggregates)
    (b : BadgeDefinition) (l : list BadgeDefinition) (s : Store) :
  b ∈ l → criteria b snapshot = true → 0 ≤ points_value b →
  has_badge (foldl (λ acc b,
                      if negb (has_badge acc u (badge_type b)) && criteria b snapshot
                      then try_award u now b acc else acc) s l) u (badge_type b) = true.
Proof.
  intros Hin Hc Hpos. revert s. induction l as [|b0 l IH]; intros s; simpl.
  - by apply elem_of_nil in Hin.
  - apply elem_of_cons in Hin as [<-|Hin]; [|by apply IH].
    apply award_loop_keeps. rewrite Hc, andb_true_r.
    destruct (has_badge s u (badge_type b)) eqn:E; simpl;
      [done | by apply try_award_awards].
Qed.

Lemma evaluateBadges_awards (u : string) (now : Z) (b : BadgeDefinition) (s : Store) :
  b ∈ catalog → criteria b (aggregates s u) = true → 0 ≤ points_value b →
  has_badge (evaluateBadges catalog u now s) u (badge_type b) = true.
Proof. intros. by apply award_loop_awards. Qed.

(** No operation takes a badge away. *)
Lemma step_keeps (op : Op) (s : Store) (u bt : string) :
  has_badge s u bt = true →
  has_badge (step date activity_points catalog op s) u bt = true.
Proof.
  intros H. unfold step.
  destruct op as [v t|v now|v a|v now|v ty dur now|v t now]; simpl.
  - exact H.
  - unfold useStreakFreeze. destruct (use_freeze _ _); simpl; exact H.
  - unfold awardPoints. destruct (a <? 0); simpl; exact H.
  - by apply award_loop_keeps.
  - destruct (dur <? 0); [exact H|]. unfold awardPoints.
    destruct (_ <? 0); [exact H|]. by apply award_loop_keeps.
  - destruct (List.find _ _); [by apply try_award_keeps | exact H].
Qed.

Lemma run_keeps (ops : list Op) (s : Store) (u bt : string) :
  has_badge s u bt = true →
  has_badge (run date activity_points catalog ops s) u bt = true.
Proof.
  revert s. induction ops as [|op ops IH]; intros s H; simpl; [done|].
  by apply IH, step_keeps.
Qed.

Lemma filter_other_types (b : BadgeDefinition) (l : list BadgeDefinition) :
  badge_type b ∉ badge_type <$> l →
  filter (λ b', badge_type b' ≠ badge_type b) l = l.
Proof.
  induction l as [|b0 l IH]; [done|].
  rewrite fmap_cons, not_elem_of_cons. intros [Hne Hl].
  rewrite filter_cons_True by done. by rewrite IH.
Qed.

(** The badge total, with the share of one catalog entry taken out. *)
Lemma badge_points_split (b : BadgeDefinition) (l : list BadgeDefinition)
    (s : Store) (u : string) :
  NoDup (badge_type <$> l) → b ∈ l →
  badge_points l s u
  = (if has_badge s u (badge_type b) then points_value b else 0)
    + badge_points (filter (λ b', badge_type b' ≠ badge_type b) l) s u.
Proof.
  unfold badge_points. induction l as [|b0 l IH]; intros Hnd Hin.
  - by apply elem_of_nil in Hin.
  - rewrite fmap_cons in Hnd. apply NoDup_cons in Hnd as [Hb0 Hnd].
    apply elem_of_cons in Hin as [->|Hin].
    + rewrite filter_cons_False by (intros H; by apply H).
      by rewrite (filter_other_types _ _ Hb0).
    + assert (Hne : badge_type b0 ≠ badge_type b).
      { intros E. apply Hb0. rewrite E. by apply list_elem_of_fmap_2. }
      rewrite filter_cons_True by done. simpl. rewrite (IH Hnd Hin). lia.
Qed.

(** The catalog entry of a badge type is the one that an award attempt
    looks up. *)
Lemma find_by_type (b : BadgeDefinition) (l : list BadgeDefinition) :
  NoDup (badge_type <$> l) → b ∈ l →
  List.find (λ b', String.eqb (badge_type b') (badge_type b)) l = Some b.
Proof.
  induction l as [|b0 l IH]; intros Hnd Hin.
  - by apply elem_of_nil in Hin.
  - rewrite fmap_cons in Hnd. apply NoDup_cons in Hnd as [Hb0 Hnd]. simpl.
    apply elem_of_cons in Hin as [->|Hin]; [by rewrite String.eqb_refl|].
    destruct (String.eqb_spec (badge_type b0) (badge_type b)) as [E|_]; [|by apply IH].
    exfalso. apply Hb0. rewrite E. by apply list_elem_of_fmap_2.
Qed.

(** C5. Whatever operations run from the empty store (activity posts,
    badge evaluations repeated at will, award attempts left over from an
    evaluation that ran beside another and decided on an older snapshot),
    there is at most one EarnedBadge row for a user and a badge type, and
    the user's [total_points] is what the user was granted directly plus
    the [points_value] of each badge held, counted once.  And if at some
    point of the run an evaluation for the user finds the criterion of a
    catalog badge true on the user's aggregates, or an award attempt for
    that badge arrives from another evaluation, then, whatever runs
    afterwards, the user has exactly one row for that badge and
    [total_points] is the direct grants, plus that badge's [points_value]
    once, plus the points of the other badges held.  (A badge whose
    [points_value] is negative cannot be awarded: [awardPoints] refuses
    the amount.) *)
Theorem badge_awarded_exactly_once (ops : list Op) (u bt : string) :
  let s := run date activity_points catalog ops empty_store in
  (length (rows s u bt) ≤ 1)%nat
  ∧ total_points s u = direct_total activity_points u ops + badge_points catalog s u
  ∧ ∀ (ops1 ops2 : list Op) (now : Z) (b : BadgeDefinition),
      b ∈ catalog → 0 ≤ points_value b →
      (ops = ops1 ++ EvaluateBadges u now :: ops2
       ∧ criteria b (aggregates (run date activity_points catalog ops1 empty_store) u)
         = true)
      ∨ ops = ops1 ++ AwardBadge u (badge_type b) now :: ops2 →
      length (rows s u (badge_type b)) = 1%nat
      ∧ total_points s u
        = direct_total activity_points u ops + points_value b
          + badge_points (filter (λ b', badge_type b' ≠ badge_type b) catalog) s u.
Proof.
  intros s.
  assert (H0 : unique_rows empty_store) by (intros ? ?; simpl; lia).
  destruct (run_sound ops empty_store H0) as [Hu Hb]. fold s in Hu, Hb.
  assert (Htotal : total_points s u
                   = direct_total activity_points u ops + badge_points catalog s u).
  { specialize (Hb u). unfold base_points in Hb.
    rewrite badge_points_none in Hb. unfold total_points at 2 in Hb.
    simpl in Hb. rewrite lookup_empty in Hb. simpl in Hb. lia. }
  split; [apply Hu|]. split; [exact Htotal|].
  intros ops1 ops2 now b Hin Hpos Hops.
  assert (Hheld : has_badge s u (badge_type b) = true).
  { subst s. destruct Hops as [[-> Hc] | ->]; unfold run; rewrite foldl_app; simpl;
      apply run_keeps; unfold step; simpl.
    - by apply evaluateBadges_awards.
    - rewrite (find_by_type b catalog catalog_keys Hin). by apply try_award_awards. }
  split.
  - pose proof (Hu u (badge_type b)). pose proof (has_badge_rows _ _ _ Hheld). lia.
  - rewrite Htotal, (badge_points_split b catalog s u catalog_keys Hin), Hheld. lia.
Qed.

End BadgeFacts.

Lemma badge_awarded_exactly_once_witness :
  NoDup (Engine.badge_type <$> Samples.badges)
  ∧ Engine.criteria Samples.streak_3
      (Engine.aggregates
         (Engine.run Samples.utc_day Samples.scoring Samples.badges
            MoreSamples.quiet_days Engine.empty_store) "u1") = true
  ∧ length (Engine.rows
              (Engine.run Samples.utc_day Samples.scoring Samples.badges
                 MoreSamples.evaluated_run Engine.empty_store)
              "u1" "streak_3") = 1%nat
  ∧ Engine.total_points
      (Engine.run Samples.utc_day Samples.scoring Samples.badges
         MoreSamples.evaluated_run Engine.empty_store) "u1"
    = Engine.direct_total Samples.scoring "u1" MoreSamples.evaluated_run + 50
      + Engine.badge_points
          (filter (λ b', Engine.badge_type b' ≠ "streak_3") Samples.badges)
          (Engine.run Samples.utc_day Samples.scoring Samples.badges
             MoreSamples.evaluated_run Engine.empty_store) "u1".
Proof.
  assert (H : NoDup (Engine.badge_type <$> Samples.badges)).
  { apply (bool_decide_unpack _). vm_compute. reflexivity. }
  split; [exact H|]. split; [reflexivity|].
  refine (proj2 (proj2 (badge_awarded_exactly_once Samples.utc_day Samples.scoring
                          Samples.badges H MoreSamples.evaluated_run "u1" "streak_3"))
            MoreSamples.quiet_days MoreSamples.redundant_runs 172950
            Samples.streak_3 _ _ (or_introl (conj eq_refl eq_refl))).
  - right. left.
  - simpl. lia.
Defined.

(** The same run in numbers: both badges fall due at the first evaluation;
    the later evaluations and the stray award add nothing, and the badge
    for a streak of three stays after the streak is lost. *)
Example redundant_runs_outcome :
  let s := Engine.run Samples.utc_day Samples.scoring Samples.badges
             MoreSamples.evaluated_run Engine.empty_store in
  Engine.current_streak (Engine.streak_of s "u1") = 1
  ∧ Engine.eb_badge_type <$> Engine.earned s = ["first_steps"; "streak_3"]
  ∧ Engine.total_points s "u1" = 10 + 50.
Proof. vm_compute. repeat split. Qed.

(** The sample run: three consecutive days earn both badges, once each. *)
Example three_days_outcome :
  let s := Engine.run Samples.utc_day Samples.scoring Samples.badges
             Samples.three_days Engine.empty_store in
  Engine.current_streak (Engine.streak_of s "u1") = 3
  ∧ Engine.longest_streak (Engine.streak_of s "u1") = 3
  ∧ Engine.total_active_days (Engine.streak_of s "u1") = 3
  ∧ Engine.eb_badge_type <$> Engine.earned s = ["first_steps"; "streak_3"]
  ∧ Engine.total_points s "u1" = 10 + 20 + 1 + 1 + 10 + 50.
Proof. vm_compute. repeat split. Qed.

(** The scenario of section 8: days 1, 2, 3, then day 5 with no freeze. *)
Example streak_broken_by_gap :
  let after3 := Engine.record_day 3 (Engine.record_day 2 (Engine.record_day 1 Engine.fresh)) in
  Engine.current_streak after3 = 3 ∧ Engine.longest_streak after3 = 3
  ∧ Engine.current_streak (Engine.record_day 5 after3) = 1
  ∧ Engine.longest_streak (Engine.record_day 5 after3) = 3.
Proof. vm_compute. repeat split. Qed.

(** A freeze used on the skipped day keeps the streak going: the rule of
    section 4.1 adds the normal 1 for the day of activity (section 8 reads 3
    here, counting the frozen day as well); without the freeze the streak
    restarts at 1. *)
Example freeze_covers_gap :
  let day1 := Engine.record_day 1
                {| Engine.current_streak := 0; Engine.longest_streak := 0;
                   Engine.last_active_date := None; Engine.freeze_available := 1;
                   Engine.freeze_used_dates := ∅; Engine.total_active_days := 0 |} in
  (∃ frozen, Engine.use_freeze 2 day1 = inr frozen
             ∧ Engine.freeze_available frozen = 0
             ∧ Engine.streak_at_risk 2 frozen = false
             ∧ Engine.current_streak (Engine.record_day 3 frozen) = 2
             ∧ Engine.freeze_available (Engine.record_day 3 frozen) = 0)
  ∧ Engine.current_streak (Engine.record_day 3 day1) = 1.
Proof.
  simpl. split; [|by vm_compute]. eexists. split; [reflexivity|].
  by vm_compute.
Qed.

(** ** String helpers on sample inputs *)

Example toLowerCase_label :
  Dom.toLowerCase (Leaderboard.getPeriodLabel Leaderboard.weekly) = "this week".
Proof. reflexivity. Qed.

Example initials_two_names : ProgressDashboard.initials "Ada Lovelace" = "AL".
Proof. reflexivity. Qed.

Example initials_double_space : ProgressDashboard.initials "ada  b" = "ab".
Proof. reflexivity. Qed.

Example replace_first_once :
  ProgressDashboard.replace_first "_"%char " "%char "very_high_risk" = "very high_risk".
Proof. reflexivity. Qed.

Example getRankIcon_fourth : Leaderboard.getRankIcon 4 = "#4".
Proof. reflexivity. Qed.

(** * Further properties of the front end *)

(** ** Streak card *)

Section StreakCardFacts.
Import Api.

Lemma pmsasService_getStreak : pmsasService !! "getStreak" = Some getStreak.
Proof. vm_compute. reflexivity. Qed.

(** X1. [fetchStreak] sends exactly one request, the GET of the streak,
    and always ends the loading state; a rejected call leaves the streak
    shown as it was, a resolved one replaces it by the reply's. *)
Theorem fetchStreak_outcome (api : Request → Reply StreakCard.Data)
    (st : StreakCard.State) :
  let after := StreakCard.fetchStreak api st in
  after.2 = [get_ "/pmsas/streak" []]
  ∧ StreakCard.loading after.1 = false
  ∧ StreakCard.message after.1 = StreakCard.message st
  ∧ StreakCard.streak after.1
    = match api (get_ "/pmsas/streak" []) with
      | Resolved data => StreakCard.d_streak data
      | Rejected _ => StreakCard.streak st
      end.
Proof.
  intros after. subst after. unfold StreakCard.fetchStreak, call.
  rewrite pmsasService_getStreak. unfold getStreak.
  by destruct (api (get_ "/pmsas/streak" [])).
Qed.

(** X2. The emoji and the message of the streak card change at the same
    day counts, 3, 7, 14, 30, 60 and 100: two streaks of at least one day
    show the same emoji exactly when they show the same message, and that
    exactly when none of these six counts lies above one of them and not
    above the other; the seven tiers, taken at their first days, show seven
    different emojis and messages. *)
Theorem streak_tiers_agree (d1 d2 : Z) :
  0 < d1 → 0 < d2 →
  (StreakTiers.getStreakEmoji d1 = StreakTiers.getStreakEmoji d2
   ↔ StreakCard.getStreakMessage d1 = StreakCard.getStreakMessage d2)
  ∧ (StreakTiers.getStreakEmoji d1 = StreakTiers.getStreakEmoji d2
     ↔ Forall (λ t, t ≤ d1 ↔ t ≤ d2) [3; 7; 14; 30; 60; 100])
  ∧ StreakTiers.getStreakEmoji <$> [1; 3; 7; 14; 30; 60; 100]
    = ["✨"; "🔥"; "⭐"; "🏆"; "👑"; "💎"; "🌟"]
  ∧ StreakCard.getStreakMessage <$> [1; 3; 7; 14; 30; 60; 100]
    = ["Good start!"; "Keep going!"; "On fire!"; "Great job!"; "Amazing!";
       "Incredible!"; "Legendary!"].
Proof.
  intros H1 H2. split; [|split; [|by split]].
  - unfold StreakTiers.getStreakEmoji, StreakCard.getStreakMessage.
    destruct (Z.ltb_spec 0 d1); [|lia]. destruct (Z.ltb_spec 0 d2); [|lia].
    repeat match goal with
           | |- context [?a <=? ?b] => destruct (Z.leb_spec a b)
           end;
      try lia; split; intros E; try reflexivity; try discriminate E.
  - rewrite !Forall_cons, Forall_nil. unfold StreakTiers.getStreakEmoji.
    repeat match goal with
           | |- context [?a <=? ?b] => destruct (Z.leb_spec a b)
           end;
      try lia; split; intros E; try reflexivity; try discriminate E; try lia.
Qed.

Lemma streak_tiers_agree_witness :
  0 < 7 ∧ 0 < 13
  ∧ StreakCard.getStreakMessage 7 = StreakCard.getStreakMessage 13
  ∧ (StreakTiers.getStreakEmoji 7 = StreakTiers.getStreakEmoji 13
     ↔ Forall (λ t, t ≤ 7 ↔ t ≤ 13) [3; 7; 14; 30; 60; 100]).
Proof.
  split; [lia|]. split; [lia|]. split.
  - apply (proj1 (proj1 (streak_tiers_agree 7 13 ltac:(lia) ltac:(lia)))). reflexivity.
  - exact (proj1 (proj2 (streak_tiers_agree 7 13 ltac:(lia) ltac:(lia)))).
Defined.

End StreakCardFacts.

(** ** The service object *)

Section ServiceMoreFacts.
Import Api Dom.

(** X3. Every method of the service object builds a request to a path
    under /pmsas/; [logActivity] is the only one that posts, and the
    others send no body. *)
Theorem pmsasService_requests (name : string) (build : list JsVal → Request)
    (args : list JsVal) :
  pmsasService !! name = Some build →
  String.prefix "/pmsas/" (url (build args)) = true
  ∧ (verb (build args) = POST ↔ name = "logActivity")
  ∧ (name ≠ "logActivity" → body (build args) = JUndefined).
Proof.
  intros H. unfold pmsasService in H. apply elem_of_list_to_map_2 in H.
  repeat (apply elem_of_cons in H as [[= -> ->]|H]);
    try (by apply elem_of_nil in H);
    (split; [reflexivity|]); (split; [|done]); split; done.
Qed.

Lemma pmsasService_requests_witness :
  pmsasService !! "getSummary" = Some getSummary
  ∧ String.prefix "/pmsas/" (url (getSummary [])) = true.
Proof.
  assert (H : pmsasService !! "getSummary" = Some getSummary)
    by (vm_compute; reflexivity).
  split; [exact H|].
  exact (proj1 (pmsasService_requests "getSummary" getSummary [] H)).
Defined.

(** X4. Whatever the server, the badges component's fetch sends nothing and
    loads nothing, since neither [getBadges] nor [getAvailableBadges] is a
    method of the service object; from its initial state the component ends
    up showing no badge and the "No badges earned yet" notice. *)
Theorem BadgesDisplay_stays_empty (api : Request → Reply BadgesDisplay.Data)
    (showAll : bool) (st : BadgesDisplay.State) (toLocaleDateString : string → string) :
  let after := BadgesDisplay.fetchBadges api showAll st in
  after.2 = []
  ∧ BadgesDisplay.earnedBadges after.1 = BadgesDisplay.earnedBadges st
  ∧ BadgesDisplay.availableBadges after.1 = BadgesDisplay.availableBadges st
  ∧ BadgesDisplay.loading after.1 = false
  ∧ text_of (BadgesDisplay.badges_grid toLocaleDateString
               (BadgesDisplay.fetchBadges api showAll BadgesDisplay.initial).1)
    = "🎯No badges earned yetKeep learning to earn your first badge!".
Proof.
  intros after. subst after. rewrite !fetchBadges_never_sends. by repeat split.
Qed.

(** X5. On the "all badges" tab there is one card per available badge, in
    order, and a card is marked earned exactly when some earned badge has
    the same [badge_type]. *)
Theorem all_badges_cards (toLocaleDateString : string → string)
    (st : BadgesDisplay.State) :
  BadgesDisplay.activeTab st = BadgesDisplay.tab_all →
  let cards := kids_of (BadgesDisplay.badges_grid toLocaleDateString st) in
  length cards = length (BadgesDisplay.availableBadges st)
  ∧ ∀ i b, BadgesDisplay.availableBadges st !! i = Some b →
           ∃ card, cards !! i = Some card
                   ∧ (cls_of card = "badge-card badge-earned"
                      ↔ ∃ e, e ∈ BadgesDisplay.earnedBadges st
                             ∧ BadgesDisplay.badge_type e = BadgesDisplay.badge_type b)
                   ∧ (cls_of card = "badge-card badge-locked"
                      ↔ ¬ ∃ e, e ∈ BadgesDisplay.earnedBadges st
                               ∧ BadgesDisplay.badge_type e = BadgesDisplay.badge_type b).
Proof.
  intros Htab cards. subst cards. unfold BadgesDisplay.badges_grid. rewrite Htab.
  cbv beta iota delta [kids_of]. split; [by rewrite length_fmap|].
  intros i b Hb. exists (BadgesDisplay.available_card st b).
  split; [by rewrite list_lookup_fmap, Hb|].
  rewrite <- earnedBadgeTypes_spec. unfold BadgesDisplay.available_card. simpl.
  destruct (bool_decide_reflect
              (BadgesDisplay.badge_type b ∈ BadgesDisplay.earnedBadgeTypes st));
    split; split; intros; try done; try discriminate; by exfalso.
Qed.

Lemma all_badges_cards_witness :
  BadgesDisplay.activeTab MoreSamples.half_earned = BadgesDisplay.tab_all
  ∧ length (kids_of (BadgesDisplay.badges_grid id MoreSamples.half_earned)) = 2%nat
  ∧ cls_of <$> (kids_of (BadgesDisplay.badges_grid id MoreSamples.half_earned) !! 0%nat)
    = Some "badge-card badge-earned"
  ∧ cls_of <$> (kids_of (BadgesDisplay.badges_grid id MoreSamples.half_earned) !! 1%nat)
    = Some "badge-card badge-locked".
Proof.
  split; [reflexivity|].
  destruct (all_badges_cards id MoreSamples.half_earned eq_refl) as [Hlen Hcards].
  split; [exact Hlen|]. split.
  - destruct (Hcards 0%nat (MoreSamples.shown_badge "b1" "first_steps" "") eq_refl)
      as (card & -> & Hearned & _).
    simpl. f_equal. apply Hearned.
    exists (MoreSamples.shown_badge "e1" "first_steps" "2024-05-01").
    split; [left | reflexivity].
  - destruct (Hcards 1%nat (MoreSamples.shown_badge "b2" "streak_3" "") eq_refl)
      as (card & -> & _ & Hlocked).
    simpl. f_equal. apply Hlocked. intros (e & He & Ht).
    apply list_elem_of_singleton in He as ->. discriminate Ht.
Defined.

End ServiceMoreFacts.

(** ** Leaderboards *)

Section LeaderboardFacts.
Import Api Dom.

Lemma show_inj (a b : Z) : show a = show b → a = b.
Proof. unfold show. apply (inj pretty). Qed.

(** X6. [getRankIcon] never gives two different ranks the same icon. *)
Theorem getRankIcon_inj (r1 r2 : Z) :
  Leaderboard.getRankIcon r1 = Leaderboard.getRankIcon r2 → r1 = r2.
Proof.
  unfold Leaderboard.getRankIcon.
  destruct (Z.eqb_spec r1 1), (Z.eqb_spec r1 2), (Z.eqb_spec r1 3),
           (Z.eqb_spec r2 1), (Z.eqb_spec r2 2), (Z.eqb_spec r2 3);
    try lia; intros E; try discriminate E.
  injection E as E. by apply show_inj.
Qed.

Lemma getRankIcon_inj_witness :
  Leaderboard.getRankIcon 4 = Leaderboard.getRankIcon (2 + 2) ∧ 4 = 2 + 2.
Proof.
  split; [reflexivity|]. exact (getRankIcon_inj 4 (2 + 2) eq_refl).
Defined.

(** X7. [fetchLeaderboard] always ends the loading state and keeps the
    selected period; a rejected call leaves the entries and the user's rank
    of the previous fetch on screen, a resolved one replaces both. *)
Theorem fetchLeaderboard_outcome (api : Request → Reply Leaderboard.Data)
    (courseId : option string) (st : Leaderboard.State) :
  let after := (Leaderboard.fetchLeaderboard api courseId st).1 in
  Leaderboard.loading after = false
  ∧ Leaderboard.period after = Leaderboard.period st
  ∧ match api (getLeaderboard (Leaderboard.fetch_args (Leaderboard.period st) courseId)) with
    | Resolved data =>
        Leaderboard.leaderboard after = Leaderboard.d_leaderboard data
        ∧ Leaderboard.myRank after = Leaderboard.d_my_rank data
    | Rejected _ =>
        Leaderboard.leaderboard after = Leaderboard.leaderboard st
        ∧ Leaderboard.myRank after = Leaderboard.myRank st
    end.
Proof.
  intros after. subst after. unfold Leaderboard.fetchLeaderboard, call.
  rewrite pmsasService_getLeaderboard.
  by destruct (api (getLeaderboard _)).
Qed.

(** X8. The progress dashboard's rank badge of row [idx] is the icon that
    the Leaderboard component gives rank [idx + 1]. *)
Theorem rank_badge_is_getRankIcon (idx : nat) :
  ProgressDashboard.rank_badge idx = Leaderboard.getRankIcon (Z.of_nat idx + 1).
Proof.
  unfold Leaderboard.getRankIcon.
  destruct idx as [|[|[|n]]]; try reflexivity.
  simpl ProgressDashboard.rank_badge.
  destruct (Z.eqb_spec (Z.of_nat (S (S (S n))) + 1) 1); [lia|].
  destruct (Z.eqb_spec (Z.of_nat (S (S (S n))) + 1) 2); [lia|].
  destruct (Z.eqb_spec (Z.of_nat (S (S (S n))) + 1) 3); [lia|].
  reflexivity.
Qed.

(** X9. The overview lists the first five leaderboard entries, numbered
    from 1 by their position, and the first four badges, and no more. *)
Theorem overview_truncates (st : ProgressDashboard.State)
    (es : list ProgressDashboard.Entry) :
  ProgressDashboard.board_entries st = Some es →
  (0 < length (ProgressDashboard.badges st))%nat →
  ∃ rows cards,
    kids_of <$> (kids_of (ProgressDashboard.top_streakers_card st) !! 1%nat) = Some rows
    ∧ kids_of <$> (kids_of (ProgressDashboard.recent_badges_card st) !! 1%nat) = Some cards
    ∧ length rows = (length es `min` 5)%nat
    ∧ length cards = (length (ProgressDashboard.badges st) `min` 4)%nat
    ∧ ∀ i e, (i < 5)%nat → es !! i = Some e →
             ∃ row, rows !! i = Some row
                    ∧ text_of <$> (kids_of row !! 0%nat)
                      = Some ("#" +:+ show (Z.of_nat i + 1))
                    ∧ text_of <$> (kids_of row !! 1%nat)
                      = Some (ProgressDashboard.user_name e).
Proof.
  intros Hes Hb.
  exists (imap ProgressDashboard.mini_leader_row (take 5 es)),
         (imap ProgressDashboard.badge_mini (take 4 (ProgressDashboard.badges st))).
  unfold ProgressDashboard.top_streakers_card, ProgressDashboard.recent_badges_card.
  rewrite Hes. destruct (Nat.ltb_spec 0 (length (ProgressDashboard.badges st))); [|lia].
  split; [done|]. split; [done|].
  rewrite !length_imap, !length_take. split; [lia|]. split; [lia|].
  intros i e Hi He. exists (ProgressDashboard.mini_leader_row i e).
  rewrite list_lookup_imap, lookup_take_lt, He by done.
  split; [done|]. simpl. by rewrite !append_empty.
Qed.

Lemma overview_truncates_witness :
  ProgressDashboard.board_entries MoreSamples.loaded_dashboard
  = Some MoreSamples.six_entries
  ∧ (0 < length (ProgressDashboard.badges MoreSamples.loaded_dashboard))%nat
  ∧ ∃ rows cards,
      kids_of <$> (kids_of (ProgressDashboard.top_streakers_card
                              MoreSamples.loaded_dashboard) !! 1%nat) = Some rows
      ∧ kids_of <$> (kids_of (ProgressDashboard.recent_badges_card
                                MoreSamples.loaded_dashboard) !! 1%nat) = Some cards
      ∧ length rows = 5%nat ∧ length cards = 1%nat.
Proof.
  split; [reflexivity|]. split; [simpl; lia|].
  destruct (overview_truncates MoreSamples.loaded_dashboard MoreSamples.six_entries
              eq_refl ltac:(simpl; lia)) as (rows & cards & H1 & H2 & H3 & H4 & _).
  exists rows, cards. repeat split; assumption.
Defined.

End LeaderboardFacts.

(** ** Loading the dashboards *)

Section LoadFacts.
Import Api.

Lemma call_sent_known {D} (api : Request → Reply D) (name : string)
    (build : list JsVal → Request) (args : list JsVal) :
  pmsasService !! name = Some build →
  sent (call api name args) = [build args]
  ∧ outcome (call api name args)
    = match api (build args) with
      | Resolved d => inr d
      | Rejected e => inl (AxiosError e)
      end.
Proof. intros H. unfold call. rewrite H. by destruct (api (build args)). Qed.

(** X10. The progress dashboard's [loadData] sends its four requests, in
    order, whatever the replies; it takes over the four replies only when
    all four calls resolve and otherwise keeps every piece of the previous
    data; either way it ends the loading state and keeps the tab. *)
Theorem ProgressDashboard_loadData_all_or_nothing
    (api1 : Request → Reply ProgressLoad.SummaryData)
    (api2 : Request → Reply ProgressLoad.BoardData)
    (api3 : Request → Reply ProgressLoad.BadgesData)
    (api4 : Request → Reply ProgressLoad.AnalyticsData)
    (st : ProgressDashboard.State) :
  let after := ProgressLoad.loadData api1 api2 api3 api4 st in
  after.2 = [ get_ "/pmsas/summary" [];
              get_ "/pmsas/leaderboard" [("type", JStr "streak"); ("limit", JNum 10)];
              get_ "/pmsas/badges/me" [];
              get_ "/pmsas/analytics/me" [] ]
  ∧ ProgressDashboard.loading after.1 = false
  ∧ ProgressDashboard.activeTab after.1 = ProgressDashboard.activeTab st
  ∧ ((∃ s l b a,
        api1 (get_ "/pmsas/summary" []) = Resolved s
        ∧ api2 (get_ "/pmsas/leaderboard" [("type", JStr "streak"); ("limit", JNum 10)])
          = Resolved l
        ∧ api3 (get_ "/pmsas/badges/me" []) = Resolved b
        ∧ api4 (get_ "/pmsas/analytics/me" []) = Resolved a
        ∧ ProgressDashboard.summary after.1 = ProgressLoad.d_summary s
        ∧ ProgressDashboard.leaderboard after.1 = ProgressLoad.d_leaderboard l
        ∧ ProgressDashboard.badges after.1 = ProgressLoad.d_badges b
        ∧ ProgressDashboard.analytics after.1 = ProgressLoad.d_analytics a)
     ∨ (ProgressDashboard.summary after.1 = ProgressDashboard.summary st
        ∧ ProgressDashboard.leaderboard after.1 = ProgressDashboard.leaderboard st
        ∧ ProgressDashboard.badges after.1 = ProgressDashboard.badges st
        ∧ ProgressDashboard.analytics after.1 = ProgressDashboard.analytics st)).
Proof.
  intros after. subst after. unfold ProgressLoad.loadData.
  destruct (call_sent_known api1 "getSummary" getSummary []
              ltac:(vm_compute; reflexivity)) as [-> ->].
  destruct (call_sent_known api2 "getLeaderboard" getLeaderboard
              ProgressDashboard.loadData_leaderboard_args
              ltac:(vm_compute; reflexivity)) as [-> ->].
  destruct (call_sent_known api3 "getMyBadges" getMyBadges []
              ltac:(vm_compute; reflexivity)) as [-> ->].
  destruct (call_sent_known api4 "getMyAnalytics" getMyAnalytics []
              ltac:(vm_compute; reflexivity)) as [-> ->].
  change (getSummary []) with (get_ "/pmsas/summary" []).
  change (getLeaderboard ProgressDashboard.loadData_leaderboard_args)
    with (get_ "/pmsas/leaderboard" [("type", JStr "streak"); ("limit", JNum 10)]).
  change (getMyBadges []) with (get_ "/pmsas/badges/me" []).
  change (getMyAnalytics []) with (get_ "/pmsas/analytics/me" []).
  destruct (api1 _) as [s|] eqn:E1, (api2 _) as [l|] eqn:E2,
           (api3 _) as [b|] eqn:E3, (api4 _) as [a|] eqn:E4; simpl;
    (split; [reflexivity|]); (split; [reflexivity|]); (split; [reflexivity|]);
    try (by right).
  left. by exists s, l, b, a.
Qed.

(** X11. The teacher page's [loadData] takes no account of the role: it
    always sends the teacher-dashboard and the at-risk requests, also for a
    user to whom the page then shows Access Denied; and it takes over the
    replies only when both calls resolve. *)
Theorem TeacherAnalytics_loadData_unguarded
    (api1 : Request → Reply TeacherAnalytics.DashboardData)
    (api2 : Request → Reply TeacherAnalytics.AtRiskData)
    (auth : Auth.AuthState) (st : TeacherAnalytics.State) :
  let after := TeacherAnalytics.loadData api1 api2 st in
  after.2 = [get_ "/pmsas/dashboard/teacher" []; get_ "/pmsas/dashboard/at-risk" []]
  ∧ TeacherAnalytics.loading after.1 = false
  ∧ (Auth.isTeacher (Auth.value auth) = false → Auth.isAdmin (Auth.value auth) = false →
     TeacherAnalytics.render (Auth.value auth) after.1 = TeacherAnalytics.AccessDenied)
  ∧ ((∃ d a, api1 (get_ "/pmsas/dashboard/teacher" []) = Resolved d
             ∧ api2 (get_ "/pmsas/dashboard/at-risk" []) = Resolved a
             ∧ TeacherAnalytics.dashboard after.1 = TeacherAnalytics.d_dashboard d
             ∧ TeacherAnalytics.atRiskStudents after.1
               = TeacherAnalytics.d_at_risk_students a)
     ∨ (TeacherAnalytics.dashboard after.1 = TeacherAnalytics.dashboard st
        ∧ TeacherAnalytics.atRiskStudents after.1 = TeacherAnalytics.atRiskStudents st)).
Proof.
  intros after. subst after. unfold TeacherAnalytics.loadData.
  destruct (call_sent_known api1 "getTeacherDashboard" getTeacherDashboard []
              ltac:(vm_compute; reflexivity)) as [-> ->].
  destruct (call_sent_known api2 "getAtRiskStudents" getAtRiskStudents []
              ltac:(vm_compute; reflexivity)) as [-> ->].
  change (getTeacherDashboard []) with (get_ "/pmsas/dashboard/teacher" []).
  change (getAtRiskStudents []) with (get_ "/pmsas/dashboard/at-risk" []).
  assert (Hdenied : ∀ s, Auth.isTeacher (Auth.value auth) = false →
                         Auth.isAdmin (Auth.value auth) = false →
                         TeacherAnalytics.render (Auth.value auth) s
                         = TeacherAnalytics.AccessDenied).
  { intros s Ht Ha. unfold TeacherAnalytics.render. by rewrite Ht, Ha. }
  destruct (api1 _) as [d|] eqn:E1, (api2 _) as [a|] eqn:E2; simpl;
    (split; [reflexivity|]); (split; [reflexivity|]); (split; [apply Hdenied|]);
    try (by right).
  left. by exists d, a.
Qed.

End LoadFacts.

(** ** Signing in and out *)

Section SessionFacts.
Import Http Auth AuthProvider Route.

Variable stringify : User → string.

Lemma error_or_nonempty (e : option string) (fallback : string) :
  fallback ≠ "" → error_or e fallback ≠ "".
Proof.
  intros Hf. unfold error_or. destruct e as [s|]; [|done].
  by destruct (String.eqb_spec s "").
Qed.

(** X12. [login] posts the credentials once.  When the call resolves, the
    token and the serialized user are in [localStorage], the user is signed
    in and the error is cleared.  When it is rejected, [localStorage] and the
    signed-in user are untouched, and the error shown and the message thrown
    are the same non-empty text: the server's, or "Login failed". *)
Theorem login_outcome (api : Request → Reply Credentials) (email password : string)
    (w : World) :
  let rq := {| verb := POST; url := "/accounts/login"; params := [];
               body := JObj [("email", JStr email); ("password", JStr password)] |} in
  let '(w', sent, result) := login stringify api email password w in
  sent = [rq]
  ∧ match result with
    | inr u =>
        ∃ c, api rq = Ok c ∧ u = c_user c
             ∧ user (auth w') = Some u ∧ error (auth w') = None
             ∧ isAuthenticated (value (auth w')) = true
             ∧ storage w' !! "token" = Some (c_token c)
             ∧ storage w' !! "user" = Some (stringify u)
    | inl message =>
        message ≠ "" ∧ error (auth w') = Some message
        ∧ user (auth w') = user (auth w) ∧ storage w' = storage w
        ∧ ∃ e, api rq = Failed e ∧ message = error_or e "Login failed"
    end.
Proof.
  intros rq. unfold login. fold rq. destruct (api rq) as [c|e] eqn:E.
  - split; [done|]. exists c. simpl.
    rewrite lookup_insert_ne, !lookup_insert_eq by done. by repeat split.
  - split; [done|]. simpl. split; [by apply error_or_nonempty|].
    repeat split; try done. by exists e.
Qed.

(** X13. After [logout] the token and the stored user are gone while every
    other item of [localStorage] is kept, nobody is signed in, every
    protected route redirects to /login once loading is over, and the
    start-up check of a reloaded page sends nothing and signs nobody in. *)
Theorem logout_signs_out {A} (api : Request → Reply UserData) (w : World)
    (requiredRole : option string) (children : A) :
  let w' := logout w in
  storage w' !! "token" = None ∧ storage w' !! "user" = None
  ∧ (∀ k, k ≠ "token" → k ≠ "user" → storage w' !! k = storage w !! k)
  ∧ isAuthenticated (value (auth w')) = false
  ∧ (loading (auth w') = false →
     ProtectedRoute (value (auth w')) requiredRole children = Navigate "/login")
  ∧ (initAuth stringify api w').2 = []
  ∧ user (auth (initAuth stringify api w').1) = None.
Proof.
  intros w'. subst w'. unfold logout. simpl.
  split; [by rewrite lookup_delete_ne, lookup_delete_eq|].
  split; [by rewrite lookup_delete_eq|].
  split; [intros k H1 H2; by rewrite !lookup_delete_ne|].
  split; [done|].
  split; [intros Hl; unfold ProtectedRoute; simpl; by rewrite Hl|].
  unfold initAuth, stored. simpl.
  by rewrite lookup_delete_ne, lookup_delete_eq.
Qed.

(** X14. The start-up check [initAuth] always ends the loading state.  It
    asks the server exactly when both a token and a user are stored; a
    rejection then removes both from [localStorage] and signs nobody in; and
    without a stored token the user state is left as it was. *)
Theorem initAuth_outcome (api : Request → Reply UserData) (w : World) :
  let rq := {| verb := GET; url := "/accounts/me"; params := []; body := JUndefined |} in
  let w' := (initAuth stringify api w).1 in
  let sent := (initAuth stringify api w).2 in
  loading (auth w') = false
  ∧ (sent = [rq] ∧ stored w "token" = true ∧ stored w "user" = true
     ∨ sent = [] ∧ (stored w "token" = false ∨ stored w "user" = false)
       ∧ user (auth w') = user (auth w) ∧ storage w' = storage w)
  ∧ (sent = [rq] → ∀ e, api rq = Failed e →
       stored w' "token" = false ∧ stored w' "user" = false
       ∧ user (auth w') = user (auth w))
  ∧ (sent = [rq] → ∀ d, api rq = Ok d →
       user (auth w') = Some (u_user d)
       ∧ storage w' !! "user" = Some (stringify (u_user d))
       ∧ storage w' !! "token" = storage w !! "token").
Proof.
  intros rq w' sent. subst w' sent. unfold initAuth. fold rq.
  destruct (stored w "token") eqn:Ht, (stored w "user") eqn:Hu; simpl;
    try (split; [done|]; split; [right; by auto|]; split; discriminate).
  destruct (api rq) as [d|e] eqn:E; simpl.
  - split; [done|]. split; [left; done|]. split; [intros _ e'; discriminate|].
    intros _ d' [= <-]. rewrite lookup_insert_eq, lookup_insert_ne by done. done.
  - split; [done|]. split; [left; done|]. split; [|intros _ d'; discriminate].
    intros _ e' _. unfold stored. simpl.
    by rewrite lookup_delete_ne, !lookup_delete_eq.
Qed.

End SessionFacts.

(** ** Navigation and the route table *)

Section NavigationFacts.
Import Auth Route.

Lemma nav_links_analytics (ctx : AuthValue) :
  ("/analytics", "Analytics") ∈ Layout.nav_links ctx
  ↔ role_is (v_user ctx) "teacher" || isAdmin ctx = true.
Proof.
  unfold Layout.nav_links.
  destruct (role_is (v_user ctx) "student"), (role_is (v_user ctx) "teacher"),
           (isAdmin ctx); simpl; split; intros H; try done;
    try (repeat (apply elem_of_cons in H as [[=]|H]); by apply elem_of_nil in H);
    repeat (first [left; reflexivity | right]).
Qed.

Lemma nav_links_users (ctx : AuthValue) :
  ("/admin/users", "Users") ∈ Layout.nav_links ctx ↔ isAdmin ctx = true.
Proof.
  unfold Layout.nav_links.
  destruct (role_is (v_user ctx) "student"), (role_is (v_user ctx) "teacher"),
           (isAdmin ctx); simpl; split; intros H; try done;
    try (repeat (apply elem_of_cons in H as [[=]|H]); by apply elem_of_nil in H);
    repeat (first [left; reflexivity | right]).
Qed.

(** X15. The navigation bar agrees with the guards of the pages it links
    to: the Analytics link is shown exactly to the users whom the teacher
    analytics page does not deny, and, for a signed-in user once loading is
    over, the Users link is shown exactly when the /admin/users route
    renders its page. *)
Theorem nav_links_match_guards {A} (st : AuthState) (tst : TeacherAnalytics.State)
    (AdminUsersPage : A) :
  (("/analytics", "Analytics") ∈ Layout.nav_links (value st)
   ↔ TeacherAnalytics.render (value st) tst ≠ TeacherAnalytics.AccessDenied)
  ∧ (loading st = false → user st ≠ None →
     (("/admin/users", "Users") ∈ Layout.nav_links (value st)
      ↔ App.admin_users_route st AdminUsersPage = Children AdminUsersPage)).
Proof.
  split.
  - rewrite nav_links_analytics. unfold TeacherAnalytics.render. simpl.
    destruct (role_is (user st) "teacher"), (role_is (user st) "admin"); simpl;
      split; intros H; try done; try (by destruct (TeacherAnalytics.loading tst)).
  - intros Hl Hu. rewrite nav_links_users.
    unfold App.admin_users_route, ProtectedRoute. simpl. rewrite Hl.
    destruct (user st) as [u|]; [|done]. simpl.
    destruct (String.eqb (role u) "admin"); simpl; split; intros H; done.
Qed.

(** X16. With nobody signed in and loading over, no entry of the route
    table renders a page other than the login and the registration page:
    every other entry redirects, and the redirects of the table end at the
    login page within two steps. *)
Theorem routes_closed_to_visitors (st : AuthState) (e : Routes.Entry) :
  loading st = false → user st = None →
  match Routes.element (value st) e with
  | Children p => p = Routes.LoginPage ∨ p = Routes.RegisterPage
  | Navigate to =>
      ∃ e1, Routes.target to = Some e1
            ∧ (Routes.element (value st) e1 = Children Routes.LoginPage
               ∨ ∃ e2, Routes.element (value st) e1 = Navigate "/login"
                       ∧ Routes.target "/login" = Some e2
                       ∧ Routes.element (value st) e2 = Children Routes.LoginPage)
  | LoadingScreen => False
  end.
Proof.
  intros Hl Hu.
  assert (Hp : ∀ (req : option string) (p : Routes.Page),
             ProtectedRoute (value st) req p = Navigate "/login").
  { intros req p. unfold ProtectedRoute. simpl. by rewrite Hl, Hu. }
  destruct e; simpl; rewrite ?Hp; auto;
    try (exists Routes.r_login; split; [reflexivity | by left]);
    exists Routes.r_dashboard; (split; [reflexivity|]); right;
    exists Routes.r_login; simpl; by rewrite Hp.
Qed.

Lemma routes_closed_to_visitors_witness :
  loading MoreSamples.signed_out = false ∧ user MoreSamples.signed_out = None
  ∧ Routes.element (value MoreSamples.signed_out) Routes.r_progress
    ≠ Children Routes.ProgressDashboard.
Proof.
  split; [reflexivity|]. split; [reflexivity|]. intros E.
  pose proof (routes_closed_to_visitors MoreSamples.signed_out Routes.r_progress
                eq_refl eq_refl) as H.
  rewrite E in H. destruct H as [H|H]; discriminate H.
Defined.

(** X17. The user-management page is reached only by an administrator:
    the route table renders it only when [isAdmin] holds, and the component
    itself returns nothing and asks the server for no user list
    otherwise. *)
Theorem admin_page_only_for_admin (st : AuthState) (e : Routes.Entry)
    (api : Http.Request → Http.Reply AdminUsersPage.Page) (ast : AdminUsersPage.State) :
  (Routes.element (value st) e = Children Routes.AdminUsersPage →
   isAdmin (value st) = true)
  ∧ (isAdmin (value st) = false →
     AdminUsersPage.renders (isAdmin (value st)) = false
     ∧ AdminUsersPage.fetchUsers_effect api (isAdmin (value st)) ast = (ast, [])).
Proof.
  split.
  - destruct e; simpl; unfold ProtectedRoute; simpl;
      try (intros H; discriminate H);
      destruct (loading st); try (intros H; discriminate H);
      destruct (user st) as [u|]; simpl; try (intros H; discriminate H).
    by destruct (String.eqb (role u) "admin").
  - intros Ha. unfold AdminUsersPage.renders, AdminUsersPage.fetchUsers_effect.
    by rewrite Ha.
Qed.

End NavigationFacts.

(** ** User management *)

Section AdminFacts.
Import Http AdminUsersPage.

Lemma filter_sublist {A} (f : A → bool) (l : list A) : List.filter f l `sublist_of` l.
Proof.
  induction l as [|x l IH]; simpl; [constructor|].
  destruct (f x); by constructor.
Qed.

(** X18. [handleDelete] does nothing when the confirmation is declined.
    Otherwise it sends one DELETE for that user; when the server accepts,
    exactly the rows with that id leave the table and the others keep their
    order; when it refuses, the table is unchanged and the error is the
    server's text or "Failed to delete user". *)
Theorem handleDelete_outcome (api : Request → Reply unit) (confirmed : bool)
    (userId : string) (st : State) :
  let after := handleDelete api confirmed userId st in
  (confirmed = false → after = (st, []))
  ∧ (confirmed = true →
     after.2 = [{| verb := DELETE; url := "/accounts/users/" +:+ userId;
                   params := []; body := JUndefined |}]
     ∧ match api (accountService.deleteUser userId) with
       | Ok _ =>
           (∀ u, u ∈ users after.1 ↔ u ∈ users st ∧ id u ≠ userId)
           ∧ users after.1 `sublist_of` users st
           ∧ error after.1 = error st
       | Failed e =>
           users after.1 = users st
           ∧ error after.1 = error_or e "Failed to delete user"
           ∧ success after.1 = success st
       end).
Proof.
  intros after. subst after. unfold handleDelete.
  split; [by intros ->|]. intros ->. simpl.
  destruct (api (accountService.deleteUser userId)) as [[]|e]; simpl.
  - split; [done|]. split; [|split; [apply filter_sublist | done]].
    intros u. rewrite !list_elem_of_In, filter_In, negb_true_iff.
    by rewrite String.eqb_neq.
  - by repeat split.
Qed.

(** X19. [handleRoleChange] sends one PUT with the new role.  When the
    server accepts, the table keeps its rows in place: a row with that id
    gets the new role and nothing else of it changes, every other row is
    untouched.  When the server refuses, the table is unchanged. *)
Theorem handleRoleChange_outcome (api : Request → Reply unit)
    (userId newRole : string) (st : State) :
  let after := handleRoleChange api userId newRole st in
  after.2 = [{| verb := PUT; url := "/accounts/users/" +:+ userId +:+ "/role";
                params := []; body := JObj [("role", JStr newRole)] |}]
  ∧ match api (accountService.updateUserRole userId newRole) with
    | Ok _ =>
        length (users after.1) = length (users st)
        ∧ ∀ i u, users st !! i = Some u →
                 ∃ u', users after.1 !! i = Some u'
                       ∧ id u' = id u ∧ is_active u' = is_active u
                       ∧ full_name u' = full_name u ∧ email u' = email u
                       ∧ (id u = userId → role u' = newRole)
                       ∧ (id u ≠ userId → u' = u)
    | Failed e =>
        users after.1 = users st
        ∧ error after.1 = error_or e "Failed to update role"
    end.
Proof.
  intros after. subst after. unfold handleRoleChange.
  destruct (api (accountService.updateUserRole userId newRole)) as [[]|e]; simpl.
  - split; [done|]. split; [by rewrite length_fmap|].
    intros i u Hu. rewrite list_lookup_fmap, Hu. simpl.
    destruct (String.eqb_spec (id u) userId) as [E|E]; eexists; (split; [done|]);
      by repeat split.
  - by repeat split.
Qed.

(** X20. Toggling a user's status twice brings the table back: when the
    rows with that id have the status passed to the first call and the
    server accepts both calls, the second call, made with the new status,
    restores every row. *)
Theorem handleToggleStatus_twice (api : Request → Reply unit) (userId : string)
    (isActive : bool) (st : State) :
  (∀ u, u ∈ users st → id u = userId → is_active u = isActive) →
  (∀ rq, api rq = Ok tt) →
  let once := (handleToggleStatus api userId isActive st).1 in
  let twice := (handleToggleStatus api userId (negb isActive) once).1 in
  (∀ u, u ∈ users once → id u = userId → is_active u = negb isActive)
  ∧ users twice = users st.
Proof.
  intros Hrows Hok once twice. subst once twice. unfold handleToggleStatus.
  rewrite !Hok. simpl. split.
  - intros u Hu Hid. apply list_elem_of_fmap in Hu as (v & -> & Hv).
    destruct (String.eqb_spec (id v) userId) as [E|E]; [done|].
    destruct (String.eqb_spec (id v) userId); done.
  - rewrite <- list_fmap_compose. rewrite <- (list_fmap_id (users st)) at 2.
    apply list_fmap_ext. intros i u Hu. simpl.
    destruct (String.eqb_spec (id u) userId) as [E|E]; simpl.
    + rewrite E, String.eqb_refl, negb_involutive.
      apply list_elem_of_lookup_2 in Hu. rewrite <- (Hrows u Hu E).
      by destruct u.
    + by destruct (String.eqb_spec (id u) userId).
Qed.

Lemma handleToggleStatus_twice_witness :
  (∀ u, u ∈ users MoreSamples.admin_table → id u = "u2" → is_active u = true)
  ∧ (∀ rq : Request, MoreSamples.accepting rq = Ok tt)
  ∧ users (handleToggleStatus MoreSamples.accepting "u2" false
             (handleToggleStatus MoreSamples.accepting "u2" true
                MoreSamples.admin_table).1).1
    = users MoreSamples.admin_table.
Proof.
  assert (H : ∀ u, u ∈ users MoreSamples.admin_table → id u = "u2" → is_active u = true).
  { intros u Hu Hid. simpl in Hu.
    repeat (apply elem_of_cons in Hu as [->|Hu]); try done.
    by apply elem_of_nil in Hu. }
  split; [exact H|]. split; [done|].
  exact (proj2 (handleToggleStatus_twice MoreSamples.accepting "u2" true
                  MoreSamples.admin_table H (λ _, eq_refl))).
Defined.

(** X21. For an administrator the list effect sends one GET of the users
    with the page and 10 per page; a role and a status filter are sent
    exactly when one is selected.  A refusal keeps the rows and the
    pagination and sets the error; either way loading ends. *)
Theorem fetchUsers_request (api : Request → Reply Page) (st : State) :
  let after := fetchUsers_effect api true st in
  ∃ rq, after.2 = [rq]
        ∧ verb rq = GET ∧ url rq = "/accounts/users"
        ∧ assoc "page" (params rq) = JNum (page st)
        ∧ assoc "per_page" (params rq) = JNum 10
        ∧ assoc "role" (params rq)
          = (if String.eqb (roleFilter st) "" then JUndefined else JStr (roleFilter st))
        ∧ assoc "is_active" (params rq)
          = (if String.eqb (statusFilter st) "" then JUndefined
             else JStr (statusFilter st))
        ∧ loading after.1 = false
        ∧ match api rq with
          | Ok data => users after.1 = d_users data
                       ∧ pagination after.1 = d_pagination data
          | Failed e => users after.1 = users st
                        ∧ pagination after.1 = pagination st
                        ∧ error after.1 = error_or e "Failed to load users"
          end.
Proof.
  intros after. subst after. unfold fetchUsers_effect.
  exists (accountService.getAllUsers (fetch_params st)).
  split; [by destruct (api _)|]. split; [done|]. split; [done|].
  unfold fetch_params. simpl.
  split; [done|]. split; [done|].
  split; [by destruct (String.eqb (roleFilter st) ""), (String.eqb (statusFilter st) "")|].
  split; [by destruct (String.eqb (roleFilter st) ""), (String.eqb (statusFilter st) "")|].
  by destruct (api _).
Qed.

End AdminFacts.

(** ** Account settings *)

Section AccountFacts.
Import Http Auth AuthProvider AccountEditPage.

(** X22. The password form sends nothing when the new password and its
    confirmation differ: it shows "New passwords do not match" and keeps the
    three fields.  When they agree it sends one PUT with the current and the
    new password; on success the three fields are emptied, on refusal they
    are kept and the error is the server's text or "Password change
    failed".  Loading is over in every case. *)
Theorem handlePasswordSubmit_outcome (api : Request → Reply unit) (st : State)
    (w : World) :
  let pw := passwordData st in
  let rq := {| verb := PUT; url := "/accounts/me/password"; params := [];
               body := JObj [("current_password", JStr (current_password pw));
                             ("new_password", JStr (new_password pw))] |} in
  let '(st', w', sent) := handlePasswordSubmit api st w in
  loading st' = false
  ∧ (new_password pw ≠ confirm_password pw →
     sent = [] ∧ w' = w ∧ passwordData st' = pw
     ∧ error st' = "New passwords do not match" ∧ success st' = "")
  ∧ (new_password pw = confirm_password pw →
     sent = [rq]
     ∧ match api rq with
       | Ok _ =>
           passwordData st'
           = {| current_password := ""; new_password := ""; confirm_password := "" |}
           ∧ success st' = "Password changed successfully!" ∧ error st' = ""
       | Failed e =>
           passwordData st' = pw ∧ success st' = ""
           ∧ error st' = error_or e "Password change failed"
       end).
Proof.
  intros pw rq. unfold handlePasswordSubmit. fold pw.
  destruct (String.eqb_spec (new_password pw) (confirm_password pw)) as [E|E]; simpl.
  - unfold changePassword. fold rq. destruct (api rq) as [[]|e]; simpl;
      (split; [done|]); (split; [done|]); intros _; by repeat split.
  - split; [done|]. split; [by repeat split | done].
Qed.

End AccountFacts.

(** ** Uploading a module *)

Section UploadFacts.
Import TeacherUploadPage.

Variable trim : string → string.

Lemma str_or_nonempty (a b : string) : b ≠ "" → str_or a b ≠ "".
Proof. intros Hb. unfold str_or. by destruct (String.eqb_spec a ""). Qed.

Lemma failure_text_nonempty (detail : option string) (message fallback : string) :
  fallback ≠ "" → failure_text detail message fallback ≠ "".
Proof. intros H. unfold failure_text. by apply str_or_nonempty. Qed.

(** X23. [handleUpload] calls the server only when the trimmed module name
    is not empty and both files are selected; otherwise it changes nothing
    but the error, which names the first missing input. *)
Theorem handleUpload_validates
    (upload : File → File → string → Reply UploadResponse)
    (extract : string → Reply SkeletonResponse) (st : State) :
  let after := handleUpload trim upload extract st in
  (after.2 ≠ []
   ↔ trim (moduleName st) ≠ "" ∧ is_Some (textbookFile st)
     ∧ is_Some (teacherGuideFile st))
  ∧ (after.2 = [] →
     after.1 = set_error
                 (if String.eqb (trim (moduleName st)) "" then "Module name is required"
                  else match textbookFile st with
                       | None => "Please select a textbook PDF"
                       | Some _ => "Please select a teacher guide PDF"
                       end) st)
  ∧ (∀ tb tg n rest, after.2 = uploadModule tb tg n :: rest →
       textbookFile st = Some tb ∧ teacherGuideFile st = Some tg
       ∧ n = trim (moduleName st)).
Proof.
  intros after. subst after. unfold handleUpload.
  destruct (String.eqb_spec (trim (moduleName st)) "") as [E|E]; simpl.
  { split; [split; [done | by intros (? & _)]|]. split; [done|]. discriminate. }
  destruct (textbookFile st) as [tb|], (teacherGuideFile st) as [tg|]; simpl;
    try (split; [split; [done | by intros (_ & [? ?] & [? ?])]|];
         split; [done | discriminate]).
  destruct (upload tb tg (trim (moduleName st))) as [r|d m]; simpl;
    [destruct (up_success r); simpl|];
    (split; [split; [intros _; by eauto | done]|]);
    (split; [discriminate|]); by intros tb' tg' n rest [= <- <- <-].
Qed.

(** X24. Once the inputs are valid, [handleUpload] always ends with
    [uploading] off, in one of three ways: at step 3 with the skeleton and
    no error, after both calls; back at step 0 with an error, after a failed
    upload; or at step 1 with an error, after an upload that succeeded and
    an extraction that did not, where none of the four panels under the
    stepper is rendered. *)
Theorem handleUpload_ends
    (upload : File → File → string → Reply UploadResponse)
    (extract : string → Reply SkeletonResponse) (st : State) :
  trim (moduleName st) ≠ "" → is_Some (textbookFile st) →
  is_Some (teacherGuideFile st) →
  let after := (handleUpload trim upload extract st).1 in
  let calls := (handleUpload trim upload extract st).2 in
  uploading after = false
  ∧ ((activeStep after = 3 ∧ is_Some (skeleton after) ∧ error after = ""
      ∧ length calls = 2%nat
      ∧ result_shown after = true ∧ details_shown after = true)
     ∨ (activeStep after = 0 ∧ error after ≠ "" ∧ length calls = 1%nat
        ∧ form_shown after = true ∧ uploadStatus after = uploadStatus st)
     ∨ (activeStep after = 1 ∧ error after ≠ "" ∧ length calls = 2%nat
        ∧ is_Some (uploadStatus after)
        ∧ form_shown after = false ∧ progress_shown after = false
        ∧ details_shown after = false ∧ result_shown after = false)).
Proof.
  intros Hn [tb Htb] [tg Htg] after calls. subst after calls. unfold handleUpload.
  destruct (String.eqb_spec (trim (moduleName st)) ""); [done|].
  rewrite Htb, Htg.
  assert (Hsome : ∀ {X} (x : X), bool_decide (is_Some (Some x)) = true)
    by (intros; apply bool_decide_eq_true_2; by eexists).
  destruct (upload tb tg (trim (moduleName st))) as [r|d m]; simpl.
  - destruct (up_success r); simpl.
    + unfold extractSkeleton.
      destruct (extract (upload_id r)) as [s|d m]; simpl.
      * destruct (sk_success s), (sk_skeleton s) as [sk|]; simpl;
          (split; [done|]);
          unfold form_shown, progress_shown, details_shown, result_shown; simpl;
          rewrite ?Hsome, ?andb_false_r;
          try (left; repeat split; by eauto);
          right; right; repeat split; by eauto.
      * split; [done|]. right. right.
        unfold form_shown, progress_shown, details_shown, result_shown; simpl.
        rewrite ?Hsome, ?andb_false_r.
        split; [done|]. split; [by apply failure_text_nonempty|].
        repeat split; by eauto.
    + split; [done|]. right. left.
      split; [done|]. split; [by apply str_or_nonempty|]. by repeat split.
  - split; [done|]. right. left.
    split; [done|]. split; [by apply failure_text_nonempty|]. by repeat split.
Qed.

(** The dead end on the sample run: upload accepted, extraction refused. *)
Example upload_dead_end :
  let after := (handleUpload id MoreSamples.upload_ok MoreSamples.extract_fails
                  MoreSamples.ready_to_upload).1 in
  activeStep after = 1 ∧ error after = "Failed to extract skeleton"
  ∧ form_shown after || progress_shown after || details_shown after
    || result_shown after = false.
Proof. by vm_compute. Qed.

(** "Only PDFs are selected." *)
Lemma pdf_only_textbook (file : option File) (st : State) :
  (∀ f, textbookFile st = Some f → type f = "application/pdf") →
  ∀ f, textbookFile (handleTextbookChange file st) = Some f → type f = "application/pdf".
Proof.
  intros H f. unfold handleTextbookChange. destruct file as [g|]; [|apply H].
  destruct (String.eqb_spec (type g) "application/pdf") as [E|E]; simpl; [|apply H].
  by intros [= <-].
Qed.

Lemma pdf_only_guide (file : option File) (st : State) :
  (∀ f, teacherGuideFile st = Some f → type f = "application/pdf") →
  ∀ f, teacherGuideFile (handleTeacherGuideChange file st) = Some f →
       type f = "application/pdf".
Proof.
  intros H f. unfold handleTeacherGuideChange. destruct file as [g|]; [|apply H].
  destruct (String.eqb_spec (type g) "application/pdf") as [E|E]; simpl; [|apply H].
  by intros [= <-].
Qed.

(** X25. The two file inputs only ever select PDFs: choosing a file of
    another type in either input sets that input's error and keeps the file
    selected before, choosing a PDF in either input selects it and clears
    the error, closing the dialog without a file changes nothing, and
    neither input ever touches the other's file.  So from a state whose
    selected files are PDFs every sequence of choices leads to a state
    whose selected files are PDFs. *)
Theorem file_inputs_keep_pdfs (choices : list (bool * option File)) (st : State) :
  (∀ f, textbookFile st = Some f ∨ teacherGuideFile st = Some f →
        type f = "application/pdf") →
  let choose (acc : State) (c : bool * option File) :=
    if c.1 then handleTextbookChange c.2 acc else handleTeacherGuideChange c.2 acc in
  (∀ f, textbookFile (foldl choose st choices) = Some f
        ∨ teacherGuideFile (foldl choose st choices) = Some f →
        type f = "application/pdf")
  ∧ (∀ g, type g ≠ "application/pdf" →
          textbookFile (handleTextbookChange (Some g) st) = textbookFile st
          ∧ error (handleTextbookChange (Some g) st) = "Textbook must be a PDF file"
          ∧ teacherGuideFile (handleTeacherGuideChange (Some g) st) = teacherGuideFile st
          ∧ error (handleTeacherGuideChange (Some g) st)
            = "Teacher guide must be a PDF file")
  ∧ (∀ g, type g = "application/pdf" →
          textbookFile (handleTextbookChange (Some g) st) = Some g
          ∧ error (handleTextbookChange (Some g) st) = ""
          ∧ teacherGuideFile (handleTextbookChange (Some g) st) = teacherGuideFile st)
  ∧ (∀ g, type g = "application/pdf" →
          teacherGuideFile (handleTeacherGuideChange (Some g) st) = Some g
          ∧ error (handleTeacherGuideChange (Some g) st) = ""
          ∧ textbookFile (handleTeacherGuideChange (Some g) st) = textbookFile st)
  ∧ (∀ file, teacherGuideFile (handleTextbookChange file st) = teacherGuideFile st
             ∧ textbookFile (handleTeacherGuideChange file st) = textbookFile st)
  ∧ handleTextbookChange None st = st
  ∧ handleTeacherGuideChange None st = st.
Proof.
  intros Hst choose. split; [|split; [|split; [|split; [|split; [|by split]]]]].
  - revert st Hst. induction choices as [|[b file] cs IH]; intros st Hst; [exact Hst|].
    simpl. apply IH. intros f. unfold choose. simpl. destruct b.
    + intros [H|H].
      * apply (pdf_only_textbook file st); [intros; apply Hst; by left | done].
      * apply Hst. right. revert H. unfold handleTextbookChange.
        destruct file as [g|]; [|done]. by destruct (String.eqb (type g) _).
    + intros [H|H].
      * apply Hst. left. revert H. unfold handleTeacherGuideChange.
        destruct file as [g|]; [|done]. by destruct (String.eqb (type g) _).
      * apply (pdf_only_guide file st); [intros; apply Hst; by right | done].
  - intros g Hg. unfold handleTextbookChange, handleTeacherGuideChange.
    apply String.eqb_neq in Hg. by rewrite Hg.
  - intros g Hg. unfold handleTextbookChange. rewrite Hg. done.
  - intros g Hg. unfold handleTeacherGuideChange. rewrite Hg. done.
  - intros file. unfold handleTextbookChange, handleTeacherGuideChange.
    destruct file as [g|]; [|done]. by destruct (String.eqb (type g) _).
Qed.

End UploadFacts.

Lemma handleUpload_ends_witness :
  id (TeacherUploadPage.moduleName MoreSamples.ready_to_upload) ≠ ""
  ∧ is_Some (TeacherUploadPage.textbookFile MoreSamples.ready_to_upload)
  ∧ is_Some (TeacherUploadPage.teacherGuideFile MoreSamples.ready_to_upload)
  ∧ TeacherUploadPage.uploading
      (TeacherUploadPage.handleUpload id MoreSamples.upload_ok MoreSamples.extract_fails
         MoreSamples.ready_to_upload).1 = false.
Proof.
  assert (H1 : id (TeacherUploadPage.moduleName MoreSamples.ready_to_upload) ≠ "")
    by done.
  assert (H2 : is_Some (TeacherUploadPage.textbookFile MoreSamples.ready_to_upload))
    by (by eexists).
  assert (H3 : is_Some (TeacherUploadPage.teacherGuideFile MoreSamples.ready_to_upload))
    by (by eexists).
  split; [exact H1|]. split; [exact H2|]. split; [exact H3|].
  exact (proj1 (handleUpload_ends id MoreSamples.upload_ok MoreSamples.extract_fails
                  MoreSamples.ready_to_upload H1 H2 H3)).
Defined.

Lemma file_inputs_keep_pdfs_witness :
  (∀ f, TeacherUploadPage.textbookFile MoreSamples.ready_to_upload = Some f
        ∨ TeacherUploadPage.teacherGuideFile MoreSamples.ready_to_upload = Some f →
        TeacherUploadPage.type f = "application/pdf")
  ∧ (∀ f, TeacherUploadPage.textbookFile
            (foldl (λ acc (c : bool * option TeacherUploadPage.File),
                      if c.1 then TeacherUploadPage.handleTextbookChange c.2 acc
                      else TeacherUploadPage.handleTeacherGuideChange c.2 acc)
                   MoreSamples.ready_to_upload MoreSamples.some_choices) = Some f
          ∨ TeacherUploadPage.teacherGuideFile
              (foldl (λ acc (c : bool * option TeacherUploadPage.File),
                        if c.1 then TeacherUploadPage.handleTextbookChange c.2 acc
                        else TeacherUploadPage.handleTeacherGuideChange c.2 acc)
                     MoreSamples.ready_to_upload MoreSamples.some_choices) = Some f →
          TeacherUploadPage.type f = "application/pdf")
  ∧ TeacherUploadPage.textbookFile
      (TeacherUploadPage.handleTextbookChange (Some MoreSamples.spreadsheet)
         MoreSamples.ready_to_upload) = Some MoreSamples.textbook
  ∧ TeacherUploadPage.error
      (TeacherUploadPage.handleTextbookChange (Some MoreSamples.spreadsheet)
         MoreSamples.ready_to_upload) = "Textbook must be a PDF file"
  ∧ TeacherUploadPage.teacherGuideFile
      (TeacherUploadPage.handleTeacherGuideChange (Some MoreSamples.revised_guide)
         MoreSamples.ready_to_upload) = Some MoreSamples.revised_guide
  ∧ TeacherUploadPage.textbookFile
      (TeacherUploadPage.handleTeacherGuideChange (Some MoreSamples.revised_guide)
         MoreSamples.ready_to_upload) = Some MoreSamples.textbook.
Proof.
  assert (H : ∀ f, TeacherUploadPage.textbookFile MoreSamples.ready_to_upload = Some f
                   ∨ TeacherUploadPage.teacherGuideFile MoreSamples.ready_to_upload
                     = Some f →
                   TeacherUploadPage.type f = "application/pdf")
    by (intros f [H|H]; injection H as <-; reflexivity).
  split; [exact H|].
  destruct (file_inputs_keep_pdfs MoreSamples.some_choices
              MoreSamples.ready_to_upload H)
    as (Hall & Hbad & _ & Hguide & _).
  split; [exact Hall|].
  destruct (Hbad MoreSamples.spreadsheet ltac:(discriminate)) as (Hkept & Herr & _).
  destruct (Hguide MoreSamples.revised_guide eq_refl) as (Hsel & _ & Hother).
  split; [exact Hkept|]. split; [exact Herr|]. split; [exact Hsel | exact Hother].
Defined.

(** ** The content viewer *)

Section ViewerFacts.
Import StudentContentViewer.

(** The topics that the items of unit [k] contribute, in order. *)
Lemma add_items_units (items : list Item) (us us' : gmap string (list Topic)) :
  add_items us items = Some us' →
  ∀ k, default [] (us' !! k)
       = default [] (us !! k)
         ++ (topic_of <$> List.filter (λ i, String.eqb (unit_key i) k) items).
Proof.
  revert us. induction items as [|item items IH]; intros us H k; simpl in *.
  - injection H as <-. by rewrite app_nil_r.
  - unfold add_item in H. case_bool_decide; [discriminate|].
    rewrite (IH _ H k). rewrite lookup_insert.
    destruct (decide (unit_key item = k)) as [<-|Hne].
    + rewrite String.eqb_refl. simpl. by rewrite <- app_assoc.
    + apply String.eqb_neq in Hne. by rewrite Hne.
Qed.

Lemma add_items_keys (items : list Item) (us us' : gmap string (list Topic)) :
  add_items us items = Some us' →
  ∀ k, is_Some (us' !! k) ↔ is_Some (us !! k) ∨ ∃ i, i ∈ items ∧ unit_key i = k.
Proof.
  revert us. induction items as [|item items IH]; intros us H k; simpl in *.
  - injection H as <-. split; [by left|]. intros [?|(i & Hi & _)]; [done|].
    by apply elem_of_nil in Hi.
  - unfold add_item in H. case_bool_decide; [discriminate|].
    rewrite (IH _ H k), lookup_insert.
    destruct (decide (unit_key item = k)) as [E|Hne]; simpl.
    + split; [intros _; right; exists item; split; [left|done] | intros _; left; by eexists].
    + split.
      * intros [?|(i & Hi & Hk)]; [by left|]. right. exists i. split; [by right|done].
      * intros [?|(i & Hi & Hk)]; [by left|]. right. exists i. split; [|done].
        apply elem_of_cons in Hi as [->|Hi]; [done|exact Hi].
Qed.

Lemma add_items_throws (items : list Item) (us : gmap string (list Topic)) :
  add_items us items = None ↔ ∃ i, i ∈ items ∧ unit_key i ∈ inherited_keys.
Proof.
  revert us. induction items as [|item items IH]; intros us; simpl.
  - split; [discriminate|]. intros (i & Hi & _). by apply elem_of_nil in Hi.
  - unfold add_item. case_bool_decide as Hk.
    + split; [intros _|done]. exists item. split; [left|done].
    + rewrite IH. split; intros (i & Hi & Hin); exists i; (split; [|done]).
      * by right.
      * apply elem_of_cons in Hi as [->|Hi]; [done|exact Hi].
Qed.

(** X26. When no item's unit is named like a property that every object
    inherits, the tree is built, and it groups the items by
    [unit_name || 'General']: a unit exists exactly when some item belongs
    to it, and it holds the topics of its items in their original order. *)
Theorem treeStructure_groups (c : Content) (items : list Item) :
  contents c = Some items →
  (∀ i, i ∈ items → unit_key i ∉ inherited_keys) →
  ∃ s, treeStructure (Some c) = Built s
       ∧ s_moduleName s = module_name c
       ∧ ∀ k, (is_Some (units s !! k) ↔ ∃ i, i ∈ items ∧ unit_key i = k)
              ∧ default [] (units s !! k)
                = topic_of <$> List.filter (λ i, String.eqb (unit_key i) k) items.
Proof.
  intros Hc Hok. unfold treeStructure. rewrite Hc.
  destruct (add_items ∅ items) as [us|] eqn:E.
  - eexists. split; [done|]. split; [done|]. intros k. simpl. split.
    + rewrite (add_items_keys _ _ _ E k), lookup_empty.
      split; [intros [[? ?]|?]; done | by right].
    + by rewrite (add_items_units _ _ _ E k), lookup_empty.
  - apply add_items_throws in E as (i & Hi & Hin). by destruct (Hok i Hi).
Qed.

(** X27. One item whose unit is named like an inherited property
    ("constructor", "toString", "__proto__", ...) makes the tree hook throw,
    so the component fails to render for every viewer, before any of its
    guards is reached. *)
Theorem treeStructure_throws_on_inherited_key (c : Content) (items : list Item)
    (i : Item) (isStudent loading : bool) (error : string) :
  contents c = Some items → i ∈ items → unit_key i ∈ inherited_keys →
  treeStructure (Some c) = Throws
  ∧ render isStudent loading error (Some c) = Crashed.
Proof.
  intros Hc Hi Hk.
  assert (H : treeStructure (Some c) = Throws).
  { unfold treeStructure. rewrite Hc.
    destruct (add_items ∅ items) eqn:E; [|done].
    assert (add_items ∅ items = None) as E' by (apply add_items_throws; eauto).
    congruence. }
  split; [exact H|]. unfold render. by rewrite H.
Qed.

Lemma distinct_subset (seen xs : list (option string)) (x : option string) :
  x ∈ distinct seen xs → x ∈ xs.
Proof.
  revert seen. induction xs as [|y xs IH]; intros seen; simpl; [done|].
  case_bool_decide.
  - intros H'. right. by eapply IH.
  - intros [->|H']%elem_of_cons; [left | right; by eapply IH].
Qed.

(** X28. Items without a unit name are grouped under "General", but the
    units opened on load are the raw unit names: unless some item is
    literally named "General", that unit exists in the tree, holds those
    items' topics, and is not among the expanded units. *)
Theorem general_unit_not_expanded (c : Content) (items : list Item) (s : Structure)
    (i : Item) :
  contents c = Some items → treeStructure (Some c) = Built s →
  i ∈ items → unit_name i = None ∨ unit_name i = Some "" →
  (∀ j, j ∈ items → unit_name j ≠ Some "General") →
  topic_of i ∈ default [] (units s !! "General")
  ∧ unit_open (expanded_units items) "General" = false.
Proof.
  intros Hc Ht Hi Hn Hno. split.
  - unfold treeStructure in Ht. rewrite Hc in Ht.
    destruct (add_items ∅ items) as [us|] eqn:E; [|discriminate].
    injection Ht as <-. simpl.
    rewrite (add_items_units _ _ _ E "General"), lookup_empty. simpl.
    apply list_elem_of_fmap_2, list_elem_of_In, filter_In.
    split; [by apply list_elem_of_In|].
    unfold unit_key. by destruct Hn as [-> | ->].
  - unfold unit_open, expanded_units. apply bool_decide_eq_false_2. intros H.
    apply distinct_subset, list_elem_of_fmap in H as (j & Hj & Hin).
    by apply (Hno j Hin).
Qed.

End ViewerFacts.

Lemma treeStructure_groups_witness :
  StudentContentViewer.contents MoreSamples.module_content
  = Some MoreSamples.module_items
  ∧ (∀ i, i ∈ MoreSamples.module_items →
          StudentContentViewer.unit_key i ∉ StudentContentViewer.inherited_keys)
  ∧ ∃ s, StudentContentViewer.treeStructure (Some MoreSamples.module_content)
         = StudentContentViewer.Built s.
Proof.
  assert (H : ∀ i, i ∈ MoreSamples.module_items →
                   StudentContentViewer.unit_key i ∉ StudentContentViewer.inherited_keys).
  { intros i Hi. unfold MoreSamples.module_items in Hi.
    repeat (apply elem_of_cons in Hi as [->|Hi]);
      try (apply (bool_decide_unpack _); vm_compute; reflexivity).
    by apply elem_of_nil in Hi. }
  split; [reflexivity|]. split; [exact H|].
  destruct (treeStructure_groups MoreSamples.module_content MoreSamples.module_items
              eq_refl H) as (s & Hs & _).
  by exists s.
Defined.

Lemma treeStructure_throws_on_inherited_key_witness :
  StudentContentViewer.contents MoreSamples.bad_content = Some [MoreSamples.bad_item]
  ∧ MoreSamples.bad_item ∈ [MoreSamples.bad_item]
  ∧ StudentContentViewer.unit_key MoreSamples.bad_item
    ∈ StudentContentViewer.inherited_keys
  ∧ StudentContentViewer.render true false "" (Some MoreSamples.bad_content)
    = StudentContentViewer.Crashed.
Proof.
  assert (H1 : MoreSamples.bad_item ∈ [MoreSamples.bad_item]) by left.
  assert (H2 : StudentContentViewer.unit_key MoreSamples.bad_item
               ∈ StudentContentViewer.inherited_keys) by (simpl; left).
  split; [reflexivity|]. split; [exact H1|]. split; [exact H2|].
  exact (proj2 (treeStructure_throws_on_inherited_key MoreSamples.bad_content
                  [MoreSamples.bad_item] MoreSamples.bad_item true false ""
                  eq_refl H1 H2)).
Defined.

Lemma general_unit_not_expanded_witness :
  ∃ s, StudentContentViewer.treeStructure (Some MoreSamples.module_content)
       = StudentContentViewer.Built s
       ∧ StudentContentViewer.unit_open
           (StudentContentViewer.expanded_units MoreSamples.module_items) "General"
         = false.
Proof.
  eexists. split; [reflexivity|].
  refine (proj2 (general_unit_not_expanded MoreSamples.module_content
                   MoreSamples.module_items _ (MoreSamples.item "t3" None "Glossary")
                   eq_refl eq_refl _ (or_introl eq_refl) _)).
  - right. right. left.
  - intros j Hj. unfold MoreSamples.module_items in Hj.
    repeat (apply elem_of_cons in Hj as [->|Hj]); try discriminate.
    by apply elem_of_nil in Hj.
Defined.

(** ** The ECESE request interceptor *)

Section InterceptorFacts.
Import eceseService.

(** X29. When the interceptor lets a request through, it keeps every
    header but Authorization and every parameter but [user_id] and
    [user_role]; with a non-empty token it sets "Bearer <token>"; with a
    stored user whose [id] is truthy it sets both parameters from that
    user, overriding what the caller passed, and otherwise leaves the
    parameters alone; and running it again changes nothing. *)
Theorem intercept_outcome (token : option string) (user : JsVal) (config c' : Config) :
  intercept token user config = Some c' →
  (∀ h, h ≠ "Authorization" → headers c' !! h = headers config !! h)
  ∧ (∀ k, k ≠ "user_id" → k ≠ "user_role" → params c' !! k = params config !! k)
  ∧ (∀ t, token = Some t → t ≠ "" →
          headers c' !! "Authorization" = Some ("Bearer " +:+ t))
  ∧ (token = None ∨ token = Some "" → headers c' = headers config)
  ∧ (∃ i r, prop user "id" = Some i ∧ prop user "role" = Some r
            ∧ (truthy i = true →
               params c' !! "user_id" = Some i ∧ params c' !! "user_role" = Some r)
            ∧ (truthy i = false → params c' = params config))
  ∧ intercept token user c' = Some c'.
Proof.
  unfold intercept.
  destruct (prop user "id") as [i|] eqn:Hi; [|discriminate].
  destruct (prop user "role") as [r|] eqn:Hr; [|discriminate].
  intros [= <-]. simpl.
  split; [|split; [|split; [|split; [|split]]]].
  - intros h Hh. destruct token as [t|]; [|done].
    destruct (String.eqb t ""); [done|]. by rewrite lookup_insert_ne.
  - intros k H1 H2. destruct (truthy i); [|done]. by rewrite !lookup_insert_ne.
  - intros t -> Ht. apply String.eqb_neq in Ht. by rewrite Ht, lookup_insert_eq.
  - by intros [-> | ->].
  - exists i, r. split; [done|]. split; [done|]. split.
    + intros ->. by rewrite lookup_insert_eq, lookup_insert_ne, lookup_insert_eq.
    + by intros ->.
  - f_equal. f_equal.
    + destruct token as [t|]; [|done]. destruct (String.eqb t ""); [done|].
      by rewrite insert_insert_eq.
    + destruct (truthy i); [|done].
      apply map_eq. intros k. rewrite !lookup_insert.
      by repeat case_decide.
Qed.

End InterceptorFacts.

Lemma intercept_outcome_witness :
  ∃ c', eceseService.intercept (Some "abc") MoreSamples.stored_teacher
          MoreSamples.plain_config = Some c'
        ∧ eceseService.headers c' !! "Authorization" = Some "Bearer abc".
Proof.
  eexists. split; [reflexivity|].
  exact (proj1 (proj2 (proj2 (intercept_outcome (Some "abc") MoreSamples.stored_teacher
                                MoreSamples.plain_config _ eq_refl)))
           "abc" eq_refl ltac:(discriminate)).
Defined.

(** ** Account actions and the token *)

Section TokenFacts.
Import Http Auth AuthProvider.

Variable stringify : User → string.

(** X30. Updating the profile, the password or the e-mail address never
    touches the stored token.  A refused update leaves the signed-in user
    and [localStorage] as they were; an accepted profile or e-mail update
    makes the user that the server returned both the signed-in and the
    stored one; a password change never changes either. *)
Theorem account_updates_keep_token (apiU : Request → Reply UserData)
    (apiP : Request → Reply unit) (profileData : JsVal) (a b : string) (w : World) :
  let op := updateProfile stringify apiU profileData w in
  let oe := updateEmail stringify apiU a b w in
  let oc := changePassword apiP a b w in
  storage op.1.1 !! "token" = storage w !! "token"
  ∧ storage oe.1.1 !! "token" = storage w !! "token"
  ∧ storage oc.1.1 = storage w ∧ user (auth oc.1.1) = user (auth w)
  ∧ (∀ m, op.2 = inl m → user (auth op.1.1) = user (auth w) ∧ storage op.1.1 = storage w)
  ∧ (∀ m, oe.2 = inl m → user (auth oe.1.1) = user (auth w) ∧ storage oe.1.1 = storage w)
  ∧ (∀ u, op.2 = inr u →
          user (auth op.1.1) = Some u ∧ storage op.1.1 !! "user" = Some (stringify u))
  ∧ (∀ u, oe.2 = inr u →
          user (auth oe.1.1) = Some u ∧ storage oe.1.1 !! "user" = Some (stringify u)).
Proof.
  intros op oe oc. subst op oe oc. unfold updateProfile, updateEmail, changePassword.
  destruct (apiU {| verb := PUT; url := "/accounts/me" |}) as [d1|e1];
    destruct (apiU {| verb := PUT; url := "/accounts/me/email" |}) as [d2|e2];
    destruct (apiP _) as [[]|e3]; simpl;
    rewrite ?lookup_insert_ne by done; rewrite ?lookup_insert_eq;
    split_and!; try done; intros x H;
    first [discriminate H | injection H as <-; by split].
Qed.

End TokenFacts.
